(** * slim-express: token verification, refresh-token lifecycle and the
      onboarding state machine

    A shallow embedding of [src/utils/jwt.js] (with the security
    configuration), [src/models/User.js] (with the validators of the
    account paths),
    [src/controllers/authController.js],
    [src/controllers/onboardingController.js], [src/middleware/auth.js],
    [src/middleware/errorHandler.js] and the error handling of
    [src/app.js], followed by the properties of the specification that
    concern them and by further properties of the code.

    Conventions.  Timestamps ([Date] objects, [Date.now()]) are integers,
    milliseconds since the epoch.  The clock and the random token ids are
    arguments of the functions that read them in the source.  A JavaScript
    object used as an attribute bag is a finite map from property names to
    values. *)

From Stdlib Require Import ZArith QArith Qround Lia Ascii String.
From stdpp Require Import base decidable option list strings gmap fin_maps
                          relations pretty.

#[local] Set Warnings "-register-all".
Open Scope Z_scope.

(** ** JavaScript values and built-ins *)

Module JS.

(** The values a profile attribute may hold once Mongoose has cast it.
    Numbers are modelled by integers: the only test the code applies to
    a number is whether it is zero ([NaN] does not pass the cast). *)
Inductive value :=
| VUndefined
| VNull
| VBool (b : bool)
| VNum (n : Z)
| VStr (s : string)
| VDate (ms : Z)
| VArr (items : list value)
| VObj (props : list (string * value)).

(** [ToBoolean]: what [!!v], [v && w] and [if (v)] test. *)
Definition truthy (v : value) : bool :=
  match v with
  | VUndefined | VNull => false
  | VBool b => b
  | VNum n => negb (n =? 0)
  | VStr s => negb (String.eqb s "")
  | VDate _ | VArr _ | VObj _ => true
  end.

(** [v !== undefined && v !== null] *)
Definition notNullish (v : value) : bool :=
  match v with
  | VUndefined | VNull => false
  | _ => true
  end.

(** [a && b] yields [a] when [a] is falsy and [b] otherwise. *)
Definition and (a b : value) : value := if truthy a then b else a.

(** [a || b] on optional strings such as [process.env.X || 'default']:
    an unset or empty variable yields the default. *)
Definition or_default (a : option string) (d : string) : string :=
  match a with
  | Some s => if String.eqb s "" then d else s
  | None => d
  end.

(** An attribute bag; [obj?.key] reads a missing key as [undefined]. *)
Abbreviation bag := (gmap string value).

Definition get (o : bag) (key : string) : value :=
  default VUndefined (o !! key).

(** [Object.assign(target, source)]: keys of [source] win. *)
Definition assign (target source : bag) : bag := source ∪ target.

(** [array.slice(-n)]: the last [n] elements, all of them when there
    are fewer. *)
Definition slice_last {A} (n : nat) (l : list A) : list A :=
  drop (length l - n) l.

(** [Math.round] on an exact rational: the nearest integer, halves
    rounded up. *)
Definition Math_round (q : Q) : Z := Qfloor (q + (1 # 2))%Q.

(** [String.prototype.toLowerCase] on ASCII text. *)
Definition lower_ascii (c : ascii) : ascii :=
  let n := nat_of_ascii c in
  if (Nat.leb 65 n && Nat.leb n 90)%bool then ascii_of_nat (n + 32) else c.

Fixpoint toLowerCase (s : string) : string :=
  match s with
  | EmptyString => EmptyString
  | String c rest => String (lower_ascii c) (toLowerCase rest)
  end.

(** [s.replace(pattern, replacement)] with a string pattern: only the
    first occurrence is replaced. *)
Definition replace (pattern replacement s : string) : string :=
  match String.index 0 pattern s with
  | Some i =>
      (String.substring 0 i s ++ replacement ++
       String.substring (i + String.length pattern)
                        (String.length s - (i + String.length pattern)) s)%string
  | None => s
  end.

(** [s.split('.')]: the pieces between the dots, in order. *)
Fixpoint split_dot (s : string) : list string :=
  match s with
  | EmptyString => [EmptyString]
  | String c rest =>
      if Ascii.eqb c "." then EmptyString :: split_dot rest
      else match split_dot rest with
           | piece :: pieces => String c piece :: pieces
           | [] => [String c EmptyString]
           end
  end.

(** [s.startsWith(prefix)] and [s.substring(n)] *)
Definition startsWith (s prefix : string) : bool := String.prefix prefix s.

Definition substring_from (n : nat) (s : string) : string :=
  String.substring n (String.length s - n) s.

(** ASCII white space, which [\s] and [trim] take off (the text is taken
    to be ASCII). *)
Definition isSpace (c : ascii) : bool :=
  let n := nat_of_ascii c in
  (Nat.leb 9 n && Nat.leb n 13) || Nat.eqb n 32.

Fixpoint trimStart (s : string) : string :=
  match s with
  | EmptyString => EmptyString
  | String c rest => if isSpace c then trimStart rest else s
  end.

Definition reverse (s : string) : string :=
  string_of_list_ascii (rev (list_ascii_of_string s)).

Definition trimEnd (s : string) : string := reverse (trimStart (reverse s)).

Definition trim (s : string) : string := trimEnd (trimStart s).

(** [regex.test(s)] for a character class: some character of [s] is in
    it; and for the anchored pattern [^[class]+$]: [s] is not empty and
    every character is in the class. *)
Definition test_class (class : ascii -> bool) (s : string) : bool :=
  existsb class (list_ascii_of_string s).

Definition test_all (class : ascii -> bool) (s : string) : bool :=
  negb (String.eqb s "") && forallb class (list_ascii_of_string s).

Definition isUpper (c : ascii) : bool :=
  let n := nat_of_ascii c in Nat.leb 65 n && Nat.leb n 90.

Definition isLower (c : ascii) : bool :=
  let n := nat_of_ascii c in Nat.leb 97 n && Nat.leb n 122.

Definition isDigit (c : ascii) : bool :=
  let n := nat_of_ascii c in Nat.leb 48 n && Nat.leb n 57.

(** Regular expressions, as far as the patterns of the schema go:
    character classes, sequence, alternative and repetition.
    [regex_test r s] is [/^r$/.test(s)], the whole of [s] matches [r];
    it is decided by taking the derivative of [r] character by
    character. *)
Inductive regex :=
| RNone
| REmpty
| RClass (class : ascii -> bool)
| RSeq (r s : regex)
| RAlt (r s : regex)
| RStar (r : regex).

Fixpoint nullable (r : regex) : bool :=
  match r with
  | RNone | RClass _ => false
  | REmpty | RStar _ => true
  | RSeq r s => nullable r && nullable s
  | RAlt r s => nullable r || nullable s
  end.

Fixpoint derivative (c : ascii) (r : regex) : regex :=
  match r with
  | RNone | REmpty => RNone
  | RClass class => if class c then REmpty else RNone
  | RSeq r s =>
      if nullable r then RAlt (RSeq (derivative c r) s) (derivative c s)
      else RSeq (derivative c r) s
  | RAlt r s => RAlt (derivative c r) (derivative c s)
  | RStar r => RSeq (derivative c r) (RStar r)
  end.

Fixpoint regex_test (r : regex) (s : string) : bool :=
  match s with
  | EmptyString => nullable r
  | String c rest => regex_test (derivative c r) rest
  end.

(** [r+], [r?], a single character, and [\w] on ASCII text. *)
Definition RPlus (r : regex) : regex := RSeq r (RStar r).
Definition ROpt (r : regex) : regex := RAlt r REmpty.
Definition RChar (c : ascii) : regex := RClass (Ascii.eqb c).

Definition isWord (c : ascii) : bool :=
  isUpper c || isLower c || isDigit c || Ascii.eqb c "_".

(** The calendar date of a day number counted from 1970-01-01
    (proleptic Gregorian calendar, as [Date] uses). *)
Definition civil_from_days (days : Z) : Z * Z * Z :=
  let z := days + 719468 in
  let era := z / 146097 in
  let doe := z - era * 146097 in
  let yoe := (doe - doe / 1460 + doe / 36524 - doe / 146096) / 365 in
  let doy := doe - (365 * yoe + yoe / 4 - yoe / 100) in
  let mp := (5 * doy + 2) / 153 in
  let d := doy - (153 * mp + 2) / 5 + 1 in
  let m := if mp <? 10 then mp + 3 else mp - 9 in
  let y := yoe + era * 400 in
  (if m <=? 2 then y + 1 else y, m, d).

Fixpoint zeros (n : nat) : string :=
  match n with
  | O => EmptyString
  | S k => String "0" (zeros k)
  end.

(** [String(n).padStart(width, '0')] *)
Definition pad (width : nat) (n : Z) : string :=
  let digits := pretty n in
  (zeros (width - String.length digits) ++ digits)%string.

(** [new Date(ms).toISOString().split('T')[0]] *)
Definition toISODate (ms : Z) : string :=
  let '(y, m, d) := civil_from_days (ms / 86400000) in
  let year :=
    if (0 <=? y) && (y <=? 9999) then pad 4 y
    else ((if (y <? 0)%Z then "-" else "+") ++ pad 6 (Z.abs y))%string in
  (year ++ "-" ++ pad 2 m ++ "-" ++ pad 2 d)%string.

End JS.

(** ** The process environment and the third-party primitives

    [process.env] holds the token configuration.  [ms] is the time-span
    parser the token library applies to [expiresIn] strings such as
    ['15m'] (milliseconds, or [None] for text it does not understand);
    [bcrypt_compare] is [bcrypt.compare].  Both are taken as given.  A
    secret that is not set is the empty string: the library treats both
    as no key, and issues no token then. *)

Record Runtime := {
  JWT_SECRET : string;
  JWT_ISSUER : option string;
  JWT_AUDIENCE : option string;
  JWT_EXPIRES_IN : option string;
  JWT_REFRESH_EXPIRES_IN : option string;
  ms : string -> option Z;
  bcrypt_compare : string -> string -> bool
}.

(** What a [throw] carries: the error's [name] and its message. *)
Inductive exn :=
| JsonWebTokenError (message : string)
| TokenExpiredError (message : string) (expiredAt : Z)
| NotBeforeError (message : string) (date : Z)
| Error (message : string).

Definition error_name (e : exn) : string :=
  match e with
  | JsonWebTokenError _ => "JsonWebTokenError"
  | TokenExpiredError _ _ => "TokenExpiredError"
  | NotBeforeError _ _ => "NotBeforeError"
  | Error _ => "Error"
  end.

(** A computation that returns or throws. *)
Abbreviation result A := (exn + A)%type.

(** ** The [jsonwebtoken] library

    The library is a dependency, not part of the repository; this is its
    [sign] and synchronous [verify] for a string secret, check by check in
    the order the library applies them.  A token string is represented by
    the three parts of its compact serialisation; a string that does not
    split into a decodable header, payload and signature is [Garbage].
    The signature is symbolic: the MAC of a header and payload under an
    algorithm and a key.  Error messages are given without their inner
    quotation marks. *)

Module jsonwebtoken.

Record payload := {
  userId : option string;
  type : option string;
  jti : option string;
  iat : option Z;
  nbf : option Z;
  exp : option Z;
  aud : list string;
  iss : option string;
  sub : option string
}.

Record mac := {
  mac_alg : string;
  mac_key : string;
  mac_header : string;
  mac_payload : payload
}.

Inductive token :=
| Garbage (text : string)
| Compact (alg : string) (claims : payload) (signature : option mac).

#[global] Instance payload_eq_dec : EqDecision payload.
Proof. solve_decision. Defined.
#[global] Instance mac_eq_dec : EqDecision mac.
Proof. solve_decision. Defined.
#[global] Instance token_eq_dec : EqDecision token.
Proof. solve_decision. Defined.

Record SignOptions := {
  expiresIn : string;
  s_issuer : string;
  s_audience : string;
  s_subject : string;
  s_algorithm : string
}.

Record VerifyOptions := {
  issuer : option string;
  audience : option string;
  algorithms : option (list string)
}.

Definition HS_ALGS : list string := ["HS256"; "HS384"; "HS512"].

Definition is_set (s : string) : bool := negb (String.eqb s "").

(** [jws.sign] / [jws.verify] *)
Definition jws_sign (alg key : string) (p : payload) : mac :=
  {| mac_alg := alg; mac_key := key; mac_header := alg; mac_payload := p |}.

Definition jws_verify (t : token) (alg key : string) : bool :=
  match t with
  | Compact hdr p (Some m) =>
      bool_decide (m = {| mac_alg := alg; mac_key := key;
                          mac_header := hdr; mac_payload := p |})
  | _ => false
  end.

(** [jwt.sign(payload, secretOrPrivateKey, options)]; [clock] is
    [Date.now()]. *)
Definition sign (rt : Runtime) (p : payload) (secretOrPrivateKey : string)
    (options : SignOptions) (clock : Z) : result token :=
  if negb (is_set secretOrPrivateKey) &&
     negb (String.eqb (s_algorithm options) "none")
  then inl (Error "secretOrPrivateKey must have a value")
  else
    let timestamp := default (clock / 1000) (iat p) in
    match ms rt (expiresIn options) with
    | None =>
        inl (Error "expiresIn should be a number of seconds or string representing a timespan")
    | Some span =>
        let claims :=
          {| userId := userId p; type := type p; jti := jti p;
             iat := Some timestamp; nbf := nbf p;
             exp := Some (timestamp + span / 1000);
             aud := [s_audience options];
             iss := Some (s_issuer options);
             sub := Some (s_subject options) |} in
        inr (Compact (s_algorithm options) claims
               (Some (jws_sign (s_algorithm options) secretOrPrivateKey claims)))
    end.

(** [jwt.verify(jwtString, secretOrPublicKey, options)] with a string
    secret; [clock] is [Date.now()]. *)
Definition verify (jwtString : token) (secretOrPublicKey : string)
    (options : VerifyOptions) (clock : Z) : result payload :=
  let clockTimestamp := clock / 1000 in
  match jwtString with
  | Garbage text =>
      if String.eqb text "" then inl (JsonWebTokenError "jwt must be provided")
      else if negb (length (JS.split_dot text) =? 3)%nat
      then inl (JsonWebTokenError "jwt malformed")
      else inl (JsonWebTokenError "invalid token")
  | Compact header_alg p signature =>
      let hasSignature := bool_decide (is_Some signature) in
      if negb hasSignature && is_set secretOrPublicKey then
        inl (JsonWebTokenError "jwt signature is required")
      else if hasSignature && negb (is_set secretOrPublicKey) then
        inl (JsonWebTokenError "secret or public key must be provided")
      else if negb hasSignature && bool_decide (algorithms options = None) then
        inl (JsonWebTokenError "please specify none in algorithms to verify unsigned tokens")
      else
        let algs := default HS_ALGS (algorithms options) in
        if negb (bool_decide (header_alg ∈ algs)) then
          inl (JsonWebTokenError "invalid algorithm")
        else if String.prefix "RS" header_alg || String.prefix "PS" header_alg
                || String.prefix "ES" header_alg then
          inl (JsonWebTokenError
                 ("secretOrPublicKey must be an asymmetric key when using " ++ header_alg))
        else if negb (jws_verify jwtString header_alg secretOrPublicKey) then
          inl (JsonWebTokenError "invalid signature")
        else if match nbf p with Some n => bool_decide (clockTimestamp < n) | None => false end then
          inl (NotBeforeError "jwt not active" (default 0 (nbf p) * 1000))
        else if match exp p with Some e => bool_decide (e <= clockTimestamp) | None => false end then
          inl (TokenExpiredError "jwt expired" (default 0 (exp p) * 1000))
        else if match audience options with
                | Some a => is_set a && negb (bool_decide (a ∈ aud p))
                | None => false
                end then
          inl (JsonWebTokenError
                 ("jwt audience invalid. expected: " ++ default "" (audience options)))
        else if match issuer options with
                | Some i => is_set i && negb (bool_decide (iss p = Some i))
                | None => false
                end then
          inl (JsonWebTokenError
                 ("jwt issuer invalid. expected: " ++ default "" (issuer options)))
        else inr p
  end.

(** [jwt.decode(token)]: the payload as it stands, nothing checked;
    [null] for a string that does not decode. *)
Definition decode (jwtString : token) : option payload :=
  match jwtString with
  | Garbage _ => None
  | Compact _ p _ => Some p
  end.

(** [jwt.decode(token, {complete: true})]: header, payload and
    signature. *)
Definition decode_complete (jwtString : token)
    : option (string * payload * option mac) :=
  match jwtString with
  | Garbage _ => None
  | Compact header_alg p signature => Some (header_alg, p, signature)
  end.

End jsonwebtoken.

(** ** [src/utils/jwt.js] *)

Module jwt.
Import jsonwebtoken.

Definition generateAccessToken (rt : Runtime) (userId : string)
    (options_expiresIn : option string) (clock : Z) (randomUUID : string)
    : result token :=
  let payload :=
    {| userId := Some userId; type := Some "access"; jti := Some randomUUID;
       iat := None; nbf := None; exp := None; aud := []; iss := None;
       sub := None |} in
  let tokenOptions :=
    {| expiresIn :=
         JS.or_default options_expiresIn
           (JS.or_default (JWT_EXPIRES_IN rt) "15m");
       s_issuer := JS.or_default (JWT_ISSUER rt) "fitness-app";
       s_audience := JS.or_default (JWT_AUDIENCE rt) "fitness-app-users";
       s_subject := userId;
       s_algorithm := "HS256" |} in
  sign rt payload (JWT_SECRET rt) tokenOptions clock.

Definition generateRefreshToken (rt : Runtime) (userId : string)
    (options_expiresIn : option string) (clock : Z) (randomUUID : string)
    : result token :=
  let payload :=
    {| userId := Some userId; type := Some "refresh"; jti := Some randomUUID;
       iat := None; nbf := None; exp := None; aud := []; iss := None;
       sub := None |} in
  let tokenOptions :=
    {| expiresIn :=
         JS.or_default options_expiresIn
           (JS.or_default (JWT_REFRESH_EXPIRES_IN rt) "7d");
       s_issuer := JS.or_default (JWT_ISSUER rt) "fitness-app";
       s_audience := JS.or_default (JWT_AUDIENCE rt) "fitness-app-users";
       s_subject := userId;
       s_algorithm := "HS256" |} in
  sign rt payload (JWT_SECRET rt) tokenOptions clock.

(** The options [verifyToken] passes to the library. *)
Definition verifyOptions (rt : Runtime) : VerifyOptions :=
  {| issuer := Some (JS.or_default (JWT_ISSUER rt) "fitness-app");
     audience := Some (JS.or_default (JWT_AUDIENCE rt) "fitness-app-users");
     algorithms := Some ["HS256"] |}.

Definition verifyToken (rt : Runtime) (tok : token) (expectedType : string)
    (clock : Z) : result payload :=
  match verify tok (JWT_SECRET rt) (verifyOptions rt) clock with
  | inl error => inl error
  | inr decoded =>
      if negb (bool_decide (type decoded = Some expectedType)) then
        inl (Error ("Invalid token type. Expected " ++ expectedType ++ ", got "
                    ++ default "undefined" (type decoded)))
      else inr decoded
  end.

Definition decodeToken (tok : token)
    : option (string * payload * option mac) :=
  decode_complete tok.

(** [isTokenExpired(token)]; [clock] is [Date.now()].  A missing or zero
    [exp] is falsy. *)
Definition isTokenExpired (tok : token) (clock : Z) : bool :=
  match decode tok with
  | None => true
  | Some decoded =>
      match exp decoded with
      | None => true
      | Some e =>
          if e =? 0 then true
          else
            let currentTime := clock / 1000 in
            e <? currentTime
      end
  end.

(** [getTokenExpiration(token)]: a [Date], in milliseconds, or [null]. *)
Definition getTokenExpiration (tok : token) : option Z :=
  match decode tok with
  | None => None
  | Some decoded =>
      match exp decoded with
      | None => None
      | Some e => if e =? 0 then None else Some (e * 1000)
      end
  end.

Record TokenPair := {
  accessToken : token;
  refreshToken : token;
  pair_expiresIn : string;
  refreshExpiresIn : string
}.

Definition generateTokenPair (rt : Runtime) (userId : string) (clock : Z)
    (randomUUID1 randomUUID2 : string) : result TokenPair :=
  match generateAccessToken rt userId None clock randomUUID1 with
  | inl error => inl error
  | inr access =>
      match generateRefreshToken rt userId None clock randomUUID2 with
      | inl error => inl error
      | inr refresh =>
          inr {| accessToken := access;
                 refreshToken := refresh;
                 pair_expiresIn := JS.or_default (JWT_EXPIRES_IN rt) "15m";
                 refreshExpiresIn :=
                   JS.or_default (JWT_REFRESH_EXPIRES_IN rt) "7d" |}
      end
  end.

(** [extractTokenFromHeader(authHeader)] on the raw header text; an
    absent or empty header is falsy. *)
Definition extractTokenFromHeader (authHeader : option string) : option string :=
  match authHeader with
  | None => None
  | Some header =>
      if String.eqb header "" then None
      else if JS.startsWith header "Bearer " then Some (JS.substring_from 7 header)
      else Some header
  end.

(** [isValidTokenFormat(token)] on the raw token text. *)
Definition isValidTokenFormat (tok : option string) : bool :=
  match tok with
  | None => false
  | Some text =>
      if String.eqb text "" then false
      else
        let parts := JS.split_dot text in
        (length parts =? 3)%nat
  end.

End jwt.

(** ** The security configuration (second part of [src/utils/jwt.js])

    Passwords and names are taken to be ASCII text, where [length],
    [toLowerCase], [\s] and [trim] are as modelled. *)

Module security.

Module PASSWORD_REQUIREMENTS.
Definition minLength : nat := 8.
Definition maxLength : nat := 128.
Definition requireUppercase : bool := true.
Definition requireLowercase : bool := true.
Definition requireNumbers : bool := true.
Definition requireSpecialChars : bool := true.
Definition specialChars : string := "@$!%*?&".
Definition forbiddenPasswords : list string :=
  ["password"; "12345678"; "qwerty123"; "admin123"; "password123"].
End PASSWORD_REQUIREMENTS.

Record Validation := { isValid : bool; errors : list string }.

(** The class the special-character pattern is built from. *)
Definition isSpecial (c : ascii) : bool :=
  existsb (Ascii.eqb c) (list_ascii_of_string PASSWORD_REQUIREMENTS.specialChars).

(** [errors.push(message)] when the condition holds. *)
Definition push_if (condition : bool) (message : string) (errors : list string)
    : list string :=
  if condition then errors ++ [message] else errors.

Definition validatePassword (password : string) : Validation :=
  let errors := [] in
  let errors :=
    push_if (String.length password <? PASSWORD_REQUIREMENTS.minLength)%nat
      ("Password must be at least " ++ pretty PASSWORD_REQUIREMENTS.minLength
         ++ " characters long") errors in
  let errors :=
    push_if (PASSWORD_REQUIREMENTS.maxLength <? String.length password)%nat
      ("Password cannot exceed " ++ pretty PASSWORD_REQUIREMENTS.maxLength
         ++ " characters") errors in
  let errors :=
    push_if (PASSWORD_REQUIREMENTS.requireUppercase &&
             negb (JS.test_class JS.isUpper password))
      "Password must contain at least one uppercase letter" errors in
  let errors :=
    push_if (PASSWORD_REQUIREMENTS.requireLowercase &&
             negb (JS.test_class JS.isLower password))
      "Password must contain at least one lowercase letter" errors in
  let errors :=
    push_if (PASSWORD_REQUIREMENTS.requireNumbers &&
             negb (JS.test_class JS.isDigit password))
      "Password must contain at least one number" errors in
  let errors :=
    push_if (PASSWORD_REQUIREMENTS.requireSpecialChars &&
             negb (JS.test_class isSpecial password))
      ("Password must contain at least one special character ("
         ++ PASSWORD_REQUIREMENTS.specialChars ++ ")") errors in
  let errors :=
    push_if (bool_decide (JS.toLowerCase password ∈
                          PASSWORD_REQUIREMENTS.forbiddenPasswords))
      "Password is too common, please choose a different password" errors in
  {| isValid := (length errors =? 0)%nat; errors := errors |}.

(** A sanitization rule; [allowedChars] holds the class of a pattern
    [^[class]+$], the form of the one pattern the rules have. *)
Record Rules := {
  allowedChars : option (ascii -> bool);
  maxLength : option nat;
  normalize : bool
}.

Module SANITIZATION_RULES.

(** The class of [/^[a-zA-Z\s\-'\.]+$/] *)
Definition nameChars (c : ascii) : bool :=
  JS.isLower c || JS.isUpper c || JS.isSpace c ||
  Ascii.eqb c "-" || Ascii.eqb c "'" || Ascii.eqb c ".".

Definition name : Rules :=
  {| allowedChars := Some nameChars;
     maxLength := Some 50%nat;
     normalize := false |}.

Definition email : Rules :=
  {| allowedChars := None; maxLength := Some 254%nat; normalize := true |}.

End SANITIZATION_RULES.

(** [sanitizeInput(input, rules)] on a string.  [replace] with a pattern
    that is anchored at both ends replaces the whole text, when it
    matches, and nothing otherwise. *)
Definition sanitizeInput (input : string) (rules : Rules) : string :=
  let sanitized := JS.trim input in
  let sanitized :=
    match maxLength rules with
    | Some n => if (n =? 0)%nat then sanitized else String.substring 0 n sanitized
    | None => sanitized
    end in
  let sanitized :=
    match allowedChars rules with
    | Some class => if JS.test_all class sanitized then ""%string else sanitized
    | None => sanitized
    end in
  if normalize rules then JS.toLowerCase sanitized else sanitized.

End security.

(** ** JSON responses

    [res.status(code).json(body)].  A property whose value is [undefined]
    is dropped when the body is serialised; it is kept here as
    [JVal VUndefined]. *)

Inductive json :=
| JNull
| JBool (b : bool)
| JNum (n : Z)
| JStr (s : string)
| JDate (ms : Z)
| JTok (t : jsonwebtoken.token)
| JVal (v : JS.value)
| JBag (o : JS.bag)
| JArr (items : list json)
| JObj (props : list (string * json)).

Record Response := { status : Z; body : json }.

Definition JOpt {A} (f : A -> json) (o : option A) : json :=
  match o with Some a => f a | None => JVal JS.VUndefined end.

(** Property access on a response body. *)
Definition json_get (j : json) (key : string) : option json :=
  match j with
  | JObj props => snd <$> List.find (fun kv => String.eqb (fst kv) key) props
  | _ => None
  end.

(** ** [src/models/User.js] *)

Module User.

Record RefreshToken := { token : jsonwebtoken.token; createdAt : Z }.

Record SessionInfo := {
  completionTimestamp : option Z;
  completionDate : option string;
  totalXPEarned : Z;
  userLevel : Z;
  sectionsCompleted : Z;
  completionRate : option string
}.

Record DataQuality := {
  hasBasicInfo : bool;
  hasLifestyle : bool;
  hasMedicalHistory : bool;
  hasGoals : bool;
  hasPreferences : bool;
  completenessScore : string
}.

(** The document.  [_id] and [created] are assigned at creation;
    Mongoose's own bookkeeping ([updatedAt], [__v], the modified-path
    set) is left out. *)
Record t := {
  _id : string;
  email : string;
  password : string;
  isEmailVerified : bool;
  refreshTokens : list RefreshToken;
  lastLoginAt : option Z;
  onboardingCompleted : bool;
  onboardingStep : Z;
  profileCompleteness : Z;
  sessionInfo : SessionInfo;
  basicInfo : JS.bag;
  lifestyle : JS.bag;
  medicalHistory : JS.bag;
  goals : JS.bag;
  preferences : JS.bag;
  dataQuality : DataQuality;
  created : Z
}.

(** The names the controllers pass to [updateOnboardingSection]. *)
Inductive SectionName :=
| BasicInfo | Lifestyle | MedicalHistory | Goals | Preferences.

#[global] Instance SectionName_eq_dec : EqDecision SectionName.
Proof. solve_decision. Defined.

(** [new User({email, password})]: the address goes through the setters
    of its path ([trim], [lowercase]), the other paths of the record
    take their schema defaults.  The profile sections start empty: the
    defaults the schema gives some of their paths (the units, the
    ['unknown'] histories, the empty lists) are left out, no modelled
    code reads them. *)
Definition create (id email password : string) (now : Z) : t :=
  {| _id := id; email := JS.toLowerCase (JS.trim email); password := password;
     isEmailVerified := false; refreshTokens := []; lastLoginAt := None;
     onboardingCompleted := false; onboardingStep := 0;
     profileCompleteness := 0;
     sessionInfo :=
       {| completionTimestamp := None; completionDate := None;
          totalXPEarned := 0; userLevel := 1; sectionsCompleted := 0;
          completionRate := None |};
     basicInfo := ∅; lifestyle := ∅; medicalHistory := ∅; goals := ∅;
     preferences := ∅;
     dataQuality :=
       {| hasBasicInfo := false; hasLifestyle := false;
          hasMedicalHistory := false; hasGoals := false;
          hasPreferences := false; completenessScore := "0%" |};
     created := now |}.

(** *** Field assignments *)

Definition set_refreshTokens (v : list RefreshToken) (u : t) : t :=
  {| _id := _id u; email := email u; password := password u;
     isEmailVerified := isEmailVerified u; refreshTokens := v;
     lastLoginAt := lastLoginAt u;
     onboardingCompleted := onboardingCompleted u;
     onboardingStep := onboardingStep u;
     profileCompleteness := profileCompleteness u;
     sessionInfo := sessionInfo u; basicInfo := basicInfo u;
     lifestyle := lifestyle u; medicalHistory := medicalHistory u;
     goals := goals u; preferences := preferences u;
     dataQuality := dataQuality u; created := created u |}.

Definition set_lastLoginAt (v : option Z) (u : t) : t :=
  {| _id := _id u; email := email u; password := password u;
     isEmailVerified := isEmailVerified u; refreshTokens := refreshTokens u;
     lastLoginAt := v;
     onboardingCompleted := onboardingCompleted u;
     onboardingStep := onboardingStep u;
     profileCompleteness := profileCompleteness u;
     sessionInfo := sessionInfo u; basicInfo := basicInfo u;
     lifestyle := lifestyle u; medicalHistory := medicalHistory u;
     goals := goals u; preferences := preferences u;
     dataQuality := dataQuality u; created := created u |}.

Definition set_password (v : string) (u : t) : t :=
  {| _id := _id u; email := email u; password := v;
     isEmailVerified := isEmailVerified u; refreshTokens := refreshTokens u;
     lastLoginAt := lastLoginAt u;
     onboardingCompleted := onboardingCompleted u;
     onboardingStep := onboardingStep u;
     profileCompleteness := profileCompleteness u;
     sessionInfo := sessionInfo u; basicInfo := basicInfo u;
     lifestyle := lifestyle u; medicalHistory := medicalHistory u;
     goals := goals u; preferences := preferences u;
     dataQuality := dataQuality u; created := created u |}.

Definition set_onboardingCompleted (v : bool) (u : t) : t :=
  {| _id := _id u; email := email u; password := password u;
     isEmailVerified := isEmailVerified u; refreshTokens := refreshTokens u;
     lastLoginAt := lastLoginAt u;
     onboardingCompleted := v;
     onboardingStep := onboardingStep u;
     profileCompleteness := profileCompleteness u;
     sessionInfo := sessionInfo u; basicInfo := basicInfo u;
     lifestyle := lifestyle u; medicalHistory := medicalHistory u;
     goals := goals u; preferences := preferences u;
     dataQuality := dataQuality u; created := created u |}.

Definition set_onboardingStep (v : Z) (u : t) : t :=
  {| _id := _id u; email := email u; password := password u;
     isEmailVerified := isEmailVerified u; refreshTokens := refreshTokens u;
     lastLoginAt := lastLoginAt u;
     onboardingCompleted := onboardingCompleted u;
     onboardingStep := v;
     profileCompleteness := profileCompleteness u;
     sessionInfo := sessionInfo u; basicInfo := basicInfo u;
     lifestyle := lifestyle u; medicalHistory := medicalHistory u;
     goals := goals u; preferences := preferences u;
     dataQuality := dataQuality u; created := created u |}.

Definition set_profileCompleteness (v : Z) (u : t) : t :=
  {| _id := _id u; email := email u; password := password u;
     isEmailVerified := isEmailVerified u; refreshTokens := refreshTokens u;
     lastLoginAt := lastLoginAt u;
     onboardingCompleted := onboardingCompleted u;
     onboardingStep := onboardingStep u;
     profileCompleteness := v;
     sessionInfo := sessionInfo u; basicInfo := basicInfo u;
     lifestyle := lifestyle u; medicalHistory := medicalHistory u;
     goals := goals u; preferences := preferences u;
     dataQuality := dataQuality u; created := created u |}.

Definition set_sessionInfo (v : SessionInfo) (u : t) : t :=
  {| _id := _id u; email := email u; password := password u;
     isEmailVerified := isEmailVerified u; refreshTokens := refreshTokens u;
     lastLoginAt := lastLoginAt u;
     onboardingCompleted := onboardingCompleted u;
     onboardingStep := onboardingStep u;
     profileCompleteness := profileCompleteness u;
     sessionInfo := v; basicInfo := basicInfo u;
     lifestyle := lifestyle u; medicalHistory := medicalHistory u;
     goals := goals u; preferences := preferences u;
     dataQuality := dataQuality u; created := created u |}.

Definition set_dataQuality (v : DataQuality) (u : t) : t :=
  {| _id := _id u; email := email u; password := password u;
     isEmailVerified := isEmailVerified u; refreshTokens := refreshTokens u;
     lastLoginAt := lastLoginAt u;
     onboardingCompleted := onboardingCompleted u;
     onboardingStep := onboardingStep u;
     profileCompleteness := profileCompleteness u;
     sessionInfo := sessionInfo u; basicInfo := basicInfo u;
     lifestyle := lifestyle u; medicalHistory := medicalHistory u;
     goals := goals u; preferences := preferences u;
     dataQuality := v; created := created u |}.

(** [this[sectionName]] and [this[sectionName] = v] *)
Definition section (u : t) (sectionName : SectionName) : JS.bag :=
  match sectionName with
  | BasicInfo => basicInfo u
  | Lifestyle => lifestyle u
  | MedicalHistory => medicalHistory u
  | Goals => goals u
  | Preferences => preferences u
  end.

Definition set_section (sectionName : SectionName) (v : JS.bag) (u : t) : t :=
  {| _id := _id u; email := email u; password := password u;
     isEmailVerified := isEmailVerified u; refreshTokens := refreshTokens u;
     lastLoginAt := lastLoginAt u;
     onboardingCompleted := onboardingCompleted u;
     onboardingStep := onboardingStep u;
     profileCompleteness := profileCompleteness u;
     sessionInfo := sessionInfo u;
     basicInfo := if decide (sectionName = BasicInfo) then v else basicInfo u;
     lifestyle := if decide (sectionName = Lifestyle) then v else lifestyle u;
     medicalHistory :=
       if decide (sectionName = MedicalHistory) then v else medicalHistory u;
     goals := if decide (sectionName = Goals) then v else goals u;
     preferences :=
       if decide (sectionName = Preferences) then v else preferences u;
     dataQuality := dataQuality u; created := created u |}.

(** [this.dataQuality[section]] for a flag name *)
Definition flag (dq : DataQuality) (key : string) : bool :=
  if String.eqb key "hasBasicInfo" then hasBasicInfo dq
  else if String.eqb key "hasLifestyle" then hasLifestyle dq
  else if String.eqb key "hasMedicalHistory" then hasMedicalHistory dq
  else if String.eqb key "hasGoals" then hasGoals dq
  else if String.eqb key "hasPreferences" then hasPreferences dq
  else false.

(** *** The pre-save hook "Update profile completeness and data quality
    before saving"

    (The other pre-save hook hashes a modified password and touches
    nothing else.  The e-mail is lower-cased by its schema setter
    already, so the hook's [toLowerCase] leaves it as it is.) *)
Definition preSave (u : t) : t :=
  let dq :=
    {| hasBasicInfo :=
         JS.truthy
           (JS.and (JS.and (JS.and (JS.get (basicInfo u) "name")
                                   (JS.get (basicInfo u) "dateOfBirth"))
                           (JS.get (basicInfo u) "height"))
                   (JS.get (basicInfo u) "weight"));
       hasLifestyle :=
         JS.truthy
           (JS.and (JS.and (JS.get (lifestyle u) "wakeUpTime")
                           (JS.get (lifestyle u) "sleepTime"))
                   (JS.get (lifestyle u) "exerciseFrequency"));
       hasMedicalHistory := JS.truthy (JS.get (medicalHistory u) "gender");
       hasGoals :=
         JS.truthy (JS.and (JS.get (goals u) "primaryGoal")
                           (JS.get (goals u) "targetWeight"));
       hasPreferences := hasPreferences (dataQuality u);
       completenessScore := completenessScore (dataQuality u) |} in
  let sections :=
    ["hasBasicInfo"; "hasLifestyle"; "hasMedicalHistory"; "hasGoals"] in
  let completedSections :=
    length (List.filter (fun section => flag dq section) sections) in
  let completeness :=
    JS.Math_round
      (inject_Z (Z.of_nat completedSections) /
       inject_Z (Z.of_nat (length sections)) * 100)%Q in
  let dq' :=
    {| hasBasicInfo := hasBasicInfo dq; hasLifestyle := hasLifestyle dq;
       hasMedicalHistory := hasMedicalHistory dq; hasGoals := hasGoals dq;
       hasPreferences := hasPreferences dq;
       completenessScore := (pretty completeness ++ "%")%string |} in
  let u1 := set_profileCompleteness completeness (set_dataQuality dq' u) in
  if (completeness =? 100) && negb (onboardingCompleted u1)
  then set_onboardingStep 6 (set_onboardingCompleted true u1)
  else u1.

(** *** Methods *)

Definition getOnboardingStatus (u : t) : json :=
  JObj [("completed", JBool (onboardingCompleted u));
        ("step", JNum (onboardingStep u));
        ("completeness", JNum (profileCompleteness u));
        ("sectionsCompleted",
         JObj [("basicInfo", JBool (hasBasicInfo (dataQuality u)));
               ("lifestyle", JBool (hasLifestyle (dataQuality u)));
               ("medicalHistory", JBool (hasMedicalHistory (dataQuality u)));
               ("goals", JBool (hasGoals (dataQuality u)));
               ("preferences", JBool (hasPreferences (dataQuality u)))])].

Definition stepMapping (sectionName : SectionName) : Z :=
  match sectionName with
  | BasicInfo => 1
  | Lifestyle => 2
  | MedicalHistory => 3
  | Goals => 4
  | Preferences => 5
  end.

(** [updateOnboardingSection(sectionName, data)]; [now] is [new Date()].
    For the five schema sections [this[sectionName]] is always an
    object, so the guard that would create it never fires.  [data] holds
    the attributes as the section keeps them: for [basicInfo],
    [lifestyle], [medicalHistory] and [goals] these are the paths the
    schema declares, with the values Mongoose casts them to (an attribute
    the schema does not declare is not kept by the document). *)
Definition updateOnboardingSection (now : Z) (sectionName : SectionName)
    (data : JS.bag) (u : t) : t :=
  let cleanData := filter (fun kv => JS.notNullish (snd kv) = true) data in
  let merged := JS.assign (section u sectionName) cleanData in
  let stamped := <["completedAt" := JS.VDate now]> merged in
  let u1 := set_section sectionName stamped u in
  if negb (stepMapping sectionName =? 0) &&
     (onboardingStep u1 <? stepMapping sectionName)
  then set_onboardingStep (stepMapping sectionName) u1
  else u1.

Definition getPublicProfile (u : t) : json :=
  JObj [("id", JStr (_id u));
        ("email", JStr (email u));
        ("isEmailVerified", JBool (isEmailVerified u));
        ("onboardingCompleted", JBool (onboardingCompleted u));
        ("onboardingStep", JNum (onboardingStep u));
        ("profileCompleteness", JNum (profileCompleteness u));
        ("basicInfo", JObj [("name", JVal (JS.get (basicInfo u) "name"))]);
        ("createdAt", JDate (created u));
        ("lastLoginAt", JOpt JDate (lastLoginAt u))].

(** [isValidRefreshToken(token)]; [now] is [new Date()]. *)
Definition isValidRefreshToken (now : Z) (u : t) (tok : jsonwebtoken.token)
    : bool :=
  existsb
    (fun tokenObj =>
       bool_decide (token tokenObj = tok) &&
       (now <? createdAt tokenObj + 604800000))
    (refreshTokens u).

Definition cleanExpiredTokens (now : Z) (u : t) : t :=
  set_refreshTokens
    (List.filter (fun tokenObj => now <? createdAt tokenObj + 604800000)
                 (refreshTokens u))
    u.

(** *** The paths of the profile sections

    What the schema declares in [basicInfo], [lifestyle],
    [medicalHistory] and [goals], by the type of each path;
    [preferences] is [Mixed] as a whole and takes any attribute. *)
Inductive SchemaType :=
| SString (trim : bool)
| SNumber
| SDate
| SStrings
| SMixed
| SNested.

Definition basicInfoPaths : list (string * SchemaType) :=
  [("name", SString true); ("dateOfBirth", SDate); ("height", SNumber);
   ("heightUnit", SString false); ("weight", SNumber);
   ("weightUnit", SString false); ("activityLevel", SString false);
   ("city", SString false); ("profession", SString false);
   ("gender", SString false); ("waistCircumference", SNumber);
   ("waistUnit", SString false); ("hipCircumference", SNumber);
   ("hipUnit", SString false); ("smoking", SString false);
   ("alcohol", SString false); ("initialFatMass", SNumber);
   ("initialMuscleMass", SNumber); ("fatMassTarget", SNumber);
   ("muscleMassTarget", SNumber); ("numberOfChildren", SNumber);
   ("completedAt", SDate)].

Definition lifestylePaths : list (string * SchemaType) :=
  [("wakeUpTime", SString false); ("sleepTime", SString false);
   ("workSchedule", SString false); ("exerciseFrequency", SString false);
   ("exerciseTime", SString false); ("favoriteActivities", SStrings);
   ("stressLevel", SNumber); ("sleepHours", SNumber);
   ("sleepQuality", SString false); ("completedAt", SDate)].

Definition medicalHistoryPaths : list (string * SchemaType) :=
  [("chronicConditions", SStrings); ("medications", SString false);
   ("allergies", SString false); ("physicalLimitations", SString false);
   ("avoidAreas", SStrings); ("gender", SString false);
   ("femaleSpecificAttributes", SMixed); ("personalMedicalHistory", SNested);
   ("familyHistory", SNested); ("treatmentHistory", SNested);
   ("completedAt", SDate)].

Definition goalsPaths : list (string * SchemaType) :=
  [("primaryGoal", SString false); ("secondaryGoals", SStrings);
   ("targetTimeline", SNumber); ("currentWeight", SNumber);
   ("targetWeight", SNumber); ("weeklyGoal", SNumber);
   ("completedAt", SDate)].

Definition schemaPath (sectionName : SectionName) (key : string)
    : option SchemaType :=
  let paths :=
    match sectionName with
    | BasicInfo => Some basicInfoPaths
    | Lifestyle => Some lifestylePaths
    | MedicalHistory => Some medicalHistoryPaths
    | Goals => Some goalsPaths
    | Preferences => None
    end in
  match paths with
  | Some paths => snd <$> List.find (fun path => String.eqb (fst path) key) paths
  | None => Some SMixed
  end.

(** *** Schema validators

    The validators of the two paths an account is made of: [email] is
    [required] and has to [match] the pattern
    [^\w+([.-]?\w+)*@\w+([.-]?\w+)*(\.\w{2,3})+$]; [password] is
    [required] with [minlength: 8].  A [required] string is not empty.
    The text is taken to be ASCII, where [length] counts characters. *)
Definition emailPattern : JS.regex :=
  let word := JS.RClass JS.isWord in
  let separator := JS.RClass (fun c => Ascii.eqb c "." || Ascii.eqb c "-") in
  let labels := JS.RStar (JS.RSeq (JS.ROpt separator) (JS.RPlus word)) in
  JS.RSeq (JS.RPlus word)
    (JS.RSeq labels
       (JS.RSeq (JS.RChar "@")
          (JS.RSeq (JS.RPlus word)
             (JS.RSeq labels
                (JS.RPlus
                   (JS.RSeq (JS.RChar ".")
                      (JS.RSeq word (JS.RSeq word (JS.ROpt word))))))))).

Definition valid_email (email : string) : bool :=
  negb (String.eqb email "") && JS.regex_test emailPattern email.

Definition valid_password (password : string) : bool :=
  negb (String.eqb password "") && (8 <=? String.length password)%nat.

(** [validate()]: the paths that fail, [email] and [password] in turn.
    The profile sections carry validators too; a document the store
    holds has passed them when its sections were saved, a new document
    holds the schema defaults, and the handlers that call [save] below
    assign none of them. *)
Definition validate (u : t) : list string :=
  (if valid_email (email u) then [] else ["email"]) ++
  (if valid_password (password u) then [] else ["password"]).

(** [User.findById(id)]: [query] is what the store answers to a lookup
    by the text of an id, a document or nothing, or the error the query
    is rejected with (Mongoose rejects the text of an id that does not
    cast to an ObjectId with a [CastError]).  An [undefined] id is
    looked up as [_id: null], which no document has. *)
Definition findById {E} (query : string -> E + option t) (id : option string)
    : E + option t :=
  match id with
  | Some id => query id
  | None => inr None
  end.

(** *** The pre-save hook "Hash password before saving"

    [modified] is [this.isModified('password')]; [bcrypt_hash] is
    [bcrypt.hash] at the configured cost, as a function of the password
    and of the salt it draws. *)
Definition hashPassword (bcrypt_hash : string -> string -> string)
    (salt : string) (modified : bool) (u : t) : t :=
  if negb modified then u
  else set_password (bcrypt_hash (password u) salt) u.

Definition comparePassword (rt : Runtime) (u : t) (candidatePassword : string)
    : bool :=
  bcrypt_compare rt candidatePassword (password u).

End User.

(** ** Request handlers

    A handler reads the document the store returned for its query
    ([None] when there is none), answers with a response and hands at
    most one document back to the store.  [save_and_reply] runs the
    completeness hook and persists the result; it is the save of the
    handlers that assign neither the address nor the password, where the
    password is not hashed again, and takes the schema validators to
    accept what it is given.  [save], further down, is the save of the
    handlers that create an account or change its password: it runs the
    validators of these two paths first. *)

Record Outcome := { response : Response; saved : option User.t }.

Definition reply (code : Z) (b : json) : Outcome :=
  {| response := {| status := code; body := b |}; saved := None |}.

Definition save_and_reply (u : User.t) (code : Z) (b : User.t -> json) : Outcome :=
  let savedUser := User.preSave u in
  {| response := {| status := code; body := b savedUser |};
     saved := Some savedUser |}.

(** The document in the store once the handler has run. *)
Definition stored_after (before : User.t) (o : Outcome) : User.t :=
  default before (saved o).

(** [user.save()]: Mongoose validates the document and, when a path
    fails, rejects the save with a [ValidationError] before any hook has
    run and nothing is written; otherwise both pre-save hooks run, in the
    order they are registered, and the result is written.  The answer is
    the document written, or the paths that failed. *)
Definition save (bcrypt_hash : string -> string -> string) (salt : string)
    (passwordModified : bool) (u : User.t) : list string + User.t :=
  match User.validate u with
  | [] => inr (User.preSave (User.hashPassword bcrypt_hash salt passwordModified u))
  | failed => inl failed
  end.

(** [user.save()] where the handler has no password to hash: the
    password is not modified and the hashing hook returns at once. *)
Definition save_unmodified (u : User.t) : list string + User.t :=
  match User.validate u with
  | [] => inr (User.preSave u)
  | failed => inl failed
  end.

(** A response together with the document an earlier step of the handler
    has stored already. *)
Definition reply_after (stored : User.t) (code : Z) (b : json) : Outcome :=
  {| response := {| status := code; body := b |}; saved := Some stored |}.

(** *** [src/middleware/errorHandler.js] *)

Module errorHandler.

(** An error object, by the properties the handlers read.  A property
    that is not set is [None], [JS.VUndefined] or [false]. *)
Record error := {
  name : string;
  message : string;
  statusCode : option Z;
  code : JS.value;
  details : json;
  isOperational : bool;
  status_ : option Z;
  retryAfter : json;
  errors : list (json * json * json);
  keyValue : list (string * string);
  path : json;
  value : json
}.

(** [new AppError(message, statusCode, code)] *)
Definition AppError (message : string) (statusCode : Z) (code : string) : error :=
  {| name := "Error"; message := message; statusCode := Some statusCode;
     code := JS.VStr code; details := JNull; isOperational := true;
     status_ := None; retryAfter := JVal JS.VUndefined; errors := [];
     keyValue := []; path := JVal JS.VUndefined; value := JVal JS.VUndefined |}.

Definition exn_message (e : exn) : string :=
  match e with
  | JsonWebTokenError m | TokenExpiredError m _ | NotBeforeError m _ | Error m => m
  end.

(** The error object of an error the token service throws. *)
Definition thrown (e : exn) : error :=
  {| name := error_name e; message := exn_message e; statusCode := None;
     code := JS.VUndefined; details := JVal JS.VUndefined;
     isOperational := false; status_ := None;
     retryAfter := JVal JS.VUndefined; errors := []; keyValue := [];
     path := JVal JS.VUndefined; value := JVal JS.VUndefined |}.

(** An error-handling middleware answers, or calls [next(error)]
    ([None]). *)
Definition handleAuthError (error : error) : option Response :=
  if String.eqb (name error) "JsonWebTokenError" then
    Some {| status := 401;
            body := JObj [("success", JBool false);
                          ("message", JStr "Invalid authentication token");
                          ("code", JStr "INVALID_TOKEN")] |}
  else if String.eqb (name error) "TokenExpiredError" then
    Some {| status := 401;
            body := JObj [("success", JBool false);
                          ("message", JStr "Authentication token has expired");
                          ("code", JStr "TOKEN_EXPIRED")] |}
  else if String.eqb (name error) "NotBeforeError" then
    Some {| status := 401;
            body := JObj [("success", JBool false);
                          ("message", JStr "Token not active");
                          ("code", JStr "TOKEN_NOT_ACTIVE")] |}
  else None.

Definition handleValidationError (error : error) : option Response :=
  if String.eqb (name error) "ValidationError" then
    Some {| status := 400;
            body :=
              JObj [("success", JBool false);
                    ("message", JStr "Validation failed");
                    ("code", JStr "VALIDATION_ERROR");
                    ("details",
                     JArr (List.map
                             (fun err =>
                                JObj [("field", err.1.1);
                                      ("message", err.1.2);
                                      ("value", err.2)])
                             (errors error)))] |}
  else None.

Definition handleDuplicateKeyError (error : error) : option Response :=
  match code error with
  | JS.VNum 11000 =>
      let field := default "undefined" (fst <$> head (keyValue error)) in
      let value := default "undefined" (snd <$> head (keyValue error)) in
      Some {| status := 400;
              body :=
                JObj [("success", JBool false);
                      ("message",
                       JStr (field ++ " '" ++ value ++ "' already exists"));
                      ("code", JStr "DUPLICATE_ENTRY");
                      ("details",
                       JObj [("field", JStr field); ("value", JStr value)])] |}
  | _ => None
  end.

Definition handleCastError (error : error) : option Response :=
  if String.eqb (name error) "CastError" then
    Some {| status := 400;
            body :=
              JObj [("success", JBool false);
                    ("message", JStr "Invalid ID format");
                    ("code", JStr "INVALID_ID");
                    ("details",
                     JObj [("field", path error); ("value", value error)])] |}
  else None.

Definition handleRateLimitError (error : error) : option Response :=
  match status_ error with
  | Some 429 =>
      Some {| status := 429;
              body :=
                JObj [("success", JBool false);
                      ("message",
                       JStr "Too many requests, please try again later");
                      ("code", JStr "RATE_LIMIT_EXCEEDED");
                      ("retryAfter", retryAfter error)] |}
  | _ => None
  end.

(** [errorHandler]; [production] is
    [process.env.NODE_ENV === 'production'].  An operational error
    without a status code is not modelled: [AppError] always sets one. *)
Definition errorHandler (production : bool) (error : error) : Response :=
  if isOperational error then
    {| status := default 500 (statusCode error);
       body := JObj [("success", JBool false);
                     ("message", JStr (message error));
                     ("code", JVal (code error));
                     ("details", details error)] |}
  else
    let message := if production then "Something went wrong" else message error in
    {| status := 500;
       body := JObj [("success", JBool false);
                     ("message", JStr message);
                     ("code", JStr "INTERNAL_SERVER_ERROR")] |}.

End errorHandler.

(** *** [src/middleware/auth.js]

    The version of the middleware that issues and verifies tokens
    through [src/utils/jwt.js]. *)

Module auth.

Definition generateToken (rt : Runtime) (userId : string) (clock : Z)
    (randomUUID : string) : result jsonwebtoken.token :=
  jwt.generateAccessToken rt userId None clock randomUUID.

Definition generateRefreshToken (rt : Runtime) (userId : string) (clock : Z)
    (randomUUID : string) : result jsonwebtoken.token :=
  jwt.generateRefreshToken rt userId None clock randomUUID.

(** What [authenticateToken] attaches to the request. *)
Record Authenticated := {
  req_user : User.t;
  req_userId : option string;
  req_tokenId : option string
}.

(** What the [catch] block of [authenticateToken] passes to [next]. *)
Definition authenticateToken_catch (error : errorHandler.error)
    : errorHandler.error :=
  if String.eqb (errorHandler.name error) "JsonWebTokenError" then
    errorHandler.AppError "Invalid authentication token" 401 "INVALID_TOKEN"
  else if String.eqb (errorHandler.name error) "TokenExpiredError" then
    errorHandler.AppError "Authentication token has expired" 401 "TOKEN_EXPIRED"
  else error.

(** [authenticateToken]: [authorization] is [req.headers.authorization],
    [denote] reads a token string as the token library does, [findById]
    is the store's answer to [User.findById].  The result is what is
    attached to the request before [next()], or the error given to
    [next]; an error the lookup is rejected with goes through the
    [catch] block like any other. *)
Definition authenticateToken (rt : Runtime)
    (denote : string -> jsonwebtoken.token) (authorization : option string)
    (findById : string -> errorHandler.error + option User.t) (now : Z)
    : errorHandler.error + Authenticated :=
  match jwt.extractTokenFromHeader authorization with
  | None | Some EmptyString =>
      inl (authenticateToken_catch
             (errorHandler.AppError "No authentication token provided" 401
                "NO_TOKEN"))
  | Some token =>
      if negb (jwt.isValidTokenFormat (Some token)) then
        inl (authenticateToken_catch
               (errorHandler.AppError "Invalid token format" 401
                  "INVALID_TOKEN_FORMAT"))
      else
        match jwt.verifyToken rt (denote token) "access" now with
        | inl error => inl (authenticateToken_catch (errorHandler.thrown error))
        | inr decoded =>
            match User.findById findById (jsonwebtoken.userId decoded) with
            | inl error => inl (authenticateToken_catch error)
            | inr None =>
                inl (authenticateToken_catch
                       (errorHandler.AppError "User no longer exists" 401
                          "USER_NOT_FOUND"))
            | inr (Some user) =>
                inr {| req_user := user;
                       req_userId := jsonwebtoken.userId decoded;
                       req_tokenId := jsonwebtoken.jti decoded |}
            end
        end
  end.

(** [optionalAuth]: what is attached to the request, if anything;
    [next()] is called without an error in every case. *)
Definition optionalAuth (rt : Runtime) (denote : string -> jsonwebtoken.token)
    (authorization : option string)
    (findById : string -> errorHandler.error + option User.t)
    (now : Z) : option Authenticated :=
  match jwt.extractTokenFromHeader authorization with
  | None | Some EmptyString => None
  | Some token =>
      if jwt.isValidTokenFormat (Some token) then
        match jwt.verifyToken rt (denote token) "access" now with
        | inl _ => None
        | inr decoded =>
            match User.findById findById (jsonwebtoken.userId decoded) with
            | inr (Some user) =>
                Some {| req_user := user;
                        req_userId := jsonwebtoken.userId decoded;
                        req_tokenId := jsonwebtoken.jti decoded |}
            | inr None | inl _ => None
            end
        end
      else None
  end.

(** [requireVerifiedUser]: the error thrown, if any; [user] is
    [req.user]. *)
Definition requireVerifiedUser (user : option User.t) : option errorHandler.error :=
  if negb (default false (User.isEmailVerified <$> user)) then
    Some (errorHandler.AppError
            "Please verify your email address to access this resource" 403
            "EMAIL_NOT_VERIFIED")
  else None.

End auth.

(** *** [src/controllers/authController.js] *)

Module authController.

(** [login]: [found] is the result of [User.findByEmail(email)]. *)
Definition login (rt : Runtime) (found : option User.t) (password : string)
    (now : Z) (uuid1 uuid2 : string) : Outcome :=
  match found with
  | None =>
      reply 401 (JObj [("error", JStr "Invalid Credentials");
                       ("message", JStr "Email or password is incorrect")])
  | Some user =>
      if negb (bcrypt_compare rt password (User.password user)) then
        reply 401 (JObj [("error", JStr "Invalid Credentials");
                         ("message", JStr "Email or password is incorrect")])
      else
        match auth.generateToken rt (User._id user) now uuid1,
              auth.generateRefreshToken rt (User._id user) now uuid2 with
        | inr accessToken, inr refreshToken =>
            let pushed :=
              User.refreshTokens user ++
              [{| User.token := refreshToken; User.createdAt := now |}] in
            let kept :=
              if (5 <? length pushed)%nat then JS.slice_last 5 pushed
              else pushed in
            let user1 :=
              User.set_lastLoginAt (Some now)
                (User.set_refreshTokens kept user) in
            save_and_reply user1 200 (fun user =>
              JObj [("message", JStr "Login successful");
                    ("user",
                     JObj [("id", JStr (User._id user));
                           ("name", JVal JS.VUndefined);
                           ("email", JStr (User.email user));
                           ("isEmailVerified", JBool (User.isEmailVerified user));
                           ("lastLoginAt", JOpt JDate (User.lastLoginAt user));
                           ("profilePicture", JVal JS.VUndefined)]);
                    ("tokens",
                     JObj [("accessToken", JTok accessToken);
                           ("refreshToken", JTok refreshToken);
                           ("expiresIn",
                            JStr (JS.or_default (JWT_EXPIRES_IN rt) "7d"))])])
        | _, _ =>
            reply 500 (JObj [("error", JStr "Login Failed");
                             ("message", JStr "An error occurred during login")])
        end
  end.

(** The options the refresh handler passes to the library. *)
Definition refreshVerifyOptions : jsonwebtoken.VerifyOptions :=
  {| jsonwebtoken.issuer := Some "fitness-app";
     jsonwebtoken.audience := Some "fitness-app-users";
     jsonwebtoken.algorithms := None |}.

(** What the [catch] block answers to a thrown error. *)
Definition refreshToken_catch (error : errorHandler.error) : Outcome :=
  if String.eqb (errorHandler.name error) "JsonWebTokenError" ||
     String.eqb (errorHandler.name error) "TokenExpiredError"
  then reply 401 (JObj [("error", JStr "Invalid Refresh Token");
                        ("message", JStr "Please login again")])
  else reply 500 (JObj [("error", JStr "Token Refresh Failed");
                        ("message",
                         JStr "An error occurred while refreshing token")]).

(** [refreshToken]: [body_refreshToken] is [req.body.refreshToken] and
    [findById] the store's answer to [User.findById]; an error the
    lookup is rejected with is caught like one the token library
    throws. *)
Definition refreshToken (rt : Runtime)
    (body_refreshToken : option jsonwebtoken.token)
    (findById : string -> errorHandler.error + option User.t) (now : Z)
    (uuid : string) : Outcome :=
  match body_refreshToken with
  | None | Some (jsonwebtoken.Garbage "") =>
      reply 400 (JObj [("error", JStr "Refresh Token Required");
                       ("message", JStr "Please provide a refresh token")])
  | Some refreshToken =>
      match jsonwebtoken.verify refreshToken (JWT_SECRET rt)
              refreshVerifyOptions now with
      | inl error => refreshToken_catch (errorHandler.thrown error)
      | inr decoded =>
          if negb (bool_decide (jsonwebtoken.type decoded = Some "refresh")) then
            reply 401 (JObj [("error", JStr "Invalid Token Type");
                             ("message",
                              JStr "Please provide a valid refresh token")])
          else
            match User.findById findById (jsonwebtoken.userId decoded) with
            | inl error => refreshToken_catch error
            | inr None =>
                reply 401 (JObj [("error", JStr "Invalid Token");
                                 ("message", JStr "User no longer exists")])
            | inr (Some user) =>
                let tokenExists :=
                  existsb
                    (fun tokenObj =>
                       bool_decide (User.token tokenObj = refreshToken))
                    (User.refreshTokens user) in
                if negb tokenExists then
                  reply 401
                    (JObj [("error", JStr "Invalid Refresh Token");
                           ("message",
                            JStr "Refresh token is not valid or has been revoked")])
                else
                  match auth.generateToken rt (User._id user) now uuid with
                  | inl error => refreshToken_catch (errorHandler.thrown error)
                  | inr newAccessToken =>
                      reply 200
                        (JObj [("message", JStr "Token refreshed successfully");
                               ("tokens",
                                JObj [("accessToken", JTok newAccessToken);
                                      ("expiresIn",
                                       JStr (JS.or_default (JWT_EXPIRES_IN rt)
                                                           "7d"))])])
                  end
            end
      end
  end.

(** [register]: [found] is the result of [User.findByEmail(email)], [id]
    the [_id] the new document is given, [email] the address of the
    request, [salt] the salt [bcrypt.hash] draws.  The
    document is saved three times; the password is modified at the first
    save only.  A save that is rejected ends the handler in its [catch]
    block, which answers 500; what an earlier save has written stays. *)
Definition register (rt : Runtime) (bcrypt_hash : string -> string -> string)
    (found : option User.t) (id email password : string) (now : Z)
    (salt uuid1 uuid2 : string) : Outcome :=
  match found with
  | Some _ =>
      reply 400 (JObj [("error", JStr "User Already Exists");
                       ("message",
                        JStr "A user with this email address already exists")])
  | None =>
      let failed :=
        JObj [("error", JStr "Registration Failed");
              ("message", JStr "An error occurred during registration")] in
      match save bcrypt_hash salt true (User.create id email password now) with
      | inl _ => reply 500 failed
      | inr user =>
      match auth.generateToken rt (User._id user) now uuid1,
            auth.generateRefreshToken rt (User._id user) now uuid2 with
      | inr accessToken, inr refreshToken =>
          match save bcrypt_hash salt false
                  (User.set_refreshTokens
                     (User.refreshTokens user ++
                      [{| User.token := refreshToken; User.createdAt := now |}])
                     user) with
          | inl _ => reply_after user 500 failed
          | inr user2 =>
          match save bcrypt_hash salt false
                  (User.set_lastLoginAt (Some now) user2) with
          | inl _ => reply_after user2 500 failed
          | inr user =>
              reply_after user 201
                (JObj [("message", JStr "User registered successfully");
                       ("user",
                        JObj [("id", JStr (User._id user));
                              ("name", JVal JS.VUndefined);
                              ("email", JStr (User.email user));
                              ("isEmailVerified",
                               JBool (User.isEmailVerified user));
                              ("createdAt", JDate (User.created user))]);
                       ("tokens",
                        JObj [("accessToken", JTok accessToken);
                              ("refreshToken", JTok refreshToken);
                              ("expiresIn",
                               JStr (JS.or_default (JWT_EXPIRES_IN rt) "7d"))])])
          end end
      | _, _ => reply_after user 500 failed
      end end
  end.

(** [signup], with the arguments of [register]. *)
Definition signup (rt : Runtime) (bcrypt_hash : string -> string -> string)
    (found : option User.t) (id email password : string) (now : Z)
    (salt uuid : string) : Outcome :=
  match found with
  | Some _ =>
      reply 400 (JObj [("success", JBool false);
                       ("message",
                        JStr "A user with this email address already exists")])
  | None =>
      let failed :=
        JObj [("success", JBool false);
              ("message", JStr "An error occurred during registration")] in
      match save bcrypt_hash salt true (User.create id email password now) with
      | inl _ => reply 500 failed
      | inr user =>
      match auth.generateToken rt (User._id user) now uuid with
      | inr accessToken =>
          match save bcrypt_hash salt false
                  (User.set_lastLoginAt (Some now) user) with
          | inl _ => reply_after user 500 failed
          | inr user =>
              reply_after user 201
                (JObj [("success", JBool true);
                       ("message", JStr "User registered successfully");
                       ("token", JTok accessToken);
                       ("user",
                        JObj [("id", JStr (User._id user));
                              ("email", JStr (User.email user));
                              ("onboardingCompleted",
                               JBool (User.onboardingCompleted user));
                              ("onboardingStep",
                               JNum (User.onboardingStep user))])])
          end
      | inl _ => reply_after user 500 failed
      end end
  end.

(** [signin]: [found] is the result of
    [User.findByEmail(email).select('+password')]. *)
Definition signin (rt : Runtime) (found : option User.t) (password : string)
    (now : Z) (uuid : string) : Outcome :=
  match found with
  | None =>
      reply 401 (JObj [("success", JBool false);
                       ("message", JStr "Invalid email or password")])
  | Some user =>
      if negb (User.comparePassword rt user password) then
        reply 401 (JObj [("success", JBool false);
                         ("message", JStr "Invalid email or password")])
      else
        let failed :=
          JObj [("success", JBool false);
                ("message", JStr "An error occurred during login")] in
        match auth.generateToken rt (User._id user) now uuid with
        | inr accessToken =>
            match save_unmodified (User.set_lastLoginAt (Some now) user) with
            | inl _ => reply 500 failed
            | inr user =>
                reply_after user 200
                  (JObj [("success", JBool true);
                         ("message", JStr "Login successful");
                         ("token", JTok accessToken);
                         ("user",
                          JObj [("id", JStr (User._id user));
                                ("email", JStr (User.email user));
                                ("onboardingCompleted",
                                 JBool (User.onboardingCompleted user));
                                ("onboardingStep",
                                 JNum (User.onboardingStep user))])])
            end
        | inl _ => reply 500 failed
        end
  end.

(** [logout]: [found] is the document with [_id = req.userId], which
    [findByIdAndUpdate] changes in the store, without the save hooks.
    [$pull] removes every entry whose token is the one given. *)
Definition logout (body_refreshToken : option jsonwebtoken.token)
    (found : option User.t) : Outcome :=
  {| response :=
       {| status := 200; body := JObj [("message", JStr "Logout successful")] |};
     saved :=
       match body_refreshToken with
       | None | Some (jsonwebtoken.Garbage "") => None
       | Some refreshToken =>
           (fun user =>
              User.set_refreshTokens
                (List.filter
                   (fun tokenObj =>
                      negb (bool_decide (User.token tokenObj = refreshToken)))
                   (User.refreshTokens user))
                user) <$> found
       end |}.

Definition logoutAll (found : option User.t) : Outcome :=
  {| response :=
       {| status := 200;
          body := JObj [("message",
                         JStr "Logged out from all devices successfully")] |};
     saved := User.set_refreshTokens [] <$> found |}.

(** [changePassword]: [found] is the result of
    [User.findById(userId).select('+password')].  Assigning the value the
    path already holds does not mark the path as modified.  A save that
    is rejected ends the handler in its [catch] block. *)
Definition changePassword (rt : Runtime)
    (bcrypt_hash : string -> string -> string) (found : option User.t)
    (currentPassword newPassword salt : string) : Outcome :=
  match found with
  | None =>
      reply 404 (JObj [("error", JStr "User Not Found");
                       ("message", JStr "User does not exist")])
  | Some user =>
      if negb (User.comparePassword rt user currentPassword) then
        reply 400
          (JObj [("error", JStr "Invalid Current Password");
                 ("message",
                  JStr "The current password you entered is incorrect")])
      else
        let failed :=
          JObj [("error", JStr "Password Change Failed");
                ("message",
                 JStr "An error occurred while changing password")] in
        let modified := negb (String.eqb newPassword (User.password user)) in
        match save bcrypt_hash salt modified
                (User.set_password newPassword user) with
        | inl _ => reply 500 failed
        | inr user1 =>
            match save bcrypt_hash salt false
                    (User.set_refreshTokens [] user1) with
            | inl _ => reply_after user1 500 failed
            | inr user2 =>
                reply_after user2 200
                  (JObj [("message",
                          JStr "Password changed successfully. Please login again.")])
            end
        end
  end.

End authController.

(** *** [src/controllers/onboardingController.js] *)

Module onboardingController.

Definition userNotFound : Outcome :=
  reply 404 (JObj [("success", JBool false);
                   ("message", JStr "User not found")]).

(** The body shared by [updateBasicInfo], [updateLifestyle],
    [updateMedicalHistory], [updateGoals] and [updatePreferences]:
    [errors] is [validationResult(req)], [found] the result of
    [User.findById(req.user.id)], [req_body] the request body. *)
Definition updateSection (sectionName : User.SectionName)
    (key message : string) (errors : list json) (found : option User.t)
    (req_body : JS.bag) (now : Z) : Outcome :=
  if negb (bool_decide (errors = [])) then
    reply 400 (JObj [("success", JBool false);
                     ("message", JStr "Validation failed");
                     ("errors", JArr errors)])
  else
    match found with
    | None => userNotFound
    | Some user =>
        save_and_reply
          (User.updateOnboardingSection now sectionName req_body user) 200
          (fun user =>
             JObj [("success", JBool true);
                   ("message", JStr message);
                   ("data",
                    JObj [(key, JBag (User.section user sectionName));
                          ("onboardingStatus",
                           User.getOnboardingStatus user)])])
    end.

Definition updateBasicInfo :=
  updateSection User.BasicInfo "basicInfo"
    "Basic information updated successfully".

Definition updateLifestyle :=
  updateSection User.Lifestyle "lifestyle"
    "Lifestyle information updated successfully".

Definition updateMedicalHistory :=
  updateSection User.MedicalHistory "medicalHistory"
    "Medical history updated successfully".

Definition updateGoals :=
  updateSection User.Goals "goals" "Goals updated successfully".

(** [updatePreferences] does not consult [validationResult]. *)
Definition updatePreferences :=
  updateSection User.Preferences "preferences"
    "Preferences updated successfully" [].

Definition requiredSections : list string :=
  ["hasBasicInfo"; "hasLifestyle"; "hasMedicalHistory"; "hasGoals"].

Definition completeOnboarding (found : option User.t) (now : Z) : Outcome :=
  match found with
  | None => userNotFound
  | Some user =>
      let incompleteSections :=
        List.filter
          (fun section => negb (User.flag (User.dataQuality user) section))
          requiredSections in
      if (0 <? length incompleteSections)%nat then
        reply 400
          (JObj [("success", JBool false);
                 ("message",
                  JStr "Please complete all required sections before finishing onboarding");
                 ("incompleteSections",
                  JArr (List.map
                          (fun section =>
                             JStr (JS.toLowerCase (JS.replace "has" "" section)))
                          incompleteSections))])
      else
        let info := User.sessionInfo user in
        let user1 :=
          User.set_sessionInfo
            {| User.completionTimestamp := Some now;
               User.completionDate := Some (JS.toISODate now);
               User.totalXPEarned := User.totalXPEarned info;
               User.userLevel := User.userLevel info;
               User.sectionsCompleted := Z.of_nat (length requiredSections);
               User.completionRate := User.completionRate info |}
            (User.set_onboardingStep 6
               (User.set_onboardingCompleted true user)) in
        save_and_reply user1 200 (fun user =>
          JObj [("success", JBool true);
                ("message",
                 JStr "Onboarding completed successfully! Welcome to your fitness journey.");
                ("data",
                 JObj [("user", User.getPublicProfile user);
                       ("onboardingStatus", User.getOnboardingStatus user)])])
  end.

Definition skipOnboarding (found : option User.t) (now : Z) : Outcome :=
  match found with
  | None => userNotFound
  | Some user =>
      let info := User.sessionInfo user in
      let user1 :=
        User.set_sessionInfo
          {| User.completionTimestamp := Some now;
             User.completionDate := Some (JS.toISODate now);
             User.totalXPEarned := User.totalXPEarned info;
             User.userLevel := User.userLevel info;
             User.sectionsCompleted := User.sectionsCompleted info;
             User.completionRate := User.completionRate info |}
          (User.set_onboardingStep 6
             (User.set_onboardingCompleted true user)) in
      save_and_reply user1 200 (fun user =>
        JObj [("success", JBool true);
              ("message",
               JStr "Onboarding skipped. You can complete your profile anytime from settings.");
              ("data",
               JObj [("user", User.getPublicProfile user);
                     ("onboardingStatus", User.getOnboardingStatus user)])])
  end.

End onboardingController.

(** *** [src/app.js]: the error-handling middleware, in the order it is
    mounted ([notFoundHandler], mounted among them, is no error
    handler). *)

Module app.

Definition handleError (production : bool) (error : errorHandler.error)
    : Response :=
  match errorHandler.handleAuthError error with
  | Some answer => answer
  | None =>
  match errorHandler.handleValidationError error with
  | Some answer => answer
  | None =>
  match errorHandler.handleDuplicateKeyError error with
  | Some answer => answer
  | None =>
  match errorHandler.handleCastError error with
  | Some answer => answer
  | None =>
  match errorHandler.handleRateLimitError error with
  | Some answer => answer
  | None => errorHandler.errorHandler production error
  end end end end end.

(** A request to a route behind [authenticateToken]: the middleware's
    error goes to the error handlers, and otherwise the route's handler
    answers. *)
Definition protected (rt : Runtime) (production : bool)
    (denote : string -> jsonwebtoken.token) (authorization : option string)
    (findById : string -> errorHandler.error + option User.t) (now : Z)
    (handler : auth.Authenticated -> Response) : Response :=
  match auth.authenticateToken rt denote authorization findById now with
  | inl error => handleError production error
  | inr req => handler req
  end.

End app.

(** ** Vocabulary of the properties *)

(** How many of the four required flags are set. *)
Definition requiredCount (dq : User.DataQuality) : Z :=
  Z.b2z (User.hasBasicInfo dq) + Z.b2z (User.hasLifestyle dq) +
  Z.b2z (User.hasMedicalHistory dq) + Z.b2z (User.hasGoals dq).

Definition allRequired (dq : User.DataQuality) : bool :=
  User.hasBasicInfo dq && User.hasLifestyle dq &&
  User.hasMedicalHistory dq && User.hasGoals dq.

(** The names [completeOnboarding] reports for the required sections
    whose flag is not set. *)
Definition missingSections (dq : User.DataQuality) : list string :=
  (if User.hasBasicInfo dq then [] else ["basicinfo"]) ++
  (if User.hasLifestyle dq then [] else ["lifestyle"]) ++
  (if User.hasMedicalHistory dq then [] else ["medicalhistory"]) ++
  (if User.hasGoals dq then [] else ["goals"]).

(** The field [key] of an attribute bag holds a value that counts as
    present for the hook: set, and neither empty nor zero. *)
Definition present (o : JS.bag) (key : string) : Prop :=
  JS.truthy (JS.get o key) = true.

(** The fields a section needs before its flag is raised. *)
Definition requiredFields (sectionName : User.SectionName) : list string :=
  match sectionName with
  | User.BasicInfo => ["name"; "dateOfBirth"; "height"; "weight"]
  | User.Lifestyle => ["wakeUpTime"; "sleepTime"; "exerciseFrequency"]
  | User.MedicalHistory => ["gender"]
  | User.Goals => ["primaryGoal"; "targetWeight"]
  | User.Preferences => []
  end.

Definition hasRequiredFields (sectionName : User.SectionName) (o : JS.bag) : bool :=
  forallb (fun key => JS.truthy (JS.get o key)) (requiredFields sectionName).

Definition requiredSectionNames : list User.SectionName :=
  [User.BasicInfo; User.Lifestyle; User.MedicalHistory; User.Goals].

(** The same document with another preferences section and another value
    of the stored [hasPreferences] flag. *)
Definition with_preferences (o : JS.bag) (flag : bool) (u : User.t) : User.t :=
  User.set_dataQuality
    {| User.hasBasicInfo := User.hasBasicInfo (User.dataQuality u);
       User.hasLifestyle := User.hasLifestyle (User.dataQuality u);
       User.hasMedicalHistory := User.hasMedicalHistory (User.dataQuality u);
       User.hasGoals := User.hasGoals (User.dataQuality u);
       User.hasPreferences := flag;
       User.completenessScore := User.completenessScore (User.dataQuality u) |}
    (User.set_section User.Preferences o u).

(** A value as Mongoose keeps it in a path of the given type: the cast
    and the setters of the path leave it as it is.  A nested object has
    paths of its own and is not covered. *)
Definition keptAsIs (ty : User.SchemaType) (v : JS.value) : bool :=
  match ty, v with
  | User.SString trim, JS.VStr s => negb trim || String.eqb (JS.trim s) s
  | User.SNumber, JS.VNum _ => true
  | User.SDate, JS.VDate _ => true
  | User.SStrings, JS.VArr items =>
      forallb (fun item => match item with JS.VStr _ => true | _ => false end)
              items
  | User.SMixed, _ => true
  | _, _ => false
  end.

(** A payload in the form of the schema: every attribute that carries a
    value is a path the schema declares in the section, with a value as
    Mongoose keeps it. *)
Definition inSchemaForm (sectionName : User.SectionName) (data : JS.bag) : bool :=
  forallb
    (fun kv =>
       negb (JS.notNullish (snd kv)) ||
       match User.schemaPath sectionName (fst kv) with
       | Some ty => keptAsIs ty (snd kv)
       | None => false
       end)
    (map_to_list data).

(** Once completed, the step is 6. *)
Definition completed_at_six (u : User.t) : Prop :=
  User.onboardingCompleted u = true -> User.onboardingStep u = 6.

(** The document with [basicInfo.completedAt] set to [now] and the step
    raised to 1 if it was below. *)
Definition refreshedBasicInfo (now : Z) (u : User.t) : User.t :=
  User.set_onboardingStep (Z.max (User.onboardingStep u) 1)
    (User.set_section User.BasicInfo
       (<["completedAt" := JS.VDate now]> (User.basicInfo u)) u).

(** A section update that passed validation and was saved. *)
Record SectionUpdate := {
  update_time : Z;
  update_section : User.SectionName;
  update_body : JS.bag
}.

(** What the store holds once the update handler has accepted [r]
    ([updateSection_accepted] below). *)
Definition applyUpdate (u : User.t) (r : SectionUpdate) : User.t :=
  User.preSave
    (User.updateOnboardingSection (update_time r) (update_section r)
       (update_body r) u).

Definition applyUpdates (u : User.t) (l : list SectionUpdate) : User.t :=
  fold_left applyUpdate l u.

(** One section-update request against the stored document, whatever its
    section, payload, time and validation outcome. *)
Inductive section_update : User.t -> User.t -> Prop :=
| section_update_request sectionName key message errors req_body now u :
    section_update u
      (stored_after u
         (onboardingController.updateSection sectionName key message errors
            (Some u) req_body now)).

(** One request of any modelled kind against the stored document. *)
Inductive request : User.t -> User.t -> Prop :=
| request_update u u' : section_update u u' -> request u u'
| request_complete u now :
    request u (stored_after u (onboardingController.completeOnboarding (Some u) now))
| request_skip u now :
    request u (stored_after u (onboardingController.skipOnboarding (Some u) now))
| request_login rt u password now uuid1 uuid2 :
    request u
      (stored_after u (authController.login rt (Some u) password now uuid1 uuid2)).

(** The documents a store can hold: a created document is saved, and
    then changes through requests only. *)
Inductive persisted : User.t -> Prop :=
| persisted_create id email password now :
    persisted (User.preSave (User.create id email password now))
| persisted_request u u' : persisted u -> request u u' -> persisted u'.

(** A run of login attempts by one user. *)
Record LoginAttempt := {
  attempt_password : string;
  attempt_time : Z;
  attempt_uuid1 : string;
  attempt_uuid2 : string
}.

Fixpoint logins (rt : Runtime) (u : User.t) (attempts : list LoginAttempt)
    : list Response * User.t :=
  match attempts with
  | [] => ([], u)
  | a :: rest =>
      let o := authController.login rt (Some u) (attempt_password a)
                 (attempt_time a) (attempt_uuid1 a) (attempt_uuid2 a) in
      let '(responses, final) := logins rt (stored_after u o) rest in
      (response o :: responses, final)
  end.

(** The refresh token a login response hands to the client. *)
Definition issuedRefreshToken (r : Response) : option jsonwebtoken.token :=
  match json_get (body r) "tokens" ≫= (fun tokens => json_get tokens "refreshToken") with
  | Some (JTok t) => Some t
  | _ => None
  end.

(** The entries a run of logins issued, oldest first: the refresh token
    of each response that carries one, with the time of its login. *)
Fixpoint issuedEntries (attempts : list LoginAttempt) (responses : list Response)
    : list User.RefreshToken :=
  match attempts, responses with
  | a :: attempts', r :: responses' =>
      match issuedRefreshToken r with
      | Some t =>
          {| User.token := t; User.createdAt := attempt_time a |}
          :: issuedEntries attempts' responses'
      | None => issuedEntries attempts' responses'
      end
  | _, _ => []
  end.

(** The conditions under which [verifyToken] is to fail. *)
Definition claimsOf (tok : jsonwebtoken.token) : option jsonwebtoken.payload :=
  match tok with
  | jsonwebtoken.Garbage _ => None
  | jsonwebtoken.Compact _ p _ => Some p
  end.

Definition algorithmOf (tok : jsonwebtoken.token) : option string :=
  match tok with
  | jsonwebtoken.Garbage _ => None
  | jsonwebtoken.Compact alg _ _ => Some alg
  end.

(** The token carries the configured algorithm in its header. *)
Definition algorithm_matches (tok : jsonwebtoken.token) : Prop :=
  algorithmOf tok = Some "HS256".

(** A secret is configured and the token's signature is the HS256 MAC of
    its own header and payload under it. *)
Definition signature_matches (rt : Runtime) (tok : jsonwebtoken.token) : Prop :=
  JWT_SECRET rt <> "" /\
  jsonwebtoken.jws_verify tok "HS256" (JWT_SECRET rt) = true.

Definition issuer_matches (rt : Runtime) (tok : jsonwebtoken.token) : Prop :=
  exists p, claimsOf tok = Some p /\
    jsonwebtoken.iss p = Some (JS.or_default (JWT_ISSUER rt) "fitness-app").

Definition audience_matches (rt : Runtime) (tok : jsonwebtoken.token) : Prop :=
  exists p, claimsOf tok = Some p /\
    JS.or_default (JWT_AUDIENCE rt) "fitness-app-users" ∈ jsonwebtoken.aud p.

Definition past_expiry (tok : jsonwebtoken.token) (clock : Z) : Prop :=
  exists p e, claimsOf tok = Some p /\ jsonwebtoken.exp p = Some e /\
    e <= clock / 1000.

Definition not_yet_active (tok : jsonwebtoken.token) (clock : Z) : Prop :=
  exists p n, claimsOf tok = Some p /\ jsonwebtoken.nbf p = Some n /\
    clock / 1000 < n.

Definition type_matches (tok : jsonwebtoken.token) (expectedType : string) : Prop :=
  exists p, claimsOf tok = Some p /\ jsonwebtoken.type p = Some expectedType.

(** The three failure kinds of the specification, by the name of the
    error thrown. *)
Definition InvalidSignature : string := "JsonWebTokenError".
Definition Expired : string := "TokenExpiredError".
Definition WrongType : string := "Error".

Definition fails_with (kind : string) (r : result jsonwebtoken.payload) : Prop :=
  exists error, r = inl error /\ error_name error = kind.

(** What each outcome of the library's [verify], called with the options
    of [verifyToken], says about the token: the checks run in the order
    algorithm, signature, not-before, expiry, audience, issuer. *)
Definition classified (rt : Runtime) (tok : jsonwebtoken.token) (clock : Z)
    (r : result jsonwebtoken.payload) : Prop :=
  match r with
  | inr p =>
      claimsOf tok = Some p /\ algorithm_matches tok /\ signature_matches rt tok /\
      ~ not_yet_active tok clock /\ ~ past_expiry tok clock /\
      issuer_matches rt tok /\ audience_matches rt tok
  | inl (JsonWebTokenError _) =>
      ~ algorithm_matches tok \/ ~ signature_matches rt tok \/
      (algorithm_matches tok /\ signature_matches rt tok /\
       ~ not_yet_active tok clock /\ ~ past_expiry tok clock /\
       (~ issuer_matches rt tok \/ ~ audience_matches rt tok))
  | inl (TokenExpiredError _ _) =>
      algorithm_matches tok /\ signature_matches rt tok /\
      ~ not_yet_active tok clock /\ past_expiry tok clock
  | inl (NotBeforeError _ _) =>
      algorithm_matches tok /\ signature_matches rt tok /\ not_yet_active tok clock
  | inl (Error _) => False
  end.

(** The two kinds of token the service issues. *)
Inductive TokenKind := Access | Refresh.

Definition kindName (k : TokenKind) : string :=
  match k with Access => "access" | Refresh => "refresh" end.

Definition generate (k : TokenKind) :=
  match k with
  | Access => jwt.generateAccessToken
  | Refresh => jwt.generateRefreshToken
  end.

(** The lifetime [generate] asks the library for. *)
Definition lifetime (rt : Runtime) (k : TokenKind)
    (options_expiresIn : option string) : string :=
  JS.or_default options_expiresIn
    match k with
    | Access => JS.or_default (JWT_EXPIRES_IN rt) "15m"
    | Refresh => JS.or_default (JWT_REFRESH_EXPIRES_IN rt) "7d"
    end.

(** The number of dots in a text. *)
Fixpoint count_dots (s : string) : nat :=
  match s with
  | EmptyString => 0
  | String c rest => (if Ascii.eqb c "." then 1 else 0) + count_dots rest
  end.

(** The access token a login response hands to the client, and the
    lifetime the response advertises for it. *)
Definition issuedAccessToken (r : Response) : option jsonwebtoken.token :=
  match json_get (body r) "tokens" ≫= (fun tokens => json_get tokens "accessToken") with
  | Some (JTok t) => Some t
  | _ => None
  end.

Definition advertisedExpiresIn (r : Response) : option string :=
  match json_get (body r) "tokens" ≫= (fun tokens => json_get tokens "expiresIn") with
  | Some (JStr s) => Some s
  | _ => None
  end.

#[global] Instance TokenKind_eq_dec : EqDecision TokenKind.
Proof. solve_decision. Defined.

(** The claims of a token the service issues for [userId] at
    [issuedAt] with a lifetime of [span] milliseconds. *)
Definition issuedClaims (rt : Runtime) (k : TokenKind) (userId : string)
    (issuedAt span : Z) (uuid : string) : jsonwebtoken.payload :=
  {| jsonwebtoken.userId := Some userId;
     jsonwebtoken.type := Some (kindName k);
     jsonwebtoken.jti := Some uuid;
     jsonwebtoken.iat := Some (issuedAt / 1000);
     jsonwebtoken.nbf := None;
     jsonwebtoken.exp := Some (issuedAt / 1000 + span / 1000);
     jsonwebtoken.aud := [JS.or_default (JWT_AUDIENCE rt) "fitness-app-users"];
     jsonwebtoken.iss := Some (JS.or_default (JWT_ISSUER rt) "fitness-app");
     jsonwebtoken.sub := Some userId |}.

(** What the refresh handler answers when verification throws. *)
Definition pleaseLoginAgain : Response :=
  {| status := 401;
     body := JObj [("error", JStr "Invalid Refresh Token");
                   ("message", JStr "Please login again")] |}.

(** One request of any modelled kind against the stored document of its
    user. *)
Inductive transition : User.t -> User.t -> Prop :=
| transition_request u u' : request u u' -> transition u u'
| transition_register rt bcrypt_hash u id email password now salt uuid1 uuid2 :
    transition u
      (stored_after u
         (authController.register rt bcrypt_hash (Some u) id email password now
            salt uuid1 uuid2))
| transition_signup rt bcrypt_hash u id email password now salt uuid :
    transition u
      (stored_after u
         (authController.signup rt bcrypt_hash (Some u) id email password now
            salt uuid))
| transition_signin rt u password now uuid :
    transition u
      (stored_after u (authController.signin rt (Some u) password now uuid))
| transition_refreshToken rt u body_refreshToken findById now uuid :
    transition u
      (stored_after u
         (authController.refreshToken rt body_refreshToken findById now uuid))
| transition_logout u body_refreshToken :
    transition u
      (stored_after u (authController.logout body_refreshToken (Some u)))
| transition_logoutAll u :
    transition u (stored_after u (authController.logoutAll (Some u)))
| transition_changePassword rt bcrypt_hash u currentPassword newPassword salt :
    transition u
      (stored_after u
         (authController.changePassword rt bcrypt_hash (Some u) currentPassword
            newPassword salt)).

(** The documents the store can hold: what a registration has stored,
    and what requests make of it. *)
Inductive stored : User.t -> Prop :=
| stored_register rt bcrypt_hash id email password now salt uuid1 uuid2 u :
    saved (authController.register rt bcrypt_hash None id email password now
             salt uuid1 uuid2) = Some u ->
    stored u
| stored_signup rt bcrypt_hash id email password now salt uuid u :
    saved (authController.signup rt bcrypt_hash None id email password now
             salt uuid) = Some u ->
    stored u
| stored_transition u u' : stored u -> transition u u' -> stored u'.

(** What the completeness hook leaves in place. *)
Definition settled (u : User.t) : Prop :=
  completed_at_six u /\ 0 <= User.onboardingStep u <= 6 /\
  User.hasPreferences (User.dataQuality u) = false.

(** A document a save has produced and the hook would not change. *)
Definition sound (u : User.t) : Prop := User.preSave u = u /\ settled u.

(** A store that holds one user. *)
Definition onlyUser (u : User.t)
    (findById : string -> errorHandler.error + option User.t) : Prop :=
  forall id user, findById id = inr (Some user) -> user = u.

(** What the two completion handlers assign before they save. *)
Definition markCompleted (now : Z) (sectionsCompleted : Z) (u : User.t) : User.t :=
  User.set_sessionInfo
    {| User.completionTimestamp := Some now;
       User.completionDate := Some (JS.toISODate now);
       User.totalXPEarned := User.totalXPEarned (User.sessionInfo u);
       User.userLevel := User.userLevel (User.sessionInfo u);
       User.sectionsCompleted := sectionsCompleted;
       User.completionRate := User.completionRate (User.sessionInfo u) |}
    (User.set_onboardingStep 6 (User.set_onboardingCompleted true u)).

(** ** Sample data *)

Module Sample.

Definition parse_span (s : string) : option Z :=
  if String.eqb s "15m" then Some 900000
  else if String.eqb s "7d" then Some 604800000
  else None.

Definition rt : Runtime :=
  {| JWT_SECRET := "s3cret"; JWT_ISSUER := None; JWT_AUDIENCE := None;
     JWT_EXPIRES_IN := None; JWT_REFRESH_EXPIRES_IN := None;
     ms := parse_span; bcrypt_compare := String.eqb |}.

Definition day : Z := 86400000.

(** A new user document, saved; the sample runtime [rt] compares
    passwords as plain text. *)
Definition fresh : User.t :=
  User.preSave
    (User.create "64b7f3c2a1d4e5f6a7b8c9d0" "ann@example.com" "Passw0rd!" 0).

Definition basicInfoBody : JS.bag :=
  {[ "name" := JS.VStr "Ann"; "dateOfBirth" := JS.VDate 0;
     "height" := JS.VNum 170; "weight" := JS.VNum 60 ]}.

Definition lifestyleBody : JS.bag :=
  {[ "wakeUpTime" := JS.VStr "07:00"; "sleepTime" := JS.VStr "23:00";
     "exerciseFrequency" := JS.VStr "3-4" ]}.

Definition medicalHistoryBody : JS.bag := {[ "gender" := JS.VStr "Femme" ]}.

Definition goalsBody : JS.bag :=
  {[ "primaryGoal" := JS.VStr "endurance"; "targetWeight" := JS.VNum 58 ]}.

Definition preferencesBody : JS.bag := {[ "workoutDuration" := JS.VStr "30" ]}.

(** The four required sections, goals first. *)
Definition updates : list SectionUpdate :=
  [ {| update_time := 4; update_section := User.Goals; update_body := goalsBody |};
    {| update_time := 5; update_section := User.BasicInfo; update_body := basicInfoBody |};
    {| update_time := 6; update_section := User.MedicalHistory;
       update_body := medicalHistoryBody |};
    {| update_time := 7; update_section := User.Lifestyle; update_body := lifestyleBody |} ].

(** The fresh user after [POST /onboarding/skip]. *)
Definition skipped : User.t :=
  stored_after fresh (onboardingController.skipOnboarding (Some fresh) day).

(** A refresh token issued at time 0 (it lives 7 days). *)
Definition refreshTok : jsonwebtoken.token :=
  match jwt.generateRefreshToken rt "64b7f3c2a1d4e5f6a7b8c9d0" None 0
          "jti-1" with
  | inr t => t
  | inl _ => jsonwebtoken.Garbage ""
  end.

(** The same claims signed with the same secret under HS512. *)
Definition refreshTok512 : jsonwebtoken.token :=
  match refreshTok with
  | jsonwebtoken.Compact _ p _ =>
      jsonwebtoken.Compact "HS512" p
        (Some (jsonwebtoken.jws_sign "HS512" (JWT_SECRET rt) p))
  | other => other
  end.

Definition withToken : User.t :=
  User.set_refreshTokens
    [{| User.token := refreshTok; User.createdAt := 0 |}] fresh.

Definition attempt (n : Z) : LoginAttempt :=
  {| attempt_password := "Passw0rd!"; attempt_time := n;
     attempt_uuid1 := pretty n; attempt_uuid2 := pretty (n + 100) |}.

Definition sixAttempts : list LoginAttempt :=
  [attempt 1; attempt 2; attempt 3; attempt 4; attempt 5; attempt 6].

(** An access token issued at time 0 (it lives 15 minutes). *)
Definition accessTok : jsonwebtoken.token :=
  match jwt.generateAccessToken rt "64b7f3c2a1d4e5f6a7b8c9d0" None 0
          "jti-0" with
  | inr t => t
  | inl _ => jsonwebtoken.Garbage ""
  end.

(** A hash that keeps its four-character salt in front, and the
    comparison that goes with it. *)
Definition bcrypt_hash (password salt : string) : string :=
  (salt ++ password)%string.

Definition hashing : Runtime :=
  {| JWT_SECRET := "s3cret"; JWT_ISSUER := None; JWT_AUDIENCE := None;
     JWT_EXPIRES_IN := None; JWT_REFRESH_EXPIRES_IN := None;
     ms := parse_span;
     bcrypt_compare :=
       fun candidate stored => String.eqb (JS.substring_from 4 stored) candidate |}.

(** A deployment that configures its own issuer, and one without a
    secret. *)
Definition ownIssuer : Runtime :=
  {| JWT_SECRET := "s3cret"; JWT_ISSUER := Some "slim-express";
     JWT_AUDIENCE := None; JWT_EXPIRES_IN := None;
     JWT_REFRESH_EXPIRES_IN := None;
     ms := parse_span; bcrypt_compare := String.eqb |}.

Definition noSecret : Runtime :=
  {| JWT_SECRET := ""; JWT_ISSUER := None; JWT_AUDIENCE := None;
     JWT_EXPIRES_IN := None; JWT_REFRESH_EXPIRES_IN := None;
     ms := parse_span; bcrypt_compare := String.eqb |}.

(** A refresh token that deployment issued at time 0. *)
Definition ownIssuerTok : jsonwebtoken.token :=
  match jwt.generateRefreshToken ownIssuer "64b7f3c2a1d4e5f6a7b8c9d0" None 0
          "jti-1" with
  | inr t => t
  | inl _ => jsonwebtoken.Garbage ""
  end.

(** The account [POST /api/auth/signup] stores. *)
Definition account : User.t :=
  stored_after fresh
    (authController.signup hashing bcrypt_hash None "64b7f3c2a1d4e5f6a7b8c9d0"
       "ann@example.com" "Passw0rd!" 0 "salt" "jti-0").

(** The account with its four required sections filled in. *)
Definition completedAccount : User.t := applyUpdates account updates.

(** A store that holds the documents of [users].  An id is the text of
    an ObjectId, twenty-four hexadecimal digits; the lookup of any other
    text is rejected with a [CastError], as Mongoose does. *)
Definition isHexDigit (c : ascii) : bool :=
  let n := nat_of_ascii c in
  (Nat.leb 48 n && Nat.leb n 57) || (Nat.leb 97 n && Nat.leb n 102) ||
  (Nat.leb 65 n && Nat.leb n 70).

Definition isObjectId (text : string) : bool :=
  (String.length text =? 24)%nat && forallb isHexDigit (list_ascii_of_string text).

Definition castError (text : string) : errorHandler.error :=
  {| errorHandler.name := "CastError";
     errorHandler.message :=
       "Cast to ObjectId failed for value " ++ text ++ " at path _id for model User";
     errorHandler.statusCode := None;
     errorHandler.code := JS.VUndefined;
     errorHandler.details := JVal JS.VUndefined;
     errorHandler.isOperational := false;
     errorHandler.status_ := None;
     errorHandler.retryAfter := JVal JS.VUndefined;
     errorHandler.errors := [];
     errorHandler.keyValue := [];
     errorHandler.path := JStr "_id";
     errorHandler.value := JStr text |}.

Definition store (users : list User.t) (id : string)
    : errorHandler.error + option User.t :=
  if isObjectId id
  then inr (List.find (fun user => String.eqb (User._id user) id) users)
  else inl (castError id).

(** An access token whose [userId] is no ObjectId, signed with the
    secret all the same. *)
Definition foreignTok : jsonwebtoken.token :=
  match jwt.generateAccessToken rt "u1" None 0 "jti-f" with
  | inr t => t
  | inl _ => jsonwebtoken.Garbage ""
  end.

(** How two token strings read: the access and the refresh token above. *)
Definition denote (text : string) : jsonwebtoken.token :=
  if String.eqb text "h.access.s" then accessTok
  else if String.eqb text "h.refresh.s" then refreshTok
  else jsonwebtoken.Garbage text.

End Sample.


(** * Properties *)

(** ** The pre-save hook *)

Section Hook.
Import User.

Lemma truthy_and a b : JS.truthy (JS.and a b) = JS.truthy a && JS.truthy b.
Proof. unfold JS.and. destruct (JS.truthy a) eqn:E; simpl; auto. Qed.

(** The two branches of the hook, with the record projections reduced. *)
Ltac hook_branches :=
  unfold preSave; cbv zeta;
  match goal with
  | |- context [if ?c then _ else _] =>
      match c with (_ =? 100) && _ => destruct c eqn:?Hbranch end
  end;
  cbn [_id email password isEmailVerified refreshTokens lastLoginAt
       onboardingCompleted onboardingStep profileCompleteness sessionInfo
       basicInfo lifestyle medicalHistory goals preferences dataQuality
       created hasBasicInfo hasLifestyle hasMedicalHistory hasGoals
       hasPreferences completenessScore set_onboardingStep
       set_onboardingCompleted set_profileCompleteness set_dataQuality] in *.

(** Decide an equation between conjunctions of truthiness tests. *)
Ltac flag_cases :=
  unfold hasRequiredFields, requiredFields; cbn [forallb section];
  repeat match goal with
         | |- context [JS.truthy ?v] => destruct (JS.truthy v)
         end;
  reflexivity.

Lemma completeness_formula (b1 b2 b3 b4 b5 : bool) (s : string) :
  let dq := {| hasBasicInfo := b1; hasLifestyle := b2;
               hasMedicalHistory := b3; hasGoals := b4;
               hasPreferences := b5; completenessScore := s |} in
  JS.Math_round
    (inject_Z (Z.of_nat (length (List.filter (fun section => flag dq section)
       ["hasBasicInfo"; "hasLifestyle"; "hasMedicalHistory"; "hasGoals"]))) /
     inject_Z (Z.of_nat (length
       ["hasBasicInfo"; "hasLifestyle"; "hasMedicalHistory"; "hasGoals"])) * 100)%Q
  = 25 * requiredCount dq.
Proof. destruct b1, b2, b3, b4; vm_compute; reflexivity. Qed.

Lemma round_quarters (dq : DataQuality) :
  JS.Math_round (100 * inject_Z (requiredCount dq) / 4)%Q = 25 * requiredCount dq.
Proof.
  unfold requiredCount.
  destruct (hasBasicInfo dq), (hasLifestyle dq), (hasMedicalHistory dq),
           (hasGoals dq); vm_compute; reflexivity.
Qed.

Lemma requiredCount_range (dq : DataQuality) : 0 <= requiredCount dq <= 4.
Proof.
  unfold requiredCount.
  destruct (hasBasicInfo dq), (hasLifestyle dq), (hasMedicalHistory dq),
           (hasGoals dq); simpl; lia.
Qed.

Lemma requiredCount_full (dq : DataQuality) :
  25 * requiredCount dq = 100 <->
  hasBasicInfo dq = true /\ hasLifestyle dq = true /\
  hasMedicalHistory dq = true /\ hasGoals dq = true.
Proof.
  unfold requiredCount.
  destruct (hasBasicInfo dq), (hasLifestyle dq), (hasMedicalHistory dq),
           (hasGoals dq); simpl; intuition (try lia; try discriminate).
Qed.

(** The hook leaves everything but the derived fields alone. *)
Lemma preSave_section u sectionName :
  section (preSave u) sectionName = section u sectionName.
Proof. hook_branches; destruct sectionName; reflexivity. Qed.

Lemma preSave_refreshTokens u : refreshTokens (preSave u) = refreshTokens u.
Proof. hook_branches; reflexivity. Qed.

Lemma preSave_sessionInfo u : sessionInfo (preSave u) = sessionInfo u.
Proof. hook_branches; reflexivity. Qed.

Lemma preSave_account u :
  email (preSave u) = email u /\
  isEmailVerified (preSave u) = isEmailVerified u /\
  lastLoginAt (preSave u) = lastLoginAt u /\
  created (preSave u) = created u.
Proof. hook_branches; repeat split; reflexivity. Qed.

Lemma preSave_completenessScore u :
  completenessScore (dataQuality (preSave u)) =
  (pretty (profileCompleteness (preSave u)) ++ "%")%string.
Proof. hook_branches; reflexivity. Qed.

Lemma preSave_id u : _id (preSave u) = _id u.
Proof. hook_branches; reflexivity. Qed.

Lemma preSave_password u : password (preSave u) = password u.
Proof. hook_branches; reflexivity. Qed.

Lemma preSave_hasPreferences u :
  hasPreferences (dataQuality (preSave u)) = hasPreferences (dataQuality u).
Proof. hook_branches; reflexivity. Qed.

(** The four required flags as the hook recomputes them. *)
Lemma preSave_hasBasicInfo u :
  hasBasicInfo (dataQuality (preSave u)) =
  hasRequiredFields BasicInfo (section u BasicInfo).
Proof. hook_branches; rewrite !truthy_and; flag_cases. Qed.

Lemma preSave_hasLifestyle u :
  hasLifestyle (dataQuality (preSave u)) =
  hasRequiredFields Lifestyle (section u Lifestyle).
Proof. hook_branches; rewrite !truthy_and; flag_cases. Qed.

Lemma preSave_hasMedicalHistory u :
  hasMedicalHistory (dataQuality (preSave u)) =
  hasRequiredFields MedicalHistory (section u MedicalHistory).
Proof. hook_branches; flag_cases. Qed.

Lemma preSave_hasGoals u :
  hasGoals (dataQuality (preSave u)) = hasRequiredFields Goals (section u Goals).
Proof. hook_branches; rewrite !truthy_and; flag_cases. Qed.

Lemma preSave_profileCompleteness u :
  profileCompleteness (preSave u) = 25 * requiredCount (dataQuality (preSave u)).
Proof. hook_branches; rewrite completeness_formula; reflexivity. Qed.

Lemma preSave_onboardingCompleted u :
  onboardingCompleted (preSave u) =
  onboardingCompleted u || (profileCompleteness (preSave u) =? 100).
Proof.
  hook_branches.
  - apply andb_prop in Hbranch as [-> Hc]. apply negb_true_iff in Hc.
    rewrite Hc. reflexivity.
  - destruct (onboardingCompleted u); [reflexivity|].
    rewrite andb_true_r in Hbranch. rewrite Hbranch. reflexivity.
Qed.

Lemma preSave_onboardingStep u :
  onboardingStep (preSave u) =
  if (profileCompleteness (preSave u) =? 100) && negb (onboardingCompleted u)
  then 6 else onboardingStep u.
Proof. hook_branches; rewrite Hbranch; reflexivity. Qed.

End Hook.

(** An update request without validation errors is saved. *)
Lemma updateSection_accepted sectionName key message u req_body now :
  stored_after u
    (onboardingController.updateSection sectionName key message [] (Some u)
       req_body now) =
  User.preSave (User.updateOnboardingSection now sectionName req_body u).
Proof. reflexivity. Qed.

(** What a handler's outcome leaves in the store. *)
Lemma stored_after_save u v code b :
  stored_after u (save_and_reply v code b) = User.preSave v.
Proof. reflexivity. Qed.

Lemma stored_after_reply u code b : stored_after u (reply code b) = u.
Proof. reflexivity. Qed.

(** ** Completeness and the data-quality flags *)

(** C1.  After any save, [profileCompleteness] is
    [round(100 * completedSections / 4)], where [completedSections]
    counts the true flags among [hasBasicInfo], [hasLifestyle],
    [hasMedicalHistory] and [hasGoals] of the saved document; whatever the
    preferences section and the [hasPreferences] flag hold, the value is
    the same. *)
Theorem C1_profileCompleteness_after_save (u : User.t) :
  let saved := User.preSave u in
  User.profileCompleteness saved =
    JS.Math_round (100 * inject_Z (requiredCount (User.dataQuality saved)) / 4)%Q
  /\ forall (o : JS.bag) (flag : bool),
       User.profileCompleteness (User.preSave (with_preferences o flag u)) =
       User.profileCompleteness saved.
Proof.
  cbv zeta. split.
  - rewrite round_quarters. apply preSave_profileCompleteness.
  - intros o flag. rewrite !preSave_profileCompleteness. unfold requiredCount.
    rewrite !preSave_hasBasicInfo, !preSave_hasLifestyle,
            !preSave_hasMedicalHistory, !preSave_hasGoals.
    unfold with_preferences. reflexivity.
Qed.

(** The four required flags after a save: each is raised exactly when
    every required field of its section is present. *)
Lemma dataQuality_required_flags (u : User.t) :
  let saved := User.preSave u in
  (User.hasBasicInfo (User.dataQuality saved) = true <->
     present (User.basicInfo u) "name" /\ present (User.basicInfo u) "dateOfBirth" /\
     present (User.basicInfo u) "height" /\ present (User.basicInfo u) "weight") /\
  (User.hasLifestyle (User.dataQuality saved) = true <->
     present (User.lifestyle u) "wakeUpTime" /\ present (User.lifestyle u) "sleepTime" /\
     present (User.lifestyle u) "exerciseFrequency") /\
  (User.hasMedicalHistory (User.dataQuality saved) = true <->
     present (User.medicalHistory u) "gender") /\
  (User.hasGoals (User.dataQuality saved) = true <->
     present (User.goals u) "primaryGoal" /\ present (User.goals u) "targetWeight").
Proof.
  cbv zeta.
  rewrite preSave_hasBasicInfo, preSave_hasLifestyle, preSave_hasMedicalHistory,
          preSave_hasGoals.
  unfold hasRequiredFields, requiredFields, present. cbn [forallb User.section].
  rewrite !andb_true_iff. intuition.
Qed.

(** No request raises [hasPreferences]: it is [false] in every document
    the store can hold. *)
Lemma hasPreferences_stays_false (u : User.t) :
  persisted u -> User.hasPreferences (User.dataQuality u) = false.
Proof.
  induction 1 as [id email password now | u u' Hu IH Hreq].
  - rewrite preSave_hasPreferences. reflexivity.
  - destruct Hreq as [u u' Hupd | u now | u now | rt u password now uuid1 uuid2].
    + destruct Hupd as [sectionName key message errors req_body now u].
      unfold onboardingController.updateSection.
      destruct (negb (bool_decide (errors = []))); [exact IH|].
      rewrite stored_after_save, preSave_hasPreferences.
      unfold User.updateOnboardingSection. cbv zeta.
      destruct (_ && _); exact IH.
    + unfold onboardingController.completeOnboarding.
      destruct (0 <? _)%nat; [exact IH|].
      rewrite stored_after_save, preSave_hasPreferences. exact IH.
    + unfold onboardingController.skipOnboarding.
      rewrite stored_after_save, preSave_hasPreferences. exact IH.
    + unfold authController.login.
      destruct (negb _); [exact IH|].
      destruct (auth.generateToken _ _ _ _); [exact IH|].
      destruct (auth.generateRefreshToken _ _ _ _); [exact IH|].
      rewrite stored_after_save, preSave_hasPreferences. exact IH.
Qed.

(** C9.  The documented failing input: a fresh user sends
    [{workoutDuration: "30"}] to [PUT /onboarding/preferences].  The
    section is written and stamped, and the save leaves [hasPreferences]
    [false], while the four required flags follow
    [dataQuality_required_flags]. *)
Theorem C9_hasPreferences_not_raised :
  let u := stored_after Sample.fresh
             (onboardingController.updatePreferences (Some Sample.fresh)
                Sample.preferencesBody 9) in
  User.preferences u !! "workoutDuration" = Some (JS.VStr "30") /\
  User.preferences u !! "completedAt" = Some (JS.VDate 9) /\
  User.hasPreferences (User.dataQuality u) = false.
Proof. vm_compute. repeat split; reflexivity. Qed.

(** ** Section updates *)

Section Updates.
Import User.

Lemma user_ext (u v : t) :
  _id u = _id v -> email u = email v -> password u = password v ->
  isEmailVerified u = isEmailVerified v ->
  refreshTokens u = refreshTokens v -> lastLoginAt u = lastLoginAt v ->
  onboardingCompleted u = onboardingCompleted v ->
  onboardingStep u = onboardingStep v ->
  profileCompleteness u = profileCompleteness v ->
  sessionInfo u = sessionInfo v ->
  (forall sectionName, section u sectionName = section v sectionName) ->
  dataQuality u = dataQuality v -> created u = created v ->
  u = v.
Proof.
  destruct u, v; cbn. intros. subst.
  f_equal;
    match goal with
    | H : forall s : SectionName, _ |- _ =>
        first [ exact (H BasicInfo) | exact (H Lifestyle)
              | exact (H MedicalHistory) | exact (H Goals)
              | exact (H Preferences) ]
    end.
Qed.

Lemma dataQuality_ext (p q : DataQuality) :
  hasBasicInfo p = hasBasicInfo q -> hasLifestyle p = hasLifestyle q ->
  hasMedicalHistory p = hasMedicalHistory q -> hasGoals p = hasGoals q ->
  hasPreferences p = hasPreferences q ->
  completenessScore p = completenessScore q -> p = q.
Proof. destruct p, q; cbn; intros; subst; reflexivity. Qed.

Lemma stepMapping_range sectionName : 1 <= stepMapping sectionName <= 5.
Proof. destruct sectionName; simpl; lia. Qed.

(** [updateOnboardingSection] field by field. *)
Lemma update_onboardingStep now sectionName data u :
  onboardingStep (updateOnboardingSection now sectionName data u) =
  Z.max (onboardingStep u) (stepMapping sectionName).
Proof.
  unfold updateOnboardingSection. cbv zeta.
  pose proof (stepMapping_range sectionName) as Hm.
  destruct (negb _ && _) eqn:Hc; cbn [onboardingStep set_onboardingStep set_section].
  - apply andb_prop in Hc as [_ Hlt]. apply Z.ltb_lt in Hlt.
    cbn [onboardingStep set_section] in Hlt. lia.
  - apply andb_false_iff in Hc as [Hz | Hge].
    + apply negb_false_iff, Z.eqb_eq in Hz. lia.
    + apply Z.ltb_ge in Hge. cbn [onboardingStep set_section] in Hge. lia.
Qed.

Lemma update_section_target now sectionName data u :
  section (updateOnboardingSection now sectionName data u) sectionName =
  <["completedAt" := JS.VDate now]>
    (filter (fun kv => JS.notNullish (snd kv) = true) data ∪ section u sectionName).
Proof.
  unfold updateOnboardingSection. cbv zeta.
  destruct (negb _ && _); destruct sectionName; reflexivity.
Qed.

Lemma update_section_other now sectionName data u other :
  other <> sectionName ->
  section (updateOnboardingSection now sectionName data u) other = section u other.
Proof.
  intros Hne. unfold updateOnboardingSection. cbv zeta.
  destruct (negb _ && _); destruct sectionName, other;
    first [ reflexivity | contradiction ].
Qed.

Lemma update_untouched now sectionName data u :
  let u' := updateOnboardingSection now sectionName data u in
  _id u' = _id u /\ email u' = email u /\ password u' = password u /\
  isEmailVerified u' = isEmailVerified u /\
  refreshTokens u' = refreshTokens u /\ lastLoginAt u' = lastLoginAt u /\
  onboardingCompleted u' = onboardingCompleted u /\
  profileCompleteness u' = profileCompleteness u /\
  sessionInfo u' = sessionInfo u /\ dataQuality u' = dataQuality u /\
  created u' = created u.
Proof.
  unfold updateOnboardingSection. cbv zeta.
  destruct (negb _ && _); repeat split; reflexivity.
Qed.

Lemma applyUpdate_unfold u r :
  applyUpdate u r =
  preSave (updateOnboardingSection (update_time r) (update_section r)
             (update_body r) u).
Proof. reflexivity. Qed.

(** A field sent with a present value is what the section holds after
    the update. *)
Lemma get_after_update (data old : JS.bag) now key :
  key <> "completedAt" -> JS.truthy (JS.get data key) = true ->
  JS.get (<["completedAt" := JS.VDate now]>
            (filter (fun kv => JS.notNullish (snd kv) = true) data ∪ old)) key
  = JS.get data key.
Proof.
  intros Hkey Hv. unfold JS.get in *.
  rewrite lookup_insert_ne by congruence.
  destruct (data !! key) as [v|] eqn:Hd; [|discriminate].
  erewrite lookup_union_Some_l; [reflexivity|].
  apply map_lookup_filter_Some. split; [exact Hd|].
  cbn in *. destruct v; first [ reflexivity | discriminate ].
Qed.

Lemma requiredFields_not_stamp sectionName key :
  In key (requiredFields sectionName) -> key <> "completedAt".
Proof.
  destruct sectionName; cbn; intros H;
    repeat (destruct H as [<- | H]; [discriminate|]); contradiction.
Qed.

Lemma hasRequiredFields_after_update now sectionName data u :
  hasRequiredFields sectionName data = true ->
  hasRequiredFields sectionName
    (section (updateOnboardingSection now sectionName data u) sectionName) = true.
Proof.
  intros Hdata. rewrite update_section_target.
  unfold hasRequiredFields in *. rewrite forallb_forall in *.
  intros key Hin. specialize (Hdata key Hin).
  rewrite get_after_update; eauto using requiredFields_not_stamp.
Qed.

(** The stamp does not count among the required fields. *)
Lemma hasRequiredFields_stamp sectionName now (o : JS.bag) :
  hasRequiredFields sectionName (<["completedAt" := JS.VDate now]> o) =
  hasRequiredFields sectionName o.
Proof.
  destruct sectionName; unfold hasRequiredFields, JS.get;
    cbn [requiredFields forallb];
    rewrite ?lookup_insert_ne by discriminate; reflexivity.
Qed.

Lemma applyUpdate_keeps_fields u r sectionName :
  hasRequiredFields (update_section r) (update_body r) = true ->
  update_section r = sectionName \/
    hasRequiredFields sectionName (section u sectionName) = true ->
  hasRequiredFields sectionName (section (applyUpdate u r) sectionName) = true.
Proof.
  intros Hbody Hcase. rewrite applyUpdate_unfold, preSave_section.
  destruct (decide (sectionName = update_section r)) as [->|Hne].
  - apply hasRequiredFields_after_update, Hbody.
  - rewrite update_section_other by exact Hne.
    destruct Hcase as [Heq | Hold]; [congruence | exact Hold].
Qed.

Lemma applyUpdates_keeps_fields l : forall u sectionName,
  forallb (fun r => hasRequiredFields (update_section r) (update_body r)) l = true ->
  existsb (fun r => bool_decide (update_section r = sectionName)) l = true \/
    hasRequiredFields sectionName (section u sectionName) = true ->
  hasRequiredFields sectionName (section (applyUpdates u l) sectionName) = true.
Proof.
  induction l as [|r l IH]; intros u sectionName Hall Hcase.
  - destruct Hcase as [Hex | Hold]; [discriminate | exact Hold].
  - cbn in Hall. apply andb_prop in Hall as [Hr Hl].
    cbn [applyUpdates fold_left]. apply (IH (applyUpdate u r)); [exact Hl|].
    destruct Hcase as [Hex | Hold].
    + cbn in Hex. apply orb_prop in Hex as [Hhere | Hlater].
      * right. apply applyUpdate_keeps_fields; [exact Hr|].
        left. apply bool_decide_eq_true in Hhere. exact Hhere.
      * left. exact Hlater.
    + right. apply applyUpdate_keeps_fields; auto.
Qed.

(** [completed_at_six] holds of an unfinished user and survives every
    update. *)
Lemma applyUpdate_completed_at_six u r :
  completed_at_six u -> completed_at_six (applyUpdate u r).
Proof.
  unfold completed_at_six. intros Hu. rewrite applyUpdate_unfold.
  rewrite preSave_onboardingCompleted, preSave_onboardingStep.
  pose proof (update_untouched (update_time r) (update_section r)
                (update_body r) u) as Hw. cbv zeta in Hw.
  destruct Hw as (_ & _ & _ & _ & _ & _ & Hc & _).
  rewrite Hc, update_onboardingStep.
  pose proof (stepMapping_range (update_section r)).
  destruct (onboardingCompleted u).
  - rewrite andb_false_r. intros _. rewrite Hu by reflexivity. lia.
  - rewrite andb_true_r. cbn. intros ->. reflexivity.
Qed.

Lemma applyUpdates_completed_at_six l : forall u,
  completed_at_six u -> completed_at_six (applyUpdates u l).
Proof.
  induction l as [|r l IH]; intros u Hu; [exact Hu|].
  apply (IH (applyUpdate u r)), applyUpdate_completed_at_six, Hu.
Qed.

(** A saved document whose four required sections hold their required
    fields is complete. *)
Lemma applyUpdate_full u r :
  (forall sectionName, In sectionName requiredSectionNames ->
     hasRequiredFields sectionName (section (applyUpdate u r) sectionName) = true) ->
  profileCompleteness (applyUpdate u r) = 100 /\
  onboardingCompleted (applyUpdate u r) = true.
Proof.
  intros Hall. rewrite applyUpdate_unfold in *.
  set (w := updateOnboardingSection _ _ _ u) in *.
  assert (profileCompleteness (preSave w) = 100) as Hpc.
  { rewrite preSave_profileCompleteness. apply requiredCount_full.
    rewrite preSave_hasBasicInfo, preSave_hasLifestyle,
            preSave_hasMedicalHistory, preSave_hasGoals.
    pose proof (Hall BasicInfo) as H1. pose proof (Hall Lifestyle) as H2.
    pose proof (Hall MedicalHistory) as H3. pose proof (Hall Goals) as H4.
    rewrite preSave_section in H1, H2, H3, H4.
    unfold requiredSectionNames in H1, H2, H3, H4.
    repeat split; [apply H1 | apply H2 | apply H3 | apply H4];
      cbn [In]; auto. }
  split; [exact Hpc|].
  rewrite preSave_onboardingCompleted, Hpc. apply orb_true_r.
Qed.

End Updates.

(** ** Auto-completion, monotonicity and the empty update *)

(** C2.  For a user whose [onboardingCompleted] is false: if a section
    update leaves the recomputed [profileCompleteness] at 100, the saved
    document has [onboardingCompleted = true] and [onboardingStep = 6],
    with no call to [completeOnboarding]; and after any sequence of
    section updates, in any order, that carry all required fields and
    cover the four required sections, the document is completed at
    step 6 with completeness 100. *)
Theorem C2_auto_completion (u : User.t) (r : SectionUpdate)
    (l : list SectionUpdate) :
  User.onboardingCompleted u = false ->
  (User.profileCompleteness (applyUpdate u r) = 100 ->
     User.onboardingCompleted (applyUpdate u r) = true /\
     User.onboardingStep (applyUpdate u r) = 6)
  /\
  (forallb (fun r => hasRequiredFields (update_section r) (update_body r)) l = true ->
   forallb (fun sectionName =>
              existsb (fun r => bool_decide (update_section r = sectionName)) l)
           requiredSectionNames = true ->
     User.onboardingCompleted (applyUpdates u l) = true /\
     User.onboardingStep (applyUpdates u l) = 6 /\
     User.profileCompleteness (applyUpdates u l) = 100).
Proof.
  intros Hu. split.
  - intros Hpc. rewrite applyUpdate_unfold in *.
    rewrite preSave_onboardingCompleted, preSave_onboardingStep, Hpc.
    destruct (update_untouched (update_time r) (update_section r)
                (update_body r) u) as (_ & _ & _ & _ & _ & _ & Hc & _).
    rewrite Hc, Hu. split; reflexivity.
  - intros Hbodies Hcover.
    assert (forall sectionName, In sectionName requiredSectionNames ->
              hasRequiredFields sectionName
                (User.section (applyUpdates u l) sectionName) = true) as Hfields.
    { intros sectionName Hin. apply applyUpdates_keeps_fields; [exact Hbodies|].
      left. rewrite forallb_forall in Hcover. apply Hcover, Hin. }
    assert (completed_at_six (applyUpdates u l)) as Hsix.
    { apply applyUpdates_completed_at_six. intros Hc. congruence. }
    destruct (exists_last (l := l)) as (l' & r' & Heq).
    { intros ->. discriminate Hcover. }
    assert (applyUpdates u l = applyUpdate (applyUpdates u l') r') as Hlast.
    { rewrite Heq. unfold applyUpdates. rewrite fold_left_app. reflexivity. }
    rewrite Hlast in *.
    destruct (applyUpdate_full _ _ Hfields) as [Hpc Hdone].
    repeat split; auto.
Qed.

(** The four required sections sent goals first: the fourth update
    completes the profile. *)
Lemma C2_auto_completion_witness :
  User.onboardingCompleted Sample.fresh = false /\
  User.onboardingCompleted (applyUpdates Sample.fresh Sample.updates) = true /\
  User.onboardingStep (applyUpdates Sample.fresh Sample.updates) = 6 /\
  User.profileCompleteness (applyUpdates Sample.fresh Sample.updates) = 100.
Proof.
  split; [reflexivity|].
  refine (proj2 (C2_auto_completion Sample.fresh
                   {| update_time := 4; update_section := User.Goals;
                      update_body := Sample.goalsBody |} Sample.updates _) _ _);
    vm_compute; reflexivity.
Defined.

(** One update request never lowers the step, keeps it within 6 and
    never resets the completion flag. *)
Lemma section_update_monotone (u u' : User.t) :
  section_update u u' -> User.onboardingStep u <= 6 ->
  User.onboardingStep u <= User.onboardingStep u' /\
  User.onboardingStep u' <= 6 /\
  (User.onboardingCompleted u = true -> User.onboardingCompleted u' = true).
Proof.
  intros [sectionName key message errors req_body now v] Hv.
  unfold onboardingController.updateSection.
  destruct (negb (bool_decide (errors = []))).
  - rewrite stored_after_reply. repeat split; auto; lia.
  - rewrite stored_after_save.
    rewrite preSave_onboardingStep, preSave_onboardingCompleted.
    destruct (update_untouched now sectionName req_body v)
      as (_ & _ & _ & _ & _ & _ & Hc & _).
    rewrite Hc, update_onboardingStep.
    pose proof (stepMapping_range sectionName).
    destruct (_ && _); repeat split; try lia.
    all: intros ->; reflexivity.
Qed.

(** What an accepted section update stores as the step: the hook that
    runs at the save raises it to 6 when it completes onboarding. *)
Lemma accepted_update_step sectionName key message req_body now v :
  let v' := stored_after v
              (onboardingController.updateSection sectionName key message []
                 (Some v) req_body now) in
  User.onboardingStep v' =
  if (User.profileCompleteness v' =? 100) && negb (User.onboardingCompleted v)
  then 6
  else Z.max (User.onboardingStep v) (User.stepMapping sectionName).
Proof.
  cbv zeta. rewrite updateSection_accepted.
  rewrite preSave_onboardingStep.
  destruct (update_untouched now sectionName req_body v)
    as (_ & _ & _ & _ & _ & _ & Hc & _).
  rewrite Hc, update_onboardingStep. reflexivity.
Qed.

(** C3 (as amended).  Across any sequence of section-update requests
    applied to one user (step within 0..6 as the data model has it),
    [onboardingStep] never decreases and [onboardingCompleted] never goes
    from true to false.  [updateOnboardingSection] for section S leaves
    the step at [max(step, stepNumber(S))], with basicInfo, lifestyle,
    medicalHistory, goals, preferences numbered 1 to 5; the save that
    follows stores that value unless it completes onboarding
    ([profileCompleteness] reaches 100 while [onboardingCompleted] was
    false), and then the step stored is 6.  A request that is not
    answered 200 changes nothing. *)
Theorem C3_onboardingStep_monotone (u u' : User.t) :
  User.onboardingStep u <= 6 ->
  rtc section_update u u' ->
  (User.onboardingStep u <= User.onboardingStep u' /\
   User.onboardingStep u' <= 6 /\
   (User.onboardingCompleted u = true -> User.onboardingCompleted u' = true))
  /\
  (forall now sectionName data v,
     User.onboardingStep (User.updateOnboardingSection now sectionName data v) =
     Z.max (User.onboardingStep v) (User.stepMapping sectionName))
  /\
  (forall sectionName key message errors req_body now v,
     let out := onboardingController.updateSection sectionName key message
                  errors (Some v) req_body now in
     let v' := stored_after v out in
     (status (response out) = 200 ->
      User.onboardingStep v' =
      if (User.profileCompleteness v' =? 100) && negb (User.onboardingCompleted v)
      then 6
      else Z.max (User.onboardingStep v) (User.stepMapping sectionName)) /\
     (status (response out) <> 200 -> v' = v))
  /\
  List.map User.stepMapping
    [User.BasicInfo; User.Lifestyle; User.MedicalHistory; User.Goals;
     User.Preferences] = [1; 2; 3; 4; 5].
Proof.
  intros Hu Hrun.
  split; [|split; [apply update_onboardingStep | split; [|reflexivity]]].
  - induction Hrun as [u | u v w Hstep Hrest IH].
    + repeat split; auto; lia.
    + destruct (section_update_monotone u v Hstep Hu) as (Hle & Hv & Hc).
      destruct (IH Hv) as (Hle' & Hw & Hc').
      repeat split; auto; lia.
  - intros sectionName key message errors req_body now v. cbv zeta.
    destruct (decide (errors = [])) as [->|Herrors].
    + split; [intros _; apply accepted_update_step|].
      rewrite updateSection_accepted. intros Hc. contradiction Hc. reflexivity.
    + unfold onboardingController.updateSection.
      rewrite bool_decide_eq_false_2 by exact Herrors. cbn [negb].
      split; [discriminate|]. intros _. apply stored_after_reply.
Qed.

(** Saved updates are update requests. *)
Lemma applyUpdates_run (l : list SectionUpdate) : forall u,
  rtc section_update u (applyUpdates u l).
Proof.
  induction l as [|r l IH]; intros u; [apply rtc_refl|].
  apply rtc_l with (applyUpdate u r); [|apply IH].
  unfold applyUpdate.
  rewrite <- (updateSection_accepted (update_section r) "" "").
  apply section_update_request.
Qed.

(** A fresh user sends the four required sections, goals first. *)
Lemma C3_onboardingStep_monotone_witness :
  User.onboardingStep Sample.fresh <= 6 /\
  User.onboardingStep Sample.fresh <=
  User.onboardingStep (applyUpdates Sample.fresh Sample.updates).
Proof.
  assert (User.onboardingStep Sample.fresh <= 6) as Hbound
    by (vm_compute; discriminate).
  split; [exact Hbound|].
  exact (proj1 (proj1 (C3_onboardingStep_monotone Sample.fresh
                         (applyUpdates Sample.fresh Sample.updates) Hbound
                         (applyUpdates_run Sample.updates Sample.fresh)))).
Defined.

(** C3, as stated, fails where the save completes onboarding: a user at
    step 4 who has filled in goals, basicInfo and medicalHistory sends
    lifestyle, section number 2; the step stored is 6, not
    [max(4, 2) = 4]. *)
Lemma C3_completing_update_stores_six :
  let u := applyUpdates Sample.fresh (take 3 Sample.updates) in
  let u' := stored_after u
              (onboardingController.updateLifestyle [] (Some u)
                 Sample.lifestyleBody 7) in
  User.onboardingStep u = 4 /\ User.profileCompleteness u = 75 /\
  User.onboardingCompleted u = false /\
  User.onboardingStep u' = 6 /\
  User.onboardingStep u' <>
    Z.max (User.onboardingStep u) (User.stepMapping User.Lifestyle).
Proof.
  vm_compute. split; [reflexivity|]. split; [reflexivity|].
  split; [reflexivity|]. split; [reflexivity|]. discriminate.
Qed.

(** The step of every document the store can hold lies within 0..6. *)
Lemma persisted_onboardingStep (u : User.t) :
  persisted u -> 0 <= User.onboardingStep u <= 6.
Proof.
  induction 1 as [id email password now | u u' Hu IH Hreq].
  - rewrite preSave_onboardingStep. destruct (_ && _); cbn; lia.
  - destruct Hreq as [u u' Hupd | u now | u now | rt u password now uuid1 uuid2].
    + destruct (section_update_monotone u u' Hupd) as (? & ? & _); lia.
    + unfold onboardingController.completeOnboarding.
      destruct (0 <? _)%nat; [exact IH|].
      rewrite stored_after_save, preSave_onboardingStep.
      destruct (_ && _); cbn; lia.
    + unfold onboardingController.skipOnboarding.
      rewrite stored_after_save, preSave_onboardingStep.
      destruct (_ && _); cbn; lia.
    + unfold authController.login.
      destruct (negb _); [exact IH|].
      destruct (auth.generateToken _ _ _ _); [exact IH|].
      destruct (auth.generateRefreshToken _ _ _ _); [exact IH|].
      rewrite stored_after_save, preSave_onboardingStep.
      destruct (_ && _); cbn; lia.
Qed.

(** What the hook computes is settled by a previous save. *)
Lemma preSave_completed_when_full (u0 : User.t) :
  User.profileCompleteness (User.preSave u0) = 100 ->
  User.onboardingCompleted (User.preSave u0) = true.
Proof.
  intros Hpc. rewrite preSave_onboardingCompleted, Hpc. apply orb_true_r.
Qed.

(** The empty update of [basicInfo], section by section. *)
Lemma empty_update_section u now sectionName :
  User.section (User.updateOnboardingSection now User.BasicInfo ∅ u) sectionName =
  User.section (refreshedBasicInfo now u) sectionName.
Proof.
  destruct (decide (sectionName = User.BasicInfo)) as [->|Hne].
  - rewrite update_section_target, map_filter_empty, (left_id_L ∅ (∪)).
    reflexivity.
  - rewrite update_section_other by exact Hne.
    destruct sectionName; first [ contradiction | reflexivity ].
Qed.

Lemma refreshed_required u now sectionName :
  hasRequiredFields sectionName (User.section (refreshedBasicInfo now u) sectionName) =
  hasRequiredFields sectionName (User.section u sectionName).
Proof.
  destruct sectionName; try reflexivity.
  apply (hasRequiredFields_stamp User.BasicInfo).
Qed.

Lemma empty_update_required u0 now sectionName :
  hasRequiredFields sectionName
    (User.section
       (User.updateOnboardingSection now User.BasicInfo ∅ (User.preSave u0))
       sectionName) =
  hasRequiredFields sectionName (User.section u0 sectionName).
Proof.
  rewrite empty_update_section, refreshed_required, preSave_section. reflexivity.
Qed.

Lemma empty_update_flags u0 now :
  let w := User.updateOnboardingSection now User.BasicInfo ∅ (User.preSave u0) in
  User.hasBasicInfo (User.dataQuality (User.preSave w)) =
    User.hasBasicInfo (User.dataQuality (User.preSave u0)) /\
  User.hasLifestyle (User.dataQuality (User.preSave w)) =
    User.hasLifestyle (User.dataQuality (User.preSave u0)) /\
  User.hasMedicalHistory (User.dataQuality (User.preSave w)) =
    User.hasMedicalHistory (User.dataQuality (User.preSave u0)) /\
  User.hasGoals (User.dataQuality (User.preSave w)) =
    User.hasGoals (User.dataQuality (User.preSave u0)).
Proof.
  cbv zeta.
  rewrite !preSave_hasBasicInfo, !preSave_hasLifestyle,
          !preSave_hasMedicalHistory, !preSave_hasGoals.
  rewrite !empty_update_required. repeat split; reflexivity.
Qed.

Lemma empty_update_completeness u0 now :
  User.profileCompleteness
    (User.preSave
       (User.updateOnboardingSection now User.BasicInfo ∅ (User.preSave u0)))
  = User.profileCompleteness (User.preSave u0).
Proof.
  destruct (empty_update_flags u0 now) as (F1 & F2 & F3 & F4).
  rewrite !preSave_profileCompleteness. unfold requiredCount.
  rewrite F1, F2, F3, F4. reflexivity.
Qed.

Lemma refreshedBasicInfo_fields now u :
  User._id (refreshedBasicInfo now u) = User._id u /\
  User.email (refreshedBasicInfo now u) = User.email u /\
  User.password (refreshedBasicInfo now u) = User.password u /\
  User.isEmailVerified (refreshedBasicInfo now u) = User.isEmailVerified u /\
  User.refreshTokens (refreshedBasicInfo now u) = User.refreshTokens u /\
  User.lastLoginAt (refreshedBasicInfo now u) = User.lastLoginAt u /\
  User.onboardingCompleted (refreshedBasicInfo now u) = User.onboardingCompleted u /\
  User.onboardingStep (refreshedBasicInfo now u) = Z.max (User.onboardingStep u) 1 /\
  User.profileCompleteness (refreshedBasicInfo now u) = User.profileCompleteness u /\
  User.sessionInfo (refreshedBasicInfo now u) = User.sessionInfo u /\
  User.dataQuality (refreshedBasicInfo now u) = User.dataQuality u /\
  User.created (refreshedBasicInfo now u) = User.created u /\
  User.basicInfo (refreshedBasicInfo now u) =
    <["completedAt" := JS.VDate now]> (User.basicInfo u).
Proof. repeat split; reflexivity. Qed.

Lemma empty_update_of_saved (u0 : User.t) (now : Z) :
  User.preSave
    (User.updateOnboardingSection now User.BasicInfo ∅ (User.preSave u0))
  = refreshedBasicInfo now (User.preSave u0).
Proof.
  pose proof (empty_update_completeness u0 now) as Hsame.
  destruct (empty_update_flags u0 now) as (F1 & F2 & F3 & F4).
  pose proof (preSave_completenessScore u0) as Uscore.
  pose proof (preSave_completed_when_full u0) as Udone.
  pose proof (empty_update_section (User.preSave u0) now) as Hsec.
  destruct (update_untouched now User.BasicInfo ∅ (User.preSave u0))
    as (Hid & Hemail & Hpw & Hver & Htok & Hlast & Hdone & Hpc & Hinfo & Hdq & Hcr).
  pose proof (update_onboardingStep now User.BasicInfo ∅ (User.preSave u0)) as Hstep.
  set (u := User.preSave u0) in *. clearbody u.
  set (w := User.updateOnboardingSection now User.BasicInfo ∅ u) in *. clearbody w.
  destruct (refreshedBasicInfo_fields now u)
    as (Ra & Rb & Rc & Rd & Re & Rf & Rg & Rh & Ri & Rj & Rk & Rl & _).
  destruct (preSave_account w) as (Ea & Eb & Ec & Ed).
  assert ((User.profileCompleteness u =? 100) && negb (User.onboardingCompleted u)
          = false) as Hsettled.
  { destruct (User.profileCompleteness u =? 100) eqn:Hfull; [|reflexivity].
    apply Z.eqb_eq in Hfull. rewrite (Udone Hfull). reflexivity. }
  apply user_ext.
  - rewrite preSave_id, Ra. exact Hid.
  - rewrite Ea, Rb. exact Hemail.
  - rewrite preSave_password, Rc. exact Hpw.
  - rewrite Eb, Rd. exact Hver.
  - rewrite preSave_refreshTokens, Re. exact Htok.
  - rewrite Ec, Rf. exact Hlast.
  - rewrite preSave_onboardingCompleted, Hsame, Hdone, Rg.
    destruct (User.onboardingCompleted u); [reflexivity|].
    rewrite andb_true_r in Hsettled. rewrite Hsettled. reflexivity.
  - rewrite preSave_onboardingStep, Hsame, Hdone, Hsettled, Rh. exact Hstep.
  - rewrite Ri. exact Hsame.
  - rewrite preSave_sessionInfo, Rj. exact Hinfo.
  - intros sectionName. rewrite preSave_section. apply Hsec.
  - rewrite Rk. apply dataQuality_ext; auto.
    + rewrite preSave_hasPreferences, Hdq. reflexivity.
    + rewrite preSave_completenessScore, Hsame, Uscore. reflexivity.
  - rewrite Ed, Rl. exact Hcr.
Qed.


(** C10 (as amended).  For a stored user, [updateSection('basicInfo', {})]
    leaves the document as it was except that [basicInfo.completedAt]
    becomes the current time and [onboardingStep] becomes
    [max(step, 1)]: [profileCompleteness] and every other field of
    [basicInfo] keep their values, and the step changes only for a user
    still at step 0. *)
Theorem C10_empty_basicInfo_update (u0 : User.t) (now : Z) :
  let u := User.preSave u0 in
  let u' := stored_after u
              (onboardingController.updateBasicInfo [] (Some u) ∅ now) in
  u' = refreshedBasicInfo now u /\
  User.profileCompleteness u' = User.profileCompleteness u /\
  (forall key, key <> "completedAt" ->
     User.basicInfo u' !! key = User.basicInfo u !! key) /\
  User.basicInfo u' !! "completedAt" = Some (JS.VDate now) /\
  User.onboardingStep u' = Z.max (User.onboardingStep u) 1 /\
  (1 <= User.onboardingStep u -> User.onboardingStep u' = User.onboardingStep u).
Proof.
  cbv zeta. unfold onboardingController.updateBasicInfo.
  rewrite updateSection_accepted, empty_update_of_saved.
  destruct (refreshedBasicInfo_fields now (User.preSave u0))
    as (_ & _ & _ & _ & _ & _ & _ & Rh & Ri & _ & _ & _ & Rb).
  rewrite Rh, Ri, Rb.
  repeat split.
  - intros key Hkey. apply lookup_insert_ne. congruence.
  - apply lookup_insert_eq.
  - intros Hstarted. lia.
Qed.

(** A user who has finished the four sections repeats an empty update. *)
Lemma C10_empty_basicInfo_update_witness :
  let u := User.preSave (applyUpdates Sample.fresh Sample.updates) in
  let u' := stored_after u
              (onboardingController.updateBasicInfo [] (Some u) ∅ 11) in
  1 <= User.onboardingStep u /\
  User.onboardingStep u' = User.onboardingStep u /\
  User.basicInfo u' !! "name" = User.basicInfo u !! "name".
Proof.
  cbv zeta.
  destruct (C10_empty_basicInfo_update
              (applyUpdates Sample.fresh Sample.updates) 11)
    as (_ & _ & Hfields & _ & _ & Hstep).
  assert (1 <= User.onboardingStep
                 (User.preSave (applyUpdates Sample.fresh Sample.updates)))
    as Hstarted by (vm_compute; discriminate).
  split; [exact Hstarted|]. split; [exact (Hstep Hstarted)|].
  apply Hfields. discriminate.
Defined.

(** C10, as stated, fails for a user who has not started: the empty
    update moves [onboardingStep] from 0 to 1. *)
Lemma C10_empty_update_changes_step :
  let u := Sample.fresh in
  let u' := stored_after u
              (onboardingController.updateBasicInfo [] (Some u) ∅ 3) in
  User.onboardingStep u = 0 /\ User.onboardingStep u' = 1 /\
  User.onboardingStep u' <> User.onboardingStep u.
Proof.
  vm_compute. split; [reflexivity|]. split; [reflexivity|]. discriminate.
Qed.

(** ** The refresh-token store *)

Lemma seven_days : 7 * 24 * 60 * 60 * 1000 = 604800000.
Proof. reflexivity. Qed.

(** C6.  [isValidRefreshToken(token)] is true exactly when some entry of
    [refreshTokens] carries that token and the current time is earlier
    than the entry's [createdAt] plus 7 days; a token whose entries are
    all 8 days old is rejected although it is in the sequence. *)
Theorem C6_isValidRefreshToken (now : Z) (u : User.t)
    (tok : jsonwebtoken.token) :
  (User.isValidRefreshToken now u tok = true <->
   exists entry, In entry (User.refreshTokens u) /\ User.token entry = tok /\
                 now < User.createdAt entry + 7 * 24 * 60 * 60 * 1000)
  /\
  ((forall entry, In entry (User.refreshTokens u) -> User.token entry = tok ->
                  User.createdAt entry + 8 * 24 * 60 * 60 * 1000 <= now) ->
   User.isValidRefreshToken now u tok = false).
Proof.
  rewrite seven_days.
  assert (User.isValidRefreshToken now u tok = true <->
          exists entry, In entry (User.refreshTokens u) /\ User.token entry = tok /\
                        now < User.createdAt entry + 604800000) as Hiff.
  { unfold User.isValidRefreshToken. rewrite existsb_exists. split.
    - intros (entry & Hin & Hok). apply andb_prop in Hok as [Htok Hfresh].
      exists entry. repeat split; [exact Hin | | ].
      + apply bool_decide_eq_true in Htok. exact Htok.
      + apply Z.ltb_lt. exact Hfresh.
    - intros (entry & Hin & Htok & Hfresh). exists entry. split; [exact Hin|].
      apply andb_true_intro. split.
      + apply bool_decide_eq_true. exact Htok.
      + apply Z.ltb_lt. exact Hfresh. }
  split; [exact Hiff|].
  intros Hold. apply not_true_is_false. intros Hvalid.
  apply Hiff in Hvalid as (entry & Hin & Htok & Hfresh).
  specialize (Hold entry Hin Htok). lia.
Qed.

(** A token stored at time 0, looked up 8 days later. *)
Lemma C6_isValidRefreshToken_witness :
  In Sample.refreshTok (List.map User.token (User.refreshTokens Sample.withToken)) /\
  User.isValidRefreshToken (8 * Sample.day) Sample.withToken Sample.refreshTok = false.
Proof.
  split; [left; reflexivity|].
  apply (proj2 (C6_isValidRefreshToken (8 * Sample.day) Sample.withToken
                  Sample.refreshTok)).
  intros entry [<- | []] _. vm_compute. discriminate.
Defined.

(** [slice(-n)] *)
Lemma slice_last_length {A} (n : nat) (l : list A) :
  (n <= length l)%nat -> length (JS.slice_last n l) = n.
Proof. intros Hn. unfold JS.slice_last. rewrite length_drop. lia. Qed.

Lemma slice_last_fmap {A B} (f : A -> B) (n : nat) (l : list A) :
  f <$> JS.slice_last n l = JS.slice_last n (f <$> l).
Proof. unfold JS.slice_last. rewrite fmap_drop, length_fmap. reflexivity. Qed.

Lemma slice_last_app_ge {A} (n : nat) (l l' : list A) :
  (n <= length l')%nat -> JS.slice_last n (l ++ l') = JS.slice_last n l'.
Proof.
  intros Hn. unfold JS.slice_last. rewrite length_app, drop_app_ge by lia.
  f_equal. lia.
Qed.

Lemma slice_last_app_slice {A} (n : nat) (l l' : list A) :
  JS.slice_last n (JS.slice_last n l ++ l') = JS.slice_last n (l ++ l').
Proof.
  unfold JS.slice_last.
  set (k := (length l - n)%nat).
  assert (l ++ l' = take k l ++ (drop k l ++ l')) as Hsplit
    by (rewrite app_assoc, take_drop; reflexivity).
  symmetry. rewrite Hsplit at 2.
  rewrite drop_app_ge by (rewrite length_take, length_app; lia).
  f_equal. rewrite length_take, !length_app, length_drop. lia.
Qed.

(** The pruning in [login] is [slice(-5)] whether or not the guard
    fires. *)
Lemma keep_last_five {A} (l : list A) :
  (if (5 <? length l)%nat then JS.slice_last 5 l else l) = JS.slice_last 5 l.
Proof.
  destruct (5 <? length l)%nat eqn:Hlen; [reflexivity|].
  apply Nat.ltb_ge in Hlen. unfold JS.slice_last.
  replace (length l - 5)%nat with 0%nat by lia. reflexivity.
Qed.

(** A login answered with 200 issued a refresh token and stored it last. *)
Lemma login_success rt u password now uuid1 uuid2 :
  let o := authController.login rt (Some u) password now uuid1 uuid2 in
  status (response o) = 200 ->
  exists t,
    issuedRefreshToken (response o) = Some t /\
    User.refreshTokens (stored_after u o) =
    JS.slice_last 5
      (User.refreshTokens u ++ [{| User.token := t; User.createdAt := now |}]).
Proof.
  cbv zeta. unfold authController.login.
  destruct (negb _); [discriminate|].
  destruct (auth.generateToken rt (User._id u) now uuid1) as [e|accessToken];
    [first [ discriminate
           | destruct (auth.generateRefreshToken rt (User._id u) now uuid2);
             discriminate ]|].
  destruct (auth.generateRefreshToken rt (User._id u) now uuid2) as [e|t];
    [discriminate|].
  intros _. exists t. split; [reflexivity|].
  rewrite stored_after_save, preSave_refreshTokens, keep_last_five.
  reflexivity.
Qed.

Lemma slice_last_short {A} (n : nat) (l : list A) :
  (length l <= n)%nat -> JS.slice_last n l = l.
Proof.
  intros Hn. unfold JS.slice_last.
  replace (length l - n)%nat with 0%nat by lia. reflexivity.
Qed.

Lemma slice_last_bound {A} (n : nat) (l : list A) :
  (length (JS.slice_last n l) <= n)%nat.
Proof. unfold JS.slice_last. rewrite length_drop. lia. Qed.

(** After a run of successful logins the store holds the last five of
    what it held before followed by what the run issued. *)
Lemma logins_refreshTokens rt attempts : forall u,
  forallb (fun r => status r =? 200) (logins rt u attempts).1 = true ->
  length (issuedEntries attempts (logins rt u attempts).1) = length attempts /\
  JS.slice_last 5 (User.refreshTokens (logins rt u attempts).2) =
    JS.slice_last 5 (User.refreshTokens u ++
                     issuedEntries attempts (logins rt u attempts).1) /\
  (attempts <> [] -> (length (User.refreshTokens (logins rt u attempts).2) <= 5)%nat).
Proof.
  induction attempts as [|a rest IH]; intros u Hok.
  - cbn. rewrite app_nil_r. repeat split; congruence.
  - cbn [logins] in *.
    set (o := authController.login rt (Some u) (attempt_password a)
                (attempt_time a) (attempt_uuid1 a) (attempt_uuid2 a)) in *.
    destruct (logins rt (stored_after u o) rest) as [responses final] eqn:Hrun.
    cbn [fst snd forallb] in *. apply andb_prop in Hok as [Hhere Hrest].
    apply Z.eqb_eq in Hhere.
    destruct (login_success rt u _ _ _ _ Hhere) as (t & Hissued & Hstored).
    fold o in Hissued, Hstored.
    specialize (IH (stored_after u o)). rewrite Hrun in IH. cbn [fst snd] in IH.
    destruct (IH Hrest) as (Hlen & Hlast & Hbound).
    cbn [issuedEntries]. rewrite Hissued. cbn [length].
    split; [congruence|]. split.
    + rewrite Hlast, Hstored, slice_last_app_slice, <- app_assoc. reflexivity.
    + intros _. destruct rest as [|b rest'].
      * cbn [logins] in Hrun. injection Hrun as _ <-. rewrite Hstored.
        apply slice_last_bound.
      * apply Hbound. discriminate.
Qed.

(** C7.  After N > 5 successful logins of one user, [refreshTokens] has
    exactly 5 entries, and they are the 5 most recently issued refresh
    tokens, oldest first, each with the time of its login. *)
Theorem C7_refreshTokens_pruned (rt : Runtime) (u : User.t)
    (attempts : list LoginAttempt) :
  (5 < length attempts)%nat ->
  forallb (fun r => status r =? 200) (logins rt u attempts).1 = true ->
  let issued := issuedEntries attempts (logins rt u attempts).1 in
  let final := (logins rt u attempts).2 in
  length issued = length attempts /\
  length (User.refreshTokens final) = 5%nat /\
  User.refreshTokens final = JS.slice_last 5 issued.
Proof.
  intros Hn Hok. cbv zeta.
  destruct (logins_refreshTokens rt attempts u Hok) as (Hlen & Hlast & Hbound).
  assert (User.refreshTokens (logins rt u attempts).2 =
          JS.slice_last 5 (issuedEntries attempts (logins rt u attempts).1)) as Heq.
  { rewrite <- (slice_last_short 5 (User.refreshTokens _)).
    - rewrite Hlast. apply slice_last_app_ge. lia.
    - apply Hbound. intros ->. cbn in Hn. lia. }
  split; [exact Hlen|]. split; [|exact Heq].
  rewrite Heq. apply slice_last_length. lia.
Qed.

(** Six logins of a fresh user: the first token is gone. *)
Lemma C7_refreshTokens_pruned_witness :
  (5 < length Sample.sixAttempts)%nat /\
  List.map User.createdAt
    (User.refreshTokens (logins Sample.rt Sample.fresh Sample.sixAttempts).2)
  = [2; 3; 4; 5; 6].
Proof.
  split; [vm_compute; lia|].
  rewrite (proj2 (proj2 (C7_refreshTokens_pruned Sample.rt Sample.fresh
                           Sample.sixAttempts
                           ltac:(vm_compute; lia) ltac:(vm_compute; reflexivity)))).
  vm_compute. reflexivity.
Defined.

(** ** Explicit completion *)

(** C8 (as amended).  When at least one of the four required flags is
    false, [completeOnboarding] answers 400 with the names of the missing
    sections, saves nothing and leaves the stored user as it was, so
    [onboardingCompleted] keeps the value it had (false, unless the user
    had already finished or skipped onboarding).  When all four are
    true it saves the user with [onboardingCompleted = true],
    [onboardingStep = 6] and the completion time, date and section count
    in [sessionInfo]. *)
Theorem C8_completeOnboarding (u : User.t) (now : Z) :
  let out := onboardingController.completeOnboarding (Some u) now in
  (allRequired (User.dataQuality u) = false ->
     response out =
       {| status := 400;
          body :=
            JObj [("success", JBool false);
                  ("message",
                   JStr "Please complete all required sections before finishing onboarding");
                  ("incompleteSections",
                   JArr (List.map JStr (missingSections (User.dataQuality u))))] |}
     /\ missingSections (User.dataQuality u) <> []
     /\ saved out = None
     /\ stored_after u out = u)
  /\
  (allRequired (User.dataQuality u) = true ->
     exists u', saved out = Some u' /\ status (response out) = 200 /\
       User.onboardingCompleted u' = true /\ User.onboardingStep u' = 6 /\
       User.completionTimestamp (User.sessionInfo u') = Some now /\
       User.completionDate (User.sessionInfo u') = Some (JS.toISODate now) /\
       User.sectionsCompleted (User.sessionInfo u') = 4).
Proof.
  cbv zeta. unfold onboardingController.completeOnboarding, allRequired,
    missingSections.
  destruct (User.dataQuality u) as [b1 b2 b3 b4 b5 score].
  cbn [User.hasBasicInfo User.hasLifestyle User.hasMedicalHistory User.hasGoals].
  split.
  - intros Hmissing.
    destruct b1, b2, b3, b4; try discriminate Hmissing;
      (split; [reflexivity|]); (split; [discriminate|]); split; reflexivity.
  - intros Hall.
    destruct b1, b2, b3, b4; try discriminate Hall.
    cbn [List.filter onboardingController.requiredSections User.flag String.eqb
         Ascii.eqb Bool.eqb negb length Nat.ltb Nat.leb
         User.hasBasicInfo User.hasLifestyle User.hasMedicalHistory User.hasGoals].
    eexists. split; [reflexivity|]. split; [reflexivity|].
    rewrite preSave_onboardingCompleted, preSave_onboardingStep, preSave_sessionInfo.
    cbn [User.onboardingCompleted User.onboardingStep User.sessionInfo
         User.set_sessionInfo User.set_onboardingStep User.set_onboardingCompleted
         User.completionTimestamp User.completionDate User.sectionsCompleted
         negb orb andb].
    rewrite andb_false_r. repeat split; reflexivity.
Qed.

(** The fresh user: every section is reported and nothing is saved. *)
Lemma C8_completeOnboarding_witness :
  allRequired (User.dataQuality Sample.fresh) = false /\
  status (response (onboardingController.completeOnboarding (Some Sample.fresh) 9))
  = 400 /\
  stored_after Sample.fresh
    (onboardingController.completeOnboarding (Some Sample.fresh) 9) = Sample.fresh.
Proof.
  split; [reflexivity|].
  destruct (proj1 (C8_completeOnboarding Sample.fresh 9) eq_refl)
    as (Hresponse & _ & _ & Hstored).
  split; [rewrite Hresponse; reflexivity | exact Hstored].
Defined.

(** C8, as stated, fails for a user who skipped onboarding: completion is
    refused for the missing sections, and [onboardingCompleted] is left
    true, not false. *)
Lemma C8_completed_stays_true :
  let u := Sample.skipped in
  let out := onboardingController.completeOnboarding (Some u) (2 * Sample.day) in
  User.hasGoals (User.dataQuality u) = false /\
  status (response out) = 400 /\
  User.onboardingCompleted (stored_after u out) = true.
Proof.
  vm_compute. split; [reflexivity|]. split; reflexivity.
Qed.

(** ** The refresh flow *)

Lemma token_stored (tok : jsonwebtoken.token) (l : list User.RefreshToken) :
  existsb (fun tokenObj => bool_decide (User.token tokenObj = tok)) l = true <->
  In tok (List.map User.token l).
Proof.
  rewrite existsb_exists, in_map_iff. split.
  - intros (entry & Hin & Heq). apply bool_decide_eq_true in Heq. eauto.
  - intros (entry & Heq & Hin). exists entry. split; [exact Hin|].
    apply bool_decide_eq_true. exact Heq.
Qed.

(** With a secret and a readable life span, signing succeeds. *)
Lemma generateToken_succeeds rt userId now uuid :
  JWT_SECRET rt <> "" ->
  is_Some (ms rt (JS.or_default (JWT_EXPIRES_IN rt) "15m")) ->
  exists t, auth.generateToken rt userId now uuid = inr t.
Proof.
  intros Hsecret [span Hspan].
  unfold auth.generateToken, jwt.generateAccessToken, jsonwebtoken.sign.
  cbn [jsonwebtoken.s_algorithm jsonwebtoken.expiresIn JS.or_default].
  assert (jsonwebtoken.is_set (JWT_SECRET rt) = true) as ->.
  { unfold jsonwebtoken.is_set. apply negb_true_iff, String.eqb_neq, Hsecret. }
  cbn [negb andb]. rewrite Hspan. eauto.
Qed.

(** A token the library accepts was checked against a configured
    secret. *)
Lemma verify_needs_secret tok secret options clock decoded :
  jsonwebtoken.verify tok secret options clock = inr decoded -> secret <> "".
Proof.
  unfold jsonwebtoken.verify.
  destruct tok as [text | alg p [m|]];
    [destruct (String.eqb text ""); [|destruct (negb _)]; discriminate| |].
  - assert (bool_decide (is_Some (Some m)) = true) as ->
      by (apply bool_decide_eq_true; eauto).
    cbn [negb andb]. unfold jsonwebtoken.is_set.
    destruct (String.eqb secret "") eqn:Hs; [discriminate|].
    intros _. apply String.eqb_neq. exact Hs.
  - assert (bool_decide (is_Some (@None jsonwebtoken.mac)) = false) as ->.
    { apply bool_decide_eq_false. intros [? ?]. discriminate. }
    cbn [negb andb]. unfold jsonwebtoken.is_set.
    destruct (String.eqb secret "") eqn:Hs; cbn [negb].
    + destruct (bool_decide (jsonwebtoken.algorithms options = None));
        [discriminate|].
      destruct (negb (bool_decide _)); [discriminate|].
      destruct (_ || _); [discriminate|]. cbn. discriminate.
    + discriminate.
Qed.

(** *** Tokens the service issues *)

Section IssuedTokens.
Import jsonwebtoken.

Lemma sign_inversion rt p secret options clock tok :
  sign rt p secret options clock = inr tok ->
  exists span,
    ms rt (expiresIn options) = Some span /\
    (s_algorithm options <> "none" -> secret <> "") /\
    let claims :=
      {| userId := userId p; type := type p; jti := jti p;
         iat := Some (default (clock / 1000) (iat p)); nbf := nbf p;
         exp := Some (default (clock / 1000) (iat p) + span / 1000);
         aud := [s_audience options];
         iss := Some (s_issuer options);
         sub := Some (s_subject options) |} in
    tok = Compact (s_algorithm options) claims
            (Some (jws_sign (s_algorithm options) secret claims)).
Proof.
  unfold sign. intros H.
  destruct (negb (is_set secret) && negb (String.eqb (s_algorithm options) "none")) eqn:Hg;
    [discriminate|].
  destruct (ms rt (expiresIn options)) as [span|] eqn:Hms; [|discriminate].
  exists span. split; [reflexivity|]. split.
  - intros Hn Hs. subst secret. cbn in Hg.
    apply String.eqb_neq in Hn. rewrite Hn in Hg. discriminate.
  - cbn zeta. congruence.
Qed.

Lemma generate_inversion rt k userId opts issuedAt uuid tok :
  generate k rt userId opts issuedAt uuid = inr tok ->
  exists span,
    ms rt (lifetime rt k opts) = Some span /\ JWT_SECRET rt <> "" /\
    tok = Compact "HS256" (issuedClaims rt k userId issuedAt span uuid)
            (Some (jws_sign "HS256" (JWT_SECRET rt)
                     (issuedClaims rt k userId issuedAt span uuid))).
Proof.
  intros H. destruct k; cbn [generate] in H;
    apply sign_inversion in H; destruct H as (span & Hms & Hs & ->);
    exists span; (split; [exact Hms|]); (split; [apply Hs; discriminate|]);
    reflexivity.
Qed.

Lemma generate_succeeds rt k uid opts issuedAt uuid span :
  JWT_SECRET rt <> "" -> ms rt (lifetime rt k opts) = Some span ->
  generate k rt uid opts issuedAt uuid =
  inr (Compact "HS256" (issuedClaims rt k uid issuedAt span uuid)
         (Some (jws_sign "HS256" (JWT_SECRET rt)
                  (issuedClaims rt k uid issuedAt span uuid)))).
Proof.
  intros Hs Hms.
  assert (is_set (JWT_SECRET rt) = true) as Hset
    by (apply negb_true_iff, String.eqb_neq, Hs).
  destruct k; cbn [generate]; unfold jwt.generateAccessToken, jwt.generateRefreshToken,
    sign; cbn [expiresIn s_algorithm s_issuer s_audience s_subject userId type jti iat nbf];
    rewrite Hset; cbn [negb andb]; unfold lifetime in Hms; rewrite Hms; reflexivity.
Qed.

Lemma verify_signed rt p issuer_ audience_ clock :
  JWT_SECRET rt <> "" -> nbf p = None ->
  aud p = [audience_] -> iss p = Some issuer_ ->
  verify (Compact "HS256" p (Some (jws_sign "HS256" (JWT_SECRET rt) p)))
    (JWT_SECRET rt)
    {| issuer := Some issuer_; audience := Some audience_;
       algorithms := Some ["HS256"] |} clock =
  match exp p with
  | Some e =>
      if bool_decide (e <= clock / 1000)
      then inl (TokenExpiredError "jwt expired" (e * 1000))
      else inr p
  | None => inr p
  end.
Proof.
  intros Hs Hnbf Haud Hiss.
  assert (is_set (JWT_SECRET rt) = true) as Hset
    by (apply negb_true_iff, String.eqb_neq, Hs).
  unfold verify. cbn [algorithms audience issuer default].
  rewrite (bool_decide_eq_true_2 (is_Some (Some _))) by eauto.
  rewrite Hset. cbn [negb andb].
  rewrite (bool_decide_eq_true_2 ("HS256" ∈ ["HS256"])) by set_solver.
  cbn [negb]. change (String.prefix "RS" "HS256") with false.
  change (String.prefix "PS" "HS256") with false.
  change (String.prefix "ES" "HS256") with false. cbn [orb].
  unfold jws_verify, jws_sign.
  rewrite bool_decide_eq_true_2 by reflexivity. cbn [negb].
  rewrite Hnbf, Haud, Hiss.
  rewrite (bool_decide_eq_true_2 (audience_ ∈ [audience_])) by set_solver.
  rewrite (bool_decide_eq_true_2 (Some issuer_ = Some issuer_)) by reflexivity.
  cbn [negb]. rewrite !andb_false_r.
  destruct (exp p) as [e|]; [|reflexivity].
  cbn [default]. destruct (bool_decide (e <= clock / 1000)); reflexivity.
Qed.

Lemma verifyToken_issued rt k k' userId issuedAt span uuid clock :
  JWT_SECRET rt <> "" ->
  let p := issuedClaims rt k userId issuedAt span uuid in
  jwt.verifyToken rt
    (Compact "HS256" p (Some (jws_sign "HS256" (JWT_SECRET rt) p)))
    (kindName k') clock =
  if bool_decide (issuedAt / 1000 + span / 1000 <= clock / 1000)
  then inl (TokenExpiredError "jwt expired"
              ((issuedAt / 1000 + span / 1000) * 1000))
  else if bool_decide (k = k') then inr p
  else inl (Error ("Invalid token type. Expected " ++ kindName k' ++ ", got "
                     ++ kindName k)).
Proof.
  intros Hs p. unfold jwt.verifyToken, jwt.verifyOptions.
  rewrite (verify_signed rt p _ _ clock Hs eq_refl eq_refl eq_refl).
  cbn [exp p issuedClaims].
  destruct (bool_decide (issuedAt / 1000 + span / 1000 <= clock / 1000));
    [reflexivity|].
  cbn [type]. destruct k, k'; reflexivity.
Qed.

End IssuedTokens.

(** *** The handler *)

Lemma or_default_set a d : d <> "" -> jsonwebtoken.is_set (JS.or_default a d) = true.
Proof.
  intros Hd. unfold JS.or_default, jsonwebtoken.is_set.
  destruct a as [s|].
  - destruct (String.eqb s "") eqn:Hs; [|rewrite Hs; reflexivity].
    apply negb_true_iff, String.eqb_neq, Hd.
  - apply negb_true_iff, String.eqb_neq, Hd.
Qed.

Lemma refreshToken_saves_nothing rt body_refreshToken findById now uuid :
  saved (authController.refreshToken rt body_refreshToken findById now uuid) = None.
Proof.
  unfold authController.refreshToken, authController.refreshToken_catch.
  repeat match goal with
  | |- saved (match ?x with _ => _ end) = None => destruct x
  | |- saved (if ?x then _ else _) = None => destruct x
  end; reflexivity.
Qed.

(** The handler's own check of a refresh token the token service
    accepts: key, algorithm, signature and times are settled by then,
    and what remains is the comparison with the audience and the issuer
    the handler names. *)
Lemma refresh_verify_of_valid rt tok now decoded :
  jwt.verifyToken rt tok "refresh" now = inr decoded ->
  jsonwebtoken.type decoded = Some "refresh" /\
  jsonwebtoken.iss decoded = Some (JS.or_default (JWT_ISSUER rt) "fitness-app") /\
  JS.or_default (JWT_AUDIENCE rt) "fitness-app-users" ∈ jsonwebtoken.aud decoded /\
  tok <> jsonwebtoken.Garbage "" /\
  jsonwebtoken.verify tok (JWT_SECRET rt) authController.refreshVerifyOptions now =
  if negb (bool_decide ("fitness-app-users" ∈ jsonwebtoken.aud decoded))
  then inl (JsonWebTokenError "jwt audience invalid. expected: fitness-app-users")
  else if negb (bool_decide (jsonwebtoken.iss decoded = Some "fitness-app"))
  then inl (JsonWebTokenError "jwt issuer invalid. expected: fitness-app")
  else inr decoded.
Proof.
  unfold jwt.verifyToken.
  destruct (jsonwebtoken.verify tok (JWT_SECRET rt) (jwt.verifyOptions rt) now)
    as [error|p] eqn:Hv; [discriminate|].
  destruct (bool_decide (jsonwebtoken.type p = Some "refresh")) eqn:Hty;
    cbn [negb]; [|discriminate].
  intros [= <-]. apply bool_decide_eq_true in Hty.
  split; [exact Hty|].
  unfold jsonwebtoken.verify, jwt.verifyOptions in Hv.
  cbn [jsonwebtoken.algorithms jsonwebtoken.audience jsonwebtoken.issuer default]
    in Hv.
  destruct tok as [text | alg claims signature];
    [destruct (String.eqb text ""); [|destruct (negb _)]; discriminate Hv|].
  repeat match type of Hv with
  | (if ?c then _ else _) = _ =>
      let E := fresh "E" in destruct c eqn:E; [discriminate Hv|]
  end.
  injection Hv as <-.
  apply negb_false_iff in E2, E4.
  apply bool_decide_eq_true, list_elem_of_singleton in E2. subst alg.
  destruct signature as [m|]; [|discriminate E4].
  rewrite (bool_decide_eq_true_2 (is_Some (Some m))) in E0 by eauto.
  cbn [andb] in E0. apply negb_false_iff in E0.
  rewrite (or_default_set (JWT_AUDIENCE rt) "fitness-app-users"
             ltac:(discriminate)) in E7.
  rewrite (or_default_set (JWT_ISSUER rt) "fitness-app" ltac:(discriminate)) in E8.
  cbn [andb] in E7, E8.
  apply negb_false_iff, bool_decide_eq_true in E7, E8.
  split; [exact E8|]. split; [exact E7|]. split; [discriminate|].
  unfold jsonwebtoken.verify, authController.refreshVerifyOptions.
  cbn [jsonwebtoken.algorithms jsonwebtoken.audience jsonwebtoken.issuer default].
  rewrite (bool_decide_eq_true_2 (is_Some (Some m))) by eauto.
  rewrite E0. cbn [negb andb].
  rewrite (bool_decide_eq_true_2 ("HS256" ∈ jsonwebtoken.HS_ALGS))
    by apply list_elem_of_here.
  cbn [negb]. rewrite E3, E4, E5, E6. cbn [negb].
  reflexivity.
Qed.

(** A token the service accepts as a refresh token is answered "Please
    login again" once its issuer or its audiences are not the ones the
    handler names. *)
Lemma refresh_literal_mismatch rt tok findById now uuid decoded :
  jwt.verifyToken rt tok "refresh" now = inr decoded ->
  jsonwebtoken.iss decoded <> Some "fitness-app" \/
  ~ "fitness-app-users" ∈ jsonwebtoken.aud decoded ->
  authController.refreshToken rt (Some tok) findById now uuid =
  reply 401 (body pleaseLoginAgain).
Proof.
  intros Hvalid Hmismatch.
  destruct (refresh_verify_of_valid rt tok now decoded Hvalid)
    as (_ & _ & _ & Hgiven & Hverify).
  unfold authController.refreshToken.
  destruct tok as [[|c text] | alg claims signature];
    [contradiction Hgiven; reflexivity| |]; rewrite Hverify;
    (destruct (bool_decide ("fitness-app-users" ∈ jsonwebtoken.aud decoded))
       eqn:Haud; cbn [negb]; [|reflexivity]);
    (destruct (bool_decide (jsonwebtoken.iss decoded = Some "fitness-app"))
       eqn:Hiss; cbn [negb]; [|reflexivity]);
    apply bool_decide_eq_true in Haud, Hiss; tauto.
Qed.

(** With the issuer and the audience the handler names, the flow. *)
Lemma refresh_flow_unfold rt tok findById now uuid decoded :
  jwt.verifyToken rt tok "refresh" now = inr decoded ->
  jsonwebtoken.iss decoded = Some "fitness-app" ->
  "fitness-app-users" ∈ jsonwebtoken.aud decoded ->
  authController.refreshToken rt (Some tok) findById now uuid =
  match User.findById findById (jsonwebtoken.userId decoded) with
  | inl error => authController.refreshToken_catch error
  | inr None =>
      reply 401 (JObj [("error", JStr "Invalid Token");
                       ("message", JStr "User no longer exists")])
  | inr (Some user) =>
      if negb (existsb
                 (fun tokenObj => bool_decide (User.token tokenObj = tok))
                 (User.refreshTokens user))
      then reply 401
             (JObj [("error", JStr "Invalid Refresh Token");
                    ("message",
                     JStr "Refresh token is not valid or has been revoked")])
      else match auth.generateToken rt (User._id user) now uuid with
           | inl error =>
               authController.refreshToken_catch (errorHandler.thrown error)
           | inr newAccessToken =>
               reply 200
                 (JObj [("message", JStr "Token refreshed successfully");
                        ("tokens",
                         JObj [("accessToken", JTok newAccessToken);
                               ("expiresIn",
                                JStr (JS.or_default (JWT_EXPIRES_IN rt)
                                                    "7d"))])])
           end
  end.
Proof.
  intros Hvalid Hiss Haud.
  destruct (refresh_verify_of_valid rt tok now decoded Hvalid)
    as (Htype & _ & _ & Hgiven & Hverify).
  rewrite (bool_decide_eq_true_2 _ Haud), (bool_decide_eq_true_2 _ Hiss) in Hverify.
  cbn [negb] in Hverify.
  unfold authController.refreshToken.
  destruct tok as [[|c text] | alg claims signature];
    [contradiction Hgiven; reflexivity| |]; rewrite Hverify, Htype;
    rewrite (bool_decide_eq_true_2 (Some "refresh" = Some "refresh")) by reflexivity;
    reflexivity.
Qed.

(** C5.  The refresh flow for a token the token service accepts as a
    refresh token ([verifyToken] with the configured secret, issuer and
    audience returns its claims).  Nothing is saved in any case, so the
    stored refresh tokens are never rotated.

    With the default issuer and audience the flow is the specified one:
    a subject the store does not hold is answered 401 "User no longer
    exists"; a token string absent from the user's [refreshTokens] is
    answered 401 "not valid or has been revoked"; a token string that is
    present is answered 200 with one new access token, signed for the
    user's id, which [verifyToken] accepts as an access token until it
    expires, and with no refresh token.  A lookup the store rejects is
    answered 500.

    With [JWT_ISSUER] set to another issuer, or [JWT_AUDIENCE] to
    another audience for a token with the one audience the service
    writes, the handler answers 401 "Please login again" whatever the
    store holds: the handler compares with the literal issuer and
    audience. *)
Theorem C5_refresh_flow (rt : Runtime) (tok : jsonwebtoken.token)
    (findById : string -> errorHandler.error + option User.t) (now : Z)
    (uuid : string) (decoded : jsonwebtoken.payload) :
  jwt.verifyToken rt tok "refresh" now = inr decoded ->
  let out := authController.refreshToken rt (Some tok) findById now uuid in
  saved out = None /\
  (JS.or_default (JWT_ISSUER rt) "fitness-app" = "fitness-app" ->
   JS.or_default (JWT_AUDIENCE rt) "fitness-app-users" = "fitness-app-users" ->
   (User.findById findById (jsonwebtoken.userId decoded) = inr None ->
      response out =
        {| status := 401;
           body := JObj [("error", JStr "Invalid Token");
                         ("message", JStr "User no longer exists")] |}) /\
   (forall error,
      User.findById findById (jsonwebtoken.userId decoded) = inl error ->
      errorHandler.name error <> "JsonWebTokenError" ->
      errorHandler.name error <> "TokenExpiredError" ->
      status (response out) = 500) /\
   (forall user,
      User.findById findById (jsonwebtoken.userId decoded) = inr (Some user) ->
      (~ In tok (List.map User.token (User.refreshTokens user)) ->
         response out =
           {| status := 401;
              body := JObj [("error", JStr "Invalid Refresh Token");
                            ("message",
                             JStr "Refresh token is not valid or has been revoked")] |}) /\
      (In tok (List.map User.token (User.refreshTokens user)) ->
       forall span,
         ms rt (JS.or_default (JWT_EXPIRES_IN rt) "15m") = Some span ->
         let claims := issuedClaims rt Access (User._id user) now span uuid in
         let newAccessToken :=
           jsonwebtoken.Compact "HS256" claims
             (Some (jsonwebtoken.jws_sign "HS256" (JWT_SECRET rt) claims)) in
         response out =
           {| status := 200;
              body :=
                JObj [("message", JStr "Token refreshed successfully");
                      ("tokens",
                       JObj [("accessToken", JTok newAccessToken);
                             ("expiresIn",
                              JStr (JS.or_default (JWT_EXPIRES_IN rt) "7d"))])] |} /\
         jsonwebtoken.userId claims = Some (User._id user) /\
         (forall later, later / 1000 < now / 1000 + span / 1000 ->
            jwt.verifyToken rt newAccessToken "access" later = inr claims)))) /\
  (JS.or_default (JWT_ISSUER rt) "fitness-app" <> "fitness-app" \/
   (JS.or_default (JWT_AUDIENCE rt) "fitness-app-users" <> "fitness-app-users" /\
    jsonwebtoken.aud decoded = [JS.or_default (JWT_AUDIENCE rt) "fitness-app-users"]) ->
   response out = pleaseLoginAgain).
Proof.
  intros Hvalid. cbv zeta.
  destruct (refresh_verify_of_valid rt tok now decoded Hvalid)
    as (Htype & Hiss & Haud & _ & _).
  split; [apply refreshToken_saves_nothing|]. split.
  - intros Hi Ha. rewrite Hi in Hiss. rewrite Ha in Haud.
    rewrite (refresh_flow_unfold rt tok findById now uuid decoded Hvalid Hiss Haud).
    split; [intros ->; reflexivity|]. split.
    + intros error -> Hn1 Hn2. unfold authController.refreshToken_catch.
      apply String.eqb_neq in Hn1, Hn2. rewrite Hn1, Hn2. reflexivity.
    + intros user ->. split.
      * intros Habsent.
        destruct (existsb _ (User.refreshTokens user)) eqn:Hstored;
          [apply token_stored in Hstored; contradiction|reflexivity].
      * intros Hpresent span Hspan. apply token_stored in Hpresent.
        rewrite Hpresent. cbn [negb].
        assert (JWT_SECRET rt <> "") as Hsecret.
        { unfold jwt.verifyToken in Hvalid.
          destruct (jsonwebtoken.verify tok (JWT_SECRET rt) (jwt.verifyOptions rt) now)
            as [e|p] eqn:Hv; [discriminate|].
          exact (verify_needs_secret _ _ _ _ _ Hv). }
        pose proof (generate_succeeds rt Access (User._id user) None now uuid span
                      Hsecret Hspan) as Hgen.
        cbn [generate] in Hgen. unfold auth.generateToken. rewrite Hgen.
        split; [reflexivity|]. split; [reflexivity|].
        intros later Hlater.
        rewrite (verifyToken_issued rt Access Access (User._id user) now span uuid
                   later Hsecret : jwt.verifyToken rt _ "access" later = _).
        rewrite bool_decide_eq_false_2 by lia.
        rewrite bool_decide_eq_true_2 by reflexivity. reflexivity.
  - intros Hcfg.
    rewrite (refresh_literal_mismatch rt tok findById now uuid decoded Hvalid);
      [reflexivity|].
    destruct Hcfg as [Hi | (Ha & Hone)].
    + left. rewrite Hiss. intros [= Heq]. contradiction.
    + right. rewrite Hone. rewrite list_elem_of_singleton.
      intros Heq. symmetry in Heq. contradiction.
Qed.

(** A deployment that sets [JWT_ISSUER]: the refresh token it has issued
    to a user and stored for them is valid for the token service and is
    answered "Please login again"; and the same flow under the default
    issuer, answered 200. *)
Lemma C5_refresh_flow_witness :
  let member :=
    User.set_refreshTokens
      [{| User.token := Sample.ownIssuerTok; User.createdAt := 0 |}] Sample.fresh in
  (exists decoded,
     jwt.verifyToken Sample.ownIssuer Sample.ownIssuerTok "refresh" Sample.day
     = inr decoded) /\
  Sample.store [member] (User._id member) = inr (Some member) /\
  In Sample.ownIssuerTok (List.map User.token (User.refreshTokens member)) /\
  response
    (authController.refreshToken Sample.ownIssuer (Some Sample.ownIssuerTok)
       (Sample.store [member]) Sample.day "jti-2") = pleaseLoginAgain /\
  status (response
            (authController.refreshToken Sample.rt (Some Sample.refreshTok)
               (Sample.store [Sample.withToken]) Sample.day "jti-2")) = 200.
Proof.
  cbv zeta.
  split; [eexists; vm_compute; reflexivity|].
  split; [vm_compute; reflexivity|]. split; [left; reflexivity|]. split.
  - refine (proj2 (proj2 (C5_refresh_flow Sample.ownIssuer Sample.ownIssuerTok
                            _ Sample.day "jti-2" _ _)) _).
    + vm_compute. reflexivity.
    + left. vm_compute. discriminate.
  - destruct (C5_refresh_flow Sample.rt Sample.refreshTok
                (Sample.store [Sample.withToken]) Sample.day "jti-2" _
                ltac:(vm_compute; reflexivity))
      as (_ & Hflow & _).
    destruct (Hflow eq_refl eq_refl) as (_ & _ & Hfound).
    destruct (Hfound Sample.withToken ltac:(vm_compute; reflexivity))
      as (_ & Hissue).
    destruct (Hissue ltac:(left; reflexivity) 900000 ltac:(vm_compute; reflexivity))
      as (Hresponse & _).
    rewrite Hresponse. reflexivity.
Defined.

(** ** Token verification *)

Lemma verify_classified rt tok clock :
  classified rt tok clock
    (jsonwebtoken.verify tok (JWT_SECRET rt) (jwt.verifyOptions rt) clock).
Proof.
  destruct tok as [text | alg p signature].
  { cbn [jsonwebtoken.verify]. destruct (String.eqb text "");
      [|destruct (negb _)]; left; unfold algorithm_matches; cbn; congruence. }
  unfold jsonwebtoken.verify.
  cbn [jwt.verifyOptions jsonwebtoken.algorithms jsonwebtoken.issuer
       jsonwebtoken.audience default from_option id].
  rewrite !or_default_set by discriminate.
  assert (bool_decide (Some ["HS256"] = @None (list string)) = false) as ->
    by (apply bool_decide_eq_false; discriminate).
  rewrite andb_false_r. cbn [andb].
  destruct signature as [m|].
  2:{ (* no signature: some check refuses the token, and the signature
         does not match *)
      assert (~ signature_matches rt (jsonwebtoken.Compact alg p None)) as Hbad
        by (intros [_ H]; discriminate H).
      assert (bool_decide (is_Some (@None jsonwebtoken.mac)) = false) as ->
        by (apply bool_decide_eq_false; intros [? ?]; discriminate).
      cbn [negb andb jsonwebtoken.jws_verify].
      destruct (jsonwebtoken.is_set _); [right; left; exact Hbad|].
      destruct (negb (bool_decide _)); [right; left; exact Hbad|].
      destruct (_ || _); right; left; exact Hbad. }
  assert (bool_decide (is_Some (Some m)) = true) as ->
    by (apply bool_decide_eq_true; eauto).
  cbn [negb andb].
  destruct (jsonwebtoken.is_set (JWT_SECRET rt)) eqn:Hsecret; cbn [negb].
  2:{ right; left. intros [Hset _]. unfold jsonwebtoken.is_set in Hsecret.
      apply negb_false_iff, String.eqb_eq in Hsecret. contradiction. }
  assert (JWT_SECRET rt <> "") as Hset.
  { unfold jsonwebtoken.is_set in Hsecret.
    apply negb_true_iff, String.eqb_neq in Hsecret. exact Hsecret. }
  destruct (bool_decide (alg ∈ ["HS256"])) eqn:Halg; cbn [negb].
  2:{ left. apply bool_decide_eq_false in Halg. intros Hm. apply Halg.
      unfold algorithm_matches in Hm. cbn in Hm. injection Hm as ->.
      apply list_elem_of_singleton. reflexivity. }
  apply bool_decide_eq_true, list_elem_of_singleton in Halg. subst alg.
  assert (algorithm_matches (jsonwebtoken.Compact "HS256" p (Some m))) as Hm
    by reflexivity.
  change (String.prefix "RS" "HS256" || String.prefix "PS" "HS256"
          || String.prefix "ES" "HS256") with false. cbv iota.
  destruct (jsonwebtoken.jws_verify _ "HS256" (JWT_SECRET rt)) eqn:Hmac; cbn [negb].
  2:{ right; left. intros [_ H]. congruence. }
  assert (signature_matches rt (jsonwebtoken.Compact "HS256" p (Some m))) as Hs
    by (split; assumption).
  destruct (match jsonwebtoken.nbf p with
            | Some n => bool_decide (clock / 1000 < n) | None => false end)
    eqn:Hnbf.
  { split; [exact Hm|]. split; [exact Hs|].
    destruct (jsonwebtoken.nbf p) as [n|] eqn:Hn; [|discriminate].
    apply bool_decide_eq_true in Hnbf. exists p, n. auto. }
  assert (~ not_yet_active (jsonwebtoken.Compact "HS256" p (Some m)) clock) as Hactive.
  { intros (p' & n & [= <-] & Hn & Hlt). rewrite Hn in Hnbf.
    apply bool_decide_eq_false in Hnbf. contradiction. }
  destruct (match jsonwebtoken.exp p with
            | Some e => bool_decide (e <= clock / 1000) | None => false end)
    eqn:Hexp.
  { split; [exact Hm|]. split; [exact Hs|]. split; [exact Hactive|].
    destruct (jsonwebtoken.exp p) as [e|] eqn:He; [|discriminate].
    apply bool_decide_eq_true in Hexp. exists p, e. auto. }
  assert (~ past_expiry (jsonwebtoken.Compact "HS256" p (Some m)) clock) as Hlive.
  { intros (p' & e & [= <-] & He & Hle). rewrite He in Hexp.
    apply bool_decide_eq_false in Hexp. contradiction. }
  destruct (bool_decide (JS.or_default (JWT_AUDIENCE rt) "fitness-app-users"
                         ∈ jsonwebtoken.aud p)) eqn:Haud; cbn [negb].
  2:{ right; right. repeat (split; [assumption|]). right.
      intros (p' & [= <-] & Hin). apply bool_decide_eq_false in Haud. contradiction. }
  apply bool_decide_eq_true in Haud.
  destruct (bool_decide (jsonwebtoken.iss p =
                         Some (JS.or_default (JWT_ISSUER rt) "fitness-app")))
    eqn:Hiss; cbn [negb].
  2:{ right; right. repeat (split; [assumption|]). left.
      intros (p' & [= <-] & Heq). apply bool_decide_eq_false in Hiss. contradiction. }
  apply bool_decide_eq_true in Hiss.
  repeat split; try assumption; try reflexivity.
  - exists p. auto.
  - exists p. auto.
Qed.

Lemma fails_with_thrown kind error :
  error_name error = kind -> fails_with kind (inl error).
Proof. intros H. exists error. auto. Qed.

(** C4 (as amended).  [verifyToken] never returns claims when the
    algorithm, signature, issuer or audience does not match the
    configuration, when the token is past its expiry, or when its [type]
    differs from the expected one.  The failure kind is that of the
    first check that fails, in the order algorithm and signature
    (InvalidSignature), not-before, expiry (Expired), audience and issuer
    (InvalidSignature), type (WrongType); a token that passes them all is
    returned with its claims.  The three kinds are distinct. *)
Theorem C4_verifyToken (rt : Runtime) (tok : jsonwebtoken.token)
    (expectedType : string) (clock : Z) :
  let r := jwt.verifyToken rt tok expectedType clock in
  (~ algorithm_matches tok \/ ~ signature_matches rt tok \/
   ~ issuer_matches rt tok \/ ~ audience_matches rt tok \/
   past_expiry tok clock \/ ~ type_matches tok expectedType ->
   exists error, r = inl error)
  /\
  (~ algorithm_matches tok \/ ~ signature_matches rt tok ->
   fails_with InvalidSignature r)
  /\
  (algorithm_matches tok -> signature_matches rt tok ->
   ~ not_yet_active tok clock -> past_expiry tok clock ->
   fails_with Expired r)
  /\
  (algorithm_matches tok -> signature_matches rt tok ->
   ~ not_yet_active tok clock -> ~ past_expiry tok clock ->
   ~ issuer_matches rt tok \/ ~ audience_matches rt tok ->
   fails_with InvalidSignature r)
  /\
  (algorithm_matches tok -> signature_matches rt tok ->
   ~ not_yet_active tok clock -> ~ past_expiry tok clock ->
   issuer_matches rt tok -> audience_matches rt tok ->
   ~ type_matches tok expectedType ->
   fails_with WrongType r)
  /\
  (algorithm_matches tok -> signature_matches rt tok ->
   ~ not_yet_active tok clock -> ~ past_expiry tok clock ->
   issuer_matches rt tok -> audience_matches rt tok ->
   type_matches tok expectedType ->
   exists p, claimsOf tok = Some p /\ r = inr p)
  /\
  InvalidSignature <> Expired /\ Expired <> WrongType /\
  InvalidSignature <> WrongType.
Proof.
  cbv zeta. unfold jwt.verifyToken.
  pose proof (verify_classified rt tok clock) as Hc.
  destruct (jsonwebtoken.verify tok (JWT_SECRET rt) (jwt.verifyOptions rt) clock)
    as [[msg | msg d | msg d | msg] | p]; cbn [classified] in Hc.
  - (* JsonWebTokenError *)
    repeat split; try discriminate; intros;
      first [ eexists; reflexivity | apply fails_with_thrown; reflexivity | tauto ].
  - (* TokenExpiredError *)
    repeat split; try discriminate; intros;
      first [ eexists; reflexivity | apply fails_with_thrown; reflexivity | tauto ].
  - (* NotBeforeError *)
    repeat split; try discriminate; intros;
      first [ eexists; reflexivity | apply fails_with_thrown; reflexivity | tauto ].
  - contradiction.
  - destruct Hc as (Hp & Ha & Hs & Hn & He & Hi & Hd).
    destruct (bool_decide (jsonwebtoken.type p = Some expectedType)) eqn:Ht;
      cbn [negb].
    + apply bool_decide_eq_true in Ht.
      assert (type_matches tok expectedType) by (exists p; auto).
      repeat split; try discriminate; intros;
        first [ tauto | exists p; auto ].
    + apply bool_decide_eq_false in Ht.
      assert (~ type_matches tok expectedType).
      { intros (p' & Hp' & Ht'). congruence. }
      repeat split; try discriminate; intros;
        first [ eexists; reflexivity | apply fails_with_thrown; reflexivity | tauto ].
Qed.

(** An expired refresh token checked as a refresh token. *)
Lemma C4_verifyToken_witness :
  past_expiry Sample.refreshTok (8 * Sample.day) /\
  fails_with Expired
    (jwt.verifyToken Sample.rt Sample.refreshTok "refresh" (8 * Sample.day)).
Proof.
  assert (past_expiry Sample.refreshTok (8 * Sample.day)) as Hexpired.
  { eexists _, 604800. split; [reflexivity|]. split; [reflexivity|].
    vm_compute. discriminate. }
  split; [exact Hexpired|].
  destruct (C4_verifyToken Sample.rt Sample.refreshTok "refresh" (8 * Sample.day))
    as (_ & _ & Hexp & _).
  apply Hexp; [reflexivity | | | exact Hexpired].
  - split; [discriminate | vm_compute; reflexivity].
  - intros (p & n & [= <-] & Hn & _). discriminate Hn.
Defined.

(** C4, as stated, fails where two conditions meet: an expired refresh
    token presented where an access token is expected has the wrong
    type, and the failure is of the Expired kind, not the WrongType
    kind. *)
Lemma C4_expiry_precedes_type :
  ~ type_matches Sample.refreshTok "access" /\
  past_expiry Sample.refreshTok (8 * Sample.day) /\
  fails_with Expired
    (jwt.verifyToken Sample.rt Sample.refreshTok "access" (8 * Sample.day)) /\
  ~ fails_with WrongType
      (jwt.verifyToken Sample.rt Sample.refreshTok "access" (8 * Sample.day)).
Proof.
  split.
  { intros (p & [= <-] & Ht). discriminate Ht. }
  split.
  { eexists _, 604800. split; [reflexivity|]. split; [reflexivity|].
    vm_compute. discriminate. }
  split.
  - eexists. split; [vm_compute; reflexivity | reflexivity].
  - intros (error & Hthrown & Hname). vm_compute in Hthrown.
    injection Hthrown as <-. discriminate Hname.
Qed.

(** The refresh handler does not go through [verifyToken]: it calls the
    library without pinning the algorithm, so the library's default for a
    string secret applies and a token signed under HS512 passes, which
    [verifyToken] refuses. *)
Lemma refresh_verification_algorithms :
  (exists p, jsonwebtoken.verify Sample.refreshTok512 (JWT_SECRET Sample.rt)
               authController.refreshVerifyOptions Sample.day = inr p) /\
  fails_with InvalidSignature
    (jwt.verifyToken Sample.rt Sample.refreshTok512 "refresh" Sample.day).
Proof.
  split.
  - eexists. vm_compute. reflexivity.
  - eexists. split; [vm_compute; reflexivity | reflexivity].
Qed.

(** * Further properties

    What the rest of the token service, the model, the handlers, the
    middleware and the security configuration do. *)

(** ** The token service *)

Section TokenService.
Import jsonwebtoken.

(** X1.  Round trip of the token service: a token issued by
    [generateAccessToken] or [generateRefreshToken] carries the user id
    (also as subject), its kind, the given token id and the expiry
    [iat + span / 1000]; [verifyToken] with the token's own kind returns
    exactly these claims at every time before the expiry second, and
    throws [TokenExpiredError] from that second on. *)
Theorem issued_token_round_trip (rt : Runtime) (k : TokenKind)
    (userId : string) (options_expiresIn : option string) (issuedAt : Z)
    (uuid : string) (tok : token) :
  generate k rt userId options_expiresIn issuedAt uuid = inr tok ->
  exists p span,
    ms rt (lifetime rt k options_expiresIn) = Some span /\
    decode tok = Some p /\
    jsonwebtoken.userId p = Some userId /\ type p = Some (kindName k) /\
    jti p = Some uuid /\ sub p = Some userId /\
    iat p = Some (issuedAt / 1000) /\
    exp p = Some (issuedAt / 1000 + span / 1000) /\
    (forall clock, clock / 1000 < issuedAt / 1000 + span / 1000 ->
       jwt.verifyToken rt tok (kindName k) clock = inr p) /\
    (forall clock, issuedAt / 1000 + span / 1000 <= clock / 1000 ->
       jwt.verifyToken rt tok (kindName k) clock =
       inl (TokenExpiredError "jwt expired"
              ((issuedAt / 1000 + span / 1000) * 1000))).
Proof.
  intros H. apply generate_inversion in H. destruct H as (span & Hms & Hs & ->).
  exists (issuedClaims rt k userId issuedAt span uuid), span.
  repeat (split; [first [exact Hms | reflexivity]|]).
  split; intros clock Hclock; rewrite (verifyToken_issued rt k k _ _ _ _ clock Hs).
  - rewrite bool_decide_eq_false_2 by lia.
    rewrite bool_decide_eq_true_2 by reflexivity. reflexivity.
  - rewrite bool_decide_eq_true_2 by lia. reflexivity.
Qed.

Lemma issued_token_round_trip_witness :
  generate Access Sample.rt "64b7f3c2a1d4e5f6a7b8c9d0" None 0 "jti-0" = inr Sample.accessTok /\
  exists p,
    jwt.verifyToken Sample.rt Sample.accessTok "access" 899999 = inr p /\
    userId p = Some "64b7f3c2a1d4e5f6a7b8c9d0"%string.
Proof.
  split; [reflexivity|].
  destruct (issued_token_round_trip Sample.rt Access "64b7f3c2a1d4e5f6a7b8c9d0" None 0 "jti-0"
              Sample.accessTok ltac:(vm_compute; reflexivity))
    as (p & span & Hms & _ & Hu & _ & _ & _ & _ & _ & Hok & _).
  exists p. split; [|exact Hu].
  vm_compute in Hms. injection Hms as <-.
  apply (Hok 899999). vm_compute. reflexivity.
Defined.

(** X2.  The two kinds of token do not stand in for each other: a token
    issued as one kind never verifies as the other; [verifyToken] throws
    the type error, or [TokenExpiredError] once the token has expired. *)
Theorem issued_token_type_separation (rt : Runtime) (k k' : TokenKind)
    (userId : string) (options_expiresIn : option string) (issuedAt : Z)
    (uuid : string) (tok : token) (clock : Z) :
  generate k rt userId options_expiresIn issuedAt uuid = inr tok ->
  k <> k' ->
  exists error,
    jwt.verifyToken rt tok (kindName k') clock = inl error /\
    (error_name error = "TokenExpiredError" \/
     error = Error ("Invalid token type. Expected " ++ kindName k' ++ ", got "
                      ++ kindName k)).
Proof.
  intros H Hk. apply generate_inversion in H. destruct H as (span & Hms & Hs & ->).
  rewrite (verifyToken_issued rt k k' _ _ _ _ clock Hs).
  destruct (bool_decide (issuedAt / 1000 + span / 1000 <= clock / 1000)).
  - eexists. split; [reflexivity|]. left. reflexivity.
  - rewrite bool_decide_eq_false_2 by exact Hk.
    eexists. split; [reflexivity|]. right. reflexivity.
Qed.

Lemma issued_token_type_separation_witness :
  Access <> Refresh /\
  exists error,
    jwt.verifyToken Sample.rt Sample.accessTok "refresh" 1000 = inl error.
Proof.
  split; [discriminate|].
  destruct (issued_token_type_separation Sample.rt Access Refresh "64b7f3c2a1d4e5f6a7b8c9d0" None 0
              "jti-0" Sample.accessTok 1000 ltac:(vm_compute; reflexivity)
              ltac:(discriminate))
    as (error & H & _).
  exists error. exact H.
Defined.

Lemma verifyToken_inversion rt tok expectedType clock p :
  jwt.verifyToken rt tok expectedType clock = inr p ->
  verify tok (JWT_SECRET rt) (jwt.verifyOptions rt) clock = inr p /\
  type p = Some expectedType.
Proof.
  unfold jwt.verifyToken.
  destruct (verify tok (JWT_SECRET rt) (jwt.verifyOptions rt) clock)
    as [error|decoded]; [discriminate|].
  destruct (bool_decide (type decoded = Some expectedType)) eqn:Ht;
    cbn [negb]; [|discriminate].
  intros [= ->]. split; [reflexivity|].
  apply bool_decide_eq_true in Ht. exact Ht.
Qed.

(** Only the two time checks of [verify] depend on the clock. *)
Lemma verify_later tok secret options clock0 clock p :
  verify tok secret options clock0 = inr p ->
  clock0 / 1000 <= clock / 1000 ->
  decode tok = Some p /\
  verify tok secret options clock =
  match exp p with
  | Some e =>
      if bool_decide (e <= clock / 1000)
      then inl (TokenExpiredError "jwt expired" (e * 1000))
      else inr p
  | None => inr p
  end.
Proof.
  destruct tok as [text|alg q signature]; unfold verify.
  { destruct (String.eqb text ""); [|destruct (negb _)]; discriminate. }
  cbn zeta. intros H Hclock.
  repeat match type of H with
  | (if ?c then _ else _) = _ =>
      let E := fresh "E" in destruct c eqn:E; [discriminate|]
  end.
  injection H as ->. split; [reflexivity|].
  assert (match nbf p with
          | Some n => bool_decide (clock / 1000 < n)
          | None => false
          end = false) as ->.
  { destruct (nbf p) as [n|]; [|reflexivity].
    apply bool_decide_eq_false in E5. apply bool_decide_eq_false_2. lia. }
  destruct (exp p) as [e|]; [|reflexivity].
  cbn [default]. destruct (bool_decide (e <= clock / 1000)); reflexivity.
Qed.

Lemma verify_not_expired tok secret options clock p e :
  verify tok secret options clock = inr p -> exp p = Some e -> clock / 1000 < e.
Proof.
  destruct tok as [text|alg q signature]; unfold verify.
  { destruct (String.eqb text ""); [|destruct (negb _)]; discriminate. }
  cbn zeta. intros H He.
  repeat match type of H with
  | (if ?c then _ else _) = _ =>
      let E := fresh "E" in destruct c eqn:E; [discriminate|]
  end.
  injection H as ->. rewrite He in E6. apply bool_decide_eq_false in E6. lia.
Qed.

Lemma getTokenExpiration_Some tok t :
  jwt.getTokenExpiration tok = Some t <->
  exists p e, decode tok = Some p /\ exp p = Some e /\ e <> 0 /\ t = e * 1000.
Proof.
  unfold jwt.getTokenExpiration. split.
  - destruct (decode tok) as [p|]; [|discriminate].
    destruct (exp p) as [e|] eqn:He; [|discriminate].
    destruct (e =? 0) eqn:E0; [discriminate|]. intros [= <-].
    exists p, e. apply Z.eqb_neq in E0. auto.
  - intros (p & e & -> & -> & He & ->). apply Z.eqb_neq in He. rewrite He.
    reflexivity.
Qed.

(** X3.  [isTokenExpired] and [getTokenExpiration] against [verifyToken]:
    a token without a (non-zero) [exp] is reported expired; otherwise it
    is reported expired exactly when the clock's second is after the
    expiry second.  A token that [verifyToken] accepts is not reported
    expired, and in the expiry second itself the helper still says "not
    expired" while [verifyToken] already throws [TokenExpiredError]. *)
Theorem isTokenExpired_lenient (rt : Runtime) (tok : token)
    (expectedType : string) (clock : Z) :
  (jwt.getTokenExpiration tok = None -> jwt.isTokenExpired tok clock = true) /\
  (forall t, jwt.getTokenExpiration tok = Some t ->
     (jwt.isTokenExpired tok clock = false <-> clock / 1000 <= t / 1000)) /\
  (forall t clock0 p,
     jwt.getTokenExpiration tok = Some t ->
     jwt.verifyToken rt tok expectedType clock0 = inr p ->
     jwt.isTokenExpired tok clock0 = false /\
     (clock / 1000 = t / 1000 ->
      jwt.isTokenExpired tok clock = false /\
      jwt.verifyToken rt tok expectedType clock =
        inl (TokenExpiredError "jwt expired" t))).
Proof.
  assert (forall t c, jwt.getTokenExpiration tok = Some t ->
            (jwt.isTokenExpired tok c = false <-> c / 1000 <= t / 1000)) as Hiff.
  { intros t c Ht. apply getTokenExpiration_Some in Ht.
    destruct Ht as (p & e & Hp & He & Hnz & ->).
    unfold jwt.isTokenExpired. rewrite Hp, He.
    apply Z.eqb_neq in Hnz. rewrite Hnz. cbn zeta.
    rewrite Z.div_mul by lia. rewrite Z.ltb_ge. reflexivity. }
  split; [|split].
  - unfold jwt.getTokenExpiration, jwt.isTokenExpired.
    destruct (decode tok) as [p|]; [|reflexivity].
    destruct (exp p) as [e|]; [|reflexivity].
    destruct (e =? 0); [reflexivity|discriminate].
  - intros t. apply Hiff.
  - intros t clock0 p Ht Hv.
    apply verifyToken_inversion in Hv. destruct Hv as (Hv & Hty).
    pose proof Ht as Ht'. apply getTokenExpiration_Some in Ht'.
    destruct Ht' as (q & e & Hq & He & Hnz & ->).
    assert (q = p) as ->.
    { destruct (verify_later _ _ _ clock0 clock0 p Hv ltac:(lia)) as (Hd & _).
      congruence. }
    pose proof (verify_not_expired _ _ _ _ _ _ Hv He) as Hlt.
    split.
    + apply (Hiff _ clock0 Ht). rewrite Z.div_mul by lia. lia.
    + rewrite Z.div_mul by lia. intros Hc. split.
      * apply (Hiff _ clock Ht). rewrite Z.div_mul by lia. lia.
      * unfold jwt.verifyToken.
        destruct (verify_later _ _ _ clock0 clock p Hv ltac:(lia)) as (_ & ->).
        rewrite He. rewrite bool_decide_eq_true_2 by lia. reflexivity.
Qed.

(** X4.  [generateTokenPair] succeeds exactly when a secret is set and
    both configured lifetimes parse; the pair then holds an access and a
    refresh token for the user, and the lifetimes it reports are the ones
    the tokens were signed with. *)
Theorem generateTokenPair_lifetimes (rt : Runtime) (uid : string) (clock : Z)
    (uuid1 uuid2 : string) :
  ((exists pair, jwt.generateTokenPair rt uid clock uuid1 uuid2 = inr pair) <->
   JWT_SECRET rt <> "" /\
   is_Some (ms rt (JS.or_default (JWT_EXPIRES_IN rt) "15m")) /\
   is_Some (ms rt (JS.or_default (JWT_REFRESH_EXPIRES_IN rt) "7d"))) /\
  (forall pair,
     jwt.generateTokenPair rt uid clock uuid1 uuid2 = inr pair ->
     exists pa pr spanA spanR,
       decode (jwt.accessToken pair) = Some pa /\
       decode (jwt.refreshToken pair) = Some pr /\
       userId pa = Some uid /\ userId pr = Some uid /\
       type pa = Some "access" /\ type pr = Some "refresh" /\
       ms rt (jwt.pair_expiresIn pair) = Some spanA /\
       ms rt (jwt.refreshExpiresIn pair) = Some spanR /\
       exp pa = Some (clock / 1000 + spanA / 1000) /\
       exp pr = Some (clock / 1000 + spanR / 1000)).
Proof.
  split.
  - split.
    + intros (pair & H). unfold jwt.generateTokenPair in H.
      destruct (jwt.generateAccessToken rt uid None clock uuid1) as [e|a] eqn:Ha;
        [discriminate|].
      destruct (jwt.generateRefreshToken rt uid None clock uuid2) as [e|r] eqn:Hr;
        [discriminate|].
      apply (generate_inversion rt Access) in Ha.
      apply (generate_inversion rt Refresh) in Hr.
      destruct Ha as (sa & Hsa & Hs & _). destruct Hr as (sr & Hsr & _ & _).
      split; [exact Hs|]. split; eexists; eassumption.
    + intros (Hs & (sa & Hsa) & (sr & Hsr)).
      unfold jwt.generateTokenPair.
      rewrite (generate_succeeds rt Access uid None clock uuid1 sa Hs Hsa
               : jwt.generateAccessToken _ _ _ _ _ = _).
      rewrite (generate_succeeds rt Refresh uid None clock uuid2 sr Hs Hsr
               : jwt.generateRefreshToken _ _ _ _ _ = _).
      eexists. reflexivity.
  - intros pair H. unfold jwt.generateTokenPair in H.
    destruct (jwt.generateAccessToken rt uid None clock uuid1) as [e|a] eqn:Ha;
      [discriminate|].
    destruct (jwt.generateRefreshToken rt uid None clock uuid2) as [e|r] eqn:Hr;
      [discriminate|].
    apply (generate_inversion rt Access) in Ha.
    apply (generate_inversion rt Refresh) in Hr.
    destruct Ha as (sa & Hsa & Hs & ->). destruct Hr as (sr & Hsr & _ & ->).
    injection H as <-. cbn [jwt.accessToken jwt.refreshToken jwt.pair_expiresIn
                            jwt.refreshExpiresIn].
    exists (issuedClaims rt Access uid clock sa uuid1),
           (issuedClaims rt Refresh uid clock sr uuid2), sa, sr.
    repeat (split; [first [exact Hsa | exact Hsr | reflexivity]|]). reflexivity.
Qed.

Lemma login_inversion rt u password now uuid1 uuid2 :
  let o := authController.login rt (Some u) password now uuid1 uuid2 in
  status (response o) = 200 ->
  exists a r,
    bcrypt_compare rt password (User.password u) = true /\
    auth.generateToken rt (User._id u) now uuid1 = inr a /\
    auth.generateRefreshToken rt (User._id u) now uuid2 = inr r /\
    issuedAccessToken (response o) = Some a /\
    issuedRefreshToken (response o) = Some r /\
    advertisedExpiresIn (response o) = Some (JS.or_default (JWT_EXPIRES_IN rt) "7d") /\
    stored_after u o =
    User.preSave
      (User.set_lastLoginAt (Some now)
         (User.set_refreshTokens
            (JS.slice_last 5
               (User.refreshTokens u ++
                [{| User.token := r; User.createdAt := now |}])) u)).
Proof.
  cbn zeta. unfold authController.login.
  destruct (bcrypt_compare rt password (User.password u)); cbn [negb];
    [|discriminate].
  destruct (auth.generateToken rt (User._id u) now uuid1) as [e|a];
    [destruct (auth.generateRefreshToken rt (User._id u) now uuid2); discriminate|].
  destruct (auth.generateRefreshToken rt (User._id u) now uuid2) as [e|r];
    [discriminate|].
  intros _. exists a, r. rewrite keep_last_five, stored_after_save.
  repeat (split; [reflexivity|]). reflexivity.
Qed.

(** X5.  A successful [login] reports [JWT_EXPIRES_IN || '7d'] as
    [expiresIn], while the access token it hands out was signed with
    [JWT_EXPIRES_IN || '15m']: with the variable unset the response says
    seven days and the token lives fifteen minutes. *)
Theorem login_advertised_lifetime (rt : Runtime) (u : User.t)
    (password : string) (now : Z) (uuid1 uuid2 : string) :
  let o := authController.login rt (Some u) password now uuid1 uuid2 in
  status (response o) = 200 ->
  exists a p span,
    issuedAccessToken (response o) = Some a /\ decode a = Some p /\
    ms rt (JS.or_default (JWT_EXPIRES_IN rt) "15m") = Some span /\
    exp p = Some (now / 1000 + span / 1000) /\
    advertisedExpiresIn (response o) =
      Some (JS.or_default (JWT_EXPIRES_IN rt) "7d").
Proof.
  intros o H. destruct (login_inversion rt u password now uuid1 uuid2 H)
    as (a & r & _ & Ha & _ & Hia & _ & Hadv & _).
  apply (generate_inversion rt Access) in Ha.
  destruct Ha as (span & Hms & _ & ->).
  eexists _, (issuedClaims rt Access (User._id u) now span uuid1), span.
  split; [exact Hia|]. split; [reflexivity|]. split; [exact Hms|].
  split; [reflexivity|exact Hadv].
Qed.

Lemma login_advertised_lifetime_witness :
  status (response (authController.login Sample.rt (Some Sample.fresh) "Passw0rd!" 0
                      "jti-a" "jti-b")) = 200 /\
  advertisedExpiresIn
    (response (authController.login Sample.rt (Some Sample.fresh) "Passw0rd!" 0
                 "jti-a" "jti-b")) = Some "7d"%string /\
  exists a p,
    issuedAccessToken
      (response (authController.login Sample.rt (Some Sample.fresh) "Passw0rd!" 0
                   "jti-a" "jti-b")) = Some a /\
    decode a = Some p /\ exp p = Some 900.
Proof.
  assert (status (response (authController.login Sample.rt (Some Sample.fresh)
                              "Passw0rd!" 0 "jti-a" "jti-b")) = 200) as H200
    by (vm_compute; reflexivity).
  destruct (login_advertised_lifetime Sample.rt Sample.fresh "Passw0rd!" 0 "jti-a"
              "jti-b" H200)
    as (a & p & span & Ha & Hp & Hms & Hexp & Hadv).
  split; [exact H200|]. split; [exact Hadv|].
  exists a, p. split; [exact Ha|]. split; [exact Hp|].
  vm_compute in Hms. injection Hms as <-. exact Hexp.
Defined.

Lemma substring_all (s : string) : String.substring 0 (String.length s) s = s.
Proof. induction s as [|c s IH]; [reflexivity|]. cbn. rewrite IH. reflexivity. Qed.

Lemma prefix_split (p s : string) :
  String.prefix p s = true -> exists rest, s = (p ++ rest)%string.
Proof.
  revert s. induction p as [|c p IH]; intros s H.
  - exists s. reflexivity.
  - destruct s as [|d s]; [discriminate|]. cbn in H.
    destruct (Ascii.ascii_dec c d) as [->|]; [|discriminate].
    destruct (IH s H) as (rest & ->). exists rest. reflexivity.
Qed.

Lemma extractTokenFromHeader_bearer (text : string) :
  jwt.extractTokenFromHeader (Some ("Bearer " ++ text)%string) = Some text.
Proof.
  unfold jwt.extractTokenFromHeader, JS.startsWith, JS.substring_from.
  change ("Bearer " ++ text)%string
    with (String "B" (String "e" (String "a" (String "r" (String "e"
           (String "r" (String " " text))))))).
  cbn. rewrite ?Nat.sub_0_r, substring_all.
  destruct text; reflexivity.
Qed.

(** X6.  [extractTokenFromHeader]: the token after ["Bearer "] is
    returned as it is; a header is answered with no token exactly when
    it is absent or empty; and a token is returned exactly for the
    header ["Bearer " ++ token] and for a non-empty header without that
    prefix, which is returned whole. *)
Theorem extractTokenFromHeader_spec (authHeader : option string) (tok : string) :
  (jwt.extractTokenFromHeader (Some ("Bearer " ++ tok)%string) = Some tok) /\
  (jwt.extractTokenFromHeader authHeader = None <->
   authHeader = None \/ authHeader = Some ""%string) /\
  (jwt.extractTokenFromHeader authHeader = Some tok <->
   authHeader = Some ("Bearer " ++ tok)%string \/
   (authHeader = Some tok /\ tok <> ""%string /\
    String.prefix "Bearer " tok = false)).
Proof.
  pose proof extractTokenFromHeader_bearer as Hbearer.
  split; [apply Hbearer|]. split.
  - unfold jwt.extractTokenFromHeader. destruct authHeader as [header|].
    + destruct (String.eqb header "") eqn:He.
      * apply String.eqb_eq in He. subst. split; auto.
      * apply String.eqb_neq in He.
        destruct (JS.startsWith header "Bearer "); split; try discriminate;
          intros [|[= ->]]; try discriminate; congruence.
    + split; auto.
  - split.
    + destruct authHeader as [header|]; [|discriminate].
      destruct (String.prefix "Bearer " header) eqn:Hp.
      * destruct (prefix_split _ _ Hp) as (rest & ->).
        rewrite Hbearer. intros [= ->]. left. reflexivity.
      * unfold jwt.extractTokenFromHeader, JS.startsWith. rewrite Hp.
        destruct (String.eqb header "") eqn:He; [discriminate|].
        intros [= ->]. right. apply String.eqb_neq in He. auto.
    + intros [->|(-> & Hne & Hp)]; [apply Hbearer|].
      unfold jwt.extractTokenFromHeader, JS.startsWith. rewrite Hp.
      apply String.eqb_neq in Hne. rewrite Hne. reflexivity.
Qed.

Lemma split_dot_length (s : string) :
  length (JS.split_dot s) = S (count_dots s).
Proof.
  induction s as [|c s IH]; [reflexivity|]. cbn [JS.split_dot count_dots].
  destruct (Ascii.eqb c "."); cbn [length]; [rewrite IH; reflexivity|].
  destruct (JS.split_dot s); [discriminate|]. cbn [length] in *. exact IH.
Qed.

Lemma count_dots_split (text : string) :
  exists header rest,
    (text = header /\ count_dots header = 0%nat) \/
    (text = (header ++ "." ++ rest)%string /\ count_dots header = 0%nat /\
     count_dots text = S (count_dots rest)).
Proof.
  induction text as [|c s IH].
  - exists ""%string, ""%string. left. split; reflexivity.
  - destruct (Ascii.eqb c ".") eqn:Hc.
    + apply Ascii.eqb_eq in Hc. subst c.
      exists ""%string, s. right. repeat split; reflexivity.
    + destruct IH as (h & r & [(-> & H0)|(-> & H0 & Hs)]).
      * exists (String c h), ""%string. left. split; [reflexivity|].
        cbn [count_dots]. rewrite Hc, H0. reflexivity.
      * exists (String c h), r. right. split; [reflexivity|]. split.
        -- cbn [count_dots]. rewrite Hc, H0. reflexivity.
        -- change (String c h ++ "." ++ r)%string
             with (String c (h ++ "." ++ r))%string.
           cbn [count_dots]. rewrite Hc, Hs. reflexivity.
Qed.

Lemma isValidTokenFormat_text text :
  jwt.isValidTokenFormat (Some text) = true <-> count_dots text = 2%nat.
Proof.
  unfold jwt.isValidTokenFormat.
  destruct (String.eqb text "") eqn:He.
  - apply String.eqb_eq in He. subst. split; discriminate.
  - cbn zeta. rewrite split_dot_length, Nat.eqb_eq. lia.
Qed.

(** X7.  [isValidTokenFormat] counts separators only: a text passes
    exactly when it holds two dots, that is when it splits into three
    dot-free parts, which may be empty (the text [".."] passes). *)
Theorem isValidTokenFormat_dots (tok : option string) :
  (jwt.isValidTokenFormat tok = true <->
   exists text, tok = Some text /\ count_dots text = 2%nat) /\
  jwt.isValidTokenFormat (Some "..") = true /\
  (forall text, jwt.isValidTokenFormat (Some text) = true ->
     exists header payload signature,
       text = (header ++ "." ++ payload ++ "." ++ signature)%string /\
       count_dots header = 0%nat /\ count_dots payload = 0%nat /\
       count_dots signature = 0%nat).
Proof.
  split; [|split; [reflexivity|]].
  - destruct tok as [text|].
    + rewrite isValidTokenFormat_text. split.
      * intros H. eauto.
      * intros (t & [= <-] & H). exact H.
    + split; [discriminate|]. intros (t & H & _). discriminate.
  - intros text H. apply isValidTokenFormat_text in H.
    destruct (count_dots_split text) as (header & rest & Hsplit).
    destruct Hsplit as [(Ht & H0)|(Ht & Hh & Hrest)]; [subst; lia|].
    destruct (count_dots_split rest) as (payload & signature & Hsplit).
    destruct Hsplit as [(Hr & H0)|(Hr & Hp & Hsig)]; [subst; lia|].
    exists header, payload, signature. subst rest.
    split; [exact Ht|]. split; [exact Hh|]. split; [exact Hp|]. lia.
Qed.

End TokenService.

(** ** The completeness hook and the documents of the store *)

Section Store.
Import jsonwebtoken.

Lemma preSave_flags_ext (u v : User.t) :
  (forall sectionName, User.section u sectionName = User.section v sectionName) ->
  User.hasBasicInfo (User.dataQuality (User.preSave u)) =
    User.hasBasicInfo (User.dataQuality (User.preSave v)) /\
  User.hasLifestyle (User.dataQuality (User.preSave u)) =
    User.hasLifestyle (User.dataQuality (User.preSave v)) /\
  User.hasMedicalHistory (User.dataQuality (User.preSave u)) =
    User.hasMedicalHistory (User.dataQuality (User.preSave v)) /\
  User.hasGoals (User.dataQuality (User.preSave u)) =
    User.hasGoals (User.dataQuality (User.preSave v)) /\
  User.profileCompleteness (User.preSave u) =
    User.profileCompleteness (User.preSave v).
Proof.
  intros Hs.
  assert (User.hasBasicInfo (User.dataQuality (User.preSave u)) =
          User.hasBasicInfo (User.dataQuality (User.preSave v))) as H1
    by (rewrite !preSave_hasBasicInfo, Hs; reflexivity).
  assert (User.hasLifestyle (User.dataQuality (User.preSave u)) =
          User.hasLifestyle (User.dataQuality (User.preSave v))) as H2
    by (rewrite !preSave_hasLifestyle, Hs; reflexivity).
  assert (User.hasMedicalHistory (User.dataQuality (User.preSave u)) =
          User.hasMedicalHistory (User.dataQuality (User.preSave v))) as H3
    by (rewrite !preSave_hasMedicalHistory, Hs; reflexivity).
  assert (User.hasGoals (User.dataQuality (User.preSave u)) =
          User.hasGoals (User.dataQuality (User.preSave v))) as H4
    by (rewrite !preSave_hasGoals, Hs; reflexivity).
  repeat (split; [assumption|]).
  rewrite !preSave_profileCompleteness. unfold requiredCount.
  rewrite H1, H2, H3, H4. reflexivity.
Qed.

(** What the hook yields depends on the document it is given through
    the sections, the completion state and the fields it passes on. *)
Lemma preSave_ext (u v w : User.t) :
  (forall sectionName, User.section u sectionName = User.section v sectionName) ->
  User._id w = User._id u -> User.email w = User.email u ->
  User.password w = User.password u ->
  User.isEmailVerified w = User.isEmailVerified u ->
  User.refreshTokens w = User.refreshTokens u ->
  User.lastLoginAt w = User.lastLoginAt u ->
  User.sessionInfo w = User.sessionInfo u ->
  User.created w = User.created u ->
  (forall sectionName, User.section w sectionName = User.section u sectionName) ->
  User.hasPreferences (User.dataQuality w) = User.hasPreferences (User.dataQuality u) ->
  User.dataQuality w = User.dataQuality (User.preSave v) ->
  User.profileCompleteness w = User.profileCompleteness (User.preSave v) ->
  User.onboardingCompleted w =
    User.onboardingCompleted u || (User.profileCompleteness (User.preSave v) =? 100) ->
  User.onboardingStep w =
    (if (User.profileCompleteness (User.preSave v) =? 100) &&
        negb (User.onboardingCompleted u)
     then 6 else User.onboardingStep u) ->
  User.hasPreferences (User.dataQuality v) = User.hasPreferences (User.dataQuality u) ->
  w = User.preSave u.
Proof.
  intros Hs Hid Hem Hpw Hv Hrt Hll Hsi Hcr Hsec Hhp Hdq Hpc Hoc Hos Hhp'.
  destruct (preSave_flags_ext u v Hs) as (H1 & H2 & H3 & H4 & H5).
  destruct (preSave_account u) as (A1 & A2 & A3 & A4).
  apply user_ext.
  - rewrite preSave_id. exact Hid.
  - rewrite A1. exact Hem.
  - rewrite preSave_password. exact Hpw.
  - rewrite A2. exact Hv.
  - rewrite preSave_refreshTokens. exact Hrt.
  - rewrite A3. exact Hll.
  - rewrite preSave_onboardingCompleted, H5. exact Hoc.
  - rewrite preSave_onboardingStep, H5. exact Hos.
  - rewrite H5. exact Hpc.
  - rewrite preSave_sessionInfo. exact Hsi.
  - intros sectionName. rewrite preSave_section. apply Hsec.
  - rewrite Hdq. apply dataQuality_ext; try (symmetry; assumption).
    + rewrite !preSave_hasPreferences. exact Hhp'.
    + rewrite !preSave_completenessScore, H5. reflexivity.
  - rewrite A4. exact Hcr.
Qed.

Lemma preSave_preSave (u : User.t) :
  User.preSave (User.preSave u) = User.preSave u.
Proof.
  symmetry. apply (preSave_ext (User.preSave u) u (User.preSave u));
    try reflexivity.
  - intros sectionName. apply preSave_section.
  - rewrite preSave_onboardingCompleted.
    destruct (User.onboardingCompleted u), (User.profileCompleteness (User.preSave u) =? 100);
      reflexivity.
  - rewrite preSave_onboardingStep, preSave_onboardingCompleted.
    destruct (User.onboardingCompleted u), (User.profileCompleteness (User.preSave u) =? 100);
      reflexivity.
  - symmetry. apply preSave_hasPreferences.
Qed.

Lemma preSave_settled (v : User.t) :
  settled v -> User.preSave (User.preSave v) = User.preSave v /\ settled (User.preSave v).
Proof.
  intros (H6 & Hstep & Hp). split; [apply preSave_preSave|].
  unfold settled, completed_at_six in *.
  rewrite preSave_onboardingCompleted, preSave_onboardingStep, preSave_hasPreferences.
  destruct (User.onboardingCompleted v),
           (User.profileCompleteness (User.preSave v) =? 100);
    cbn [orb andb negb]; repeat split; try lia; try exact Hp; auto; discriminate.
Qed.

(** An assignment to a field the hook does not read commutes with the
    hook. *)
Lemma preSave_commute (f : User.t -> User.t) :
  (forall x, User._id (f x) = User._id x) ->
  (forall x, User.email (f x) = User.email x) ->
  (forall x y, User.password x = User.password y ->
               User.password (f x) = User.password (f y)) ->
  (forall x, User.isEmailVerified (f x) = User.isEmailVerified x) ->
  (forall x y, User.refreshTokens x = User.refreshTokens y ->
               User.refreshTokens (f x) = User.refreshTokens (f y)) ->
  (forall x y, User.lastLoginAt x = User.lastLoginAt y ->
               User.lastLoginAt (f x) = User.lastLoginAt (f y)) ->
  (forall x, User.onboardingCompleted (f x) = User.onboardingCompleted x) ->
  (forall x, User.onboardingStep (f x) = User.onboardingStep x) ->
  (forall x, User.profileCompleteness (f x) = User.profileCompleteness x) ->
  (forall x, User.sessionInfo (f x) = User.sessionInfo x) ->
  (forall x sectionName, User.section (f x) sectionName = User.section x sectionName) ->
  (forall x, User.dataQuality (f x) = User.dataQuality x) ->
  (forall x, User.created (f x) = User.created x) ->
  forall u, User.preSave (f u) = f (User.preSave u).
Proof.
  intros Hid Hem Hpw Hv Hrt Hll Hoc Hos Hpc Hsi Hsec Hdq Hcr u.
  destruct (preSave_account u) as (A1 & A2 & A3 & A4).
  symmetry. apply (preSave_ext (f u) u).
  - intros sectionName. apply Hsec.
  - rewrite !Hid. apply preSave_id.
  - rewrite !Hem. exact A1.
  - apply Hpw, preSave_password.
  - rewrite !Hv. exact A2.
  - apply Hrt, preSave_refreshTokens.
  - apply Hll. exact A3.
  - rewrite !Hsi. apply preSave_sessionInfo.
  - rewrite !Hcr. exact A4.
  - intros sectionName. rewrite !Hsec. apply preSave_section.
  - rewrite !Hdq. apply preSave_hasPreferences.
  - apply Hdq.
  - apply Hpc.
  - rewrite !Hoc. apply preSave_onboardingCompleted.
  - rewrite !Hos, !Hoc. apply preSave_onboardingStep.
  - rewrite Hdq. reflexivity.
Qed.

Lemma preSave_set_refreshTokens l (u : User.t) :
  User.preSave (User.set_refreshTokens l u) =
  User.set_refreshTokens l (User.preSave u).
Proof.
  apply (preSave_commute (User.set_refreshTokens l));
    first [ intros x []; reflexivity
          | intros x y H; exact H
          | intros; reflexivity ].
Qed.

Lemma preSave_set_lastLoginAt v (u : User.t) :
  User.preSave (User.set_lastLoginAt v u) =
  User.set_lastLoginAt v (User.preSave u).
Proof.
  apply (preSave_commute (User.set_lastLoginAt v));
    first [ intros x []; reflexivity
          | intros x y H; exact H
          | intros; reflexivity ].
Qed.

Lemma preSave_set_password v (u : User.t) :
  User.preSave (User.set_password v u) =
  User.set_password v (User.preSave u).
Proof.
  apply (preSave_commute (User.set_password v));
    first [ intros x []; reflexivity
          | intros x y H; exact H
          | intros; reflexivity ].
Qed.

(** X8.  The completeness hook is idempotent, and it commutes with
    assignments to [refreshTokens], [lastLoginAt] and [password]: a
    second save, or a save after a change to these fields only,
    recomputes nothing. *)
Theorem preSave_idempotent (u : User.t) :
  User.preSave (User.preSave u) = User.preSave u /\
  (forall l, User.preSave (User.set_refreshTokens l u) =
             User.set_refreshTokens l (User.preSave u)) /\
  (forall v, User.preSave (User.set_lastLoginAt v u) =
             User.set_lastLoginAt v (User.preSave u)) /\
  (forall v, User.preSave (User.set_password v u) =
             User.set_password v (User.preSave u)).
Proof.
  split; [apply preSave_preSave|]. split; [|split].
  - intros l. apply preSave_set_refreshTokens.
  - intros v. apply preSave_set_lastLoginAt.
  - intros v. apply preSave_set_password.
Qed.

Lemma settled_set_refreshTokens l u :
  User.preSave u = u -> settled u ->
  User.preSave (User.set_refreshTokens l u) = User.set_refreshTokens l u /\
  settled (User.set_refreshTokens l u).
Proof.
  intros Hfix Hs. rewrite preSave_set_refreshTokens, Hfix. split; [reflexivity|].
  exact Hs.
Qed.

Lemma settled_create id email password now :
  settled (User.create id email password now).
Proof.
  unfold settled, completed_at_six. cbn. split; [discriminate|]. split; [lia|reflexivity].
Qed.

Lemma settled_update now sectionName data u :
  settled u -> settled (User.updateOnboardingSection now sectionName data u).
Proof.
  intros (H6 & Hstep & Hp). unfold settled, completed_at_six.
  rewrite update_onboardingStep.
  destruct (update_untouched now sectionName data u)
    as (_ & _ & _ & _ & _ & _ & Hc & _ & _ & Hdq & _).
  cbn zeta in Hc, Hdq. rewrite Hc, Hdq.
  pose proof (stepMapping_range sectionName).
  split; [intros Ht; specialize (H6 Ht); lia|]. split; [lia|exact Hp].
Qed.

Lemma sound_preSave v : settled v -> sound (User.preSave v).
Proof. intros H. unfold sound. exact (preSave_settled v H). Qed.

Lemma sound_set_refreshTokens l u : sound u -> sound (User.set_refreshTokens l u).
Proof.
  intros (Hfix & Hs). unfold sound. exact (settled_set_refreshTokens l u Hfix Hs).
Qed.

Lemma settled_completion info u :
  settled u ->
  settled (User.set_sessionInfo info
             (User.set_onboardingStep 6 (User.set_onboardingCompleted true u))).
Proof.
  intros (_ & _ & Hp). unfold settled, completed_at_six.
  cbn [User.onboardingCompleted User.onboardingStep User.dataQuality
       User.set_sessionInfo User.set_onboardingStep User.set_onboardingCompleted].
  split; [reflexivity|]. split; [lia|exact Hp].
Qed.

(** What a save that goes through has checked and written. *)
Lemma save_inversion bcrypt_hash salt modified v w :
  save bcrypt_hash salt modified v = inr w ->
  User.validate v = [] /\
  w = User.preSave (User.hashPassword bcrypt_hash salt modified v).
Proof.
  unfold save. destruct (User.validate v); [|discriminate].
  intros [= <-]. split; reflexivity.
Qed.

Lemma save_accepted bcrypt_hash salt modified v :
  User.validate v = [] ->
  save bcrypt_hash salt modified v =
  inr (User.preSave (User.hashPassword bcrypt_hash salt modified v)).
Proof. intros H. unfold save. rewrite H. reflexivity. Qed.

Lemma save_rejected bcrypt_hash salt modified v :
  User.validate v <> [] ->
  exists failed, save bcrypt_hash salt modified v = inl failed.
Proof.
  intros H. unfold save. destruct (User.validate v); [contradiction|eauto].
Qed.

Lemma save_unmodified_inversion v w :
  save_unmodified v = inr w -> User.validate v = [] /\ w = User.preSave v.
Proof.
  unfold save_unmodified. destruct (User.validate v); [|discriminate].
  intros [= <-]. split; reflexivity.
Qed.

Lemma validate_accepts (u : User.t) :
  User.validate u = [] <->
  User.valid_email (User.email u) = true /\
  User.valid_password (User.password u) = true.
Proof.
  unfold User.validate.
  destruct (User.valid_email (User.email u)), (User.valid_password (User.password u));
    cbn; split; first [intros [? ?] | intros ?]; first [discriminate | auto].
Qed.

Lemma valid_password_length (password : string) :
  User.valid_password password = true <-> (8 <= String.length password)%nat.
Proof.
  unfold User.valid_password. rewrite andb_true_iff, Nat.leb_le. split.
  - intros [_ H]. exact H.
  - intros H. split; [|exact H]. destruct password; [cbn in H; lia|reflexivity].
Qed.

Lemma save_settled bcrypt_hash salt modified v w :
  settled v -> save bcrypt_hash salt modified v = inr w -> sound w.
Proof.
  intros H Hsave. apply save_inversion in Hsave. destruct Hsave as (_ & ->).
  apply sound_preSave. unfold User.hashPassword.
  destruct (negb modified); exact H.
Qed.

Lemma settled_fields (u v : User.t) :
  User.onboardingCompleted v = User.onboardingCompleted u ->
  User.onboardingStep v = User.onboardingStep u ->
  User.dataQuality v = User.dataQuality u ->
  settled u -> settled v.
Proof.
  unfold settled, completed_at_six. intros -> -> ->. exact (fun H => H).
Qed.

Lemma settled_set_lastLoginAt v u :
  settled u -> settled (User.set_lastLoginAt v u).
Proof. apply settled_fields; reflexivity. Qed.

Lemma settled_set_tokens l u :
  settled u -> settled (User.set_refreshTokens l u).
Proof. apply settled_fields; reflexivity. Qed.

Lemma settled_set_password v u :
  settled u -> settled (User.set_password v u).
Proof. apply settled_fields; reflexivity. Qed.

Lemma request_sound u u' : request u u' -> sound u -> sound u'.
Proof.
  intros Hreq IH. pose proof IH as (_ & Hs).
  destruct Hreq as [u u' Hupd | u now | u now | rt u password now uuid1 uuid2].
  - destruct Hupd as [sectionName key message errors req_body now u].
    unfold onboardingController.updateSection.
    destruct (negb (bool_decide (errors = []))); [exact IH|].
    rewrite stored_after_save. apply sound_preSave, settled_update, Hs.
  - unfold onboardingController.completeOnboarding.
    destruct (0 <? _)%nat; [exact IH|].
    rewrite stored_after_save. apply sound_preSave, settled_completion, Hs.
  - unfold onboardingController.skipOnboarding.
    rewrite stored_after_save. apply sound_preSave, settled_completion, Hs.
  - unfold authController.login.
    destruct (negb _); [exact IH|].
    destruct (auth.generateToken _ _ _ _); [exact IH|].
    destruct (auth.generateRefreshToken _ _ _ _); [exact IH|].
    rewrite stored_after_save.
    apply sound_preSave, settled_set_lastLoginAt, settled_set_tokens, Hs.
Qed.

Lemma transition_sound u u' : transition u u' -> sound u -> sound u'.
Proof.
  intros Ht IH. pose proof IH as (_ & Hs).
  destruct Ht as [u u' Hreq
                 | rt bcrypt_hash u id email password now salt uuid1 uuid2
                 | rt bcrypt_hash u id email password now salt uuid
                 | rt u password now uuid
                 | rt u body_refreshToken findById now uuid
                 | u body_refreshToken
                 | u
                 | rt bcrypt_hash u currentPassword newPassword salt].
  - exact (request_sound u u' Hreq IH).
  - exact IH.
  - exact IH.
  - unfold authController.signin. cbv zeta.
    destruct (negb _); [exact IH|].
    destruct (auth.generateToken _ _ _ _); [exact IH|].
    destruct (save_unmodified _) as [failed|w] eqn:Hsave; [exact IH|].
    apply save_unmodified_inversion in Hsave. destruct Hsave as (_ & ->).
    apply sound_preSave, settled_set_lastLoginAt, Hs.
  - unfold stored_after. rewrite refreshToken_saves_nothing. exact IH.
  - unfold authController.logout, stored_after. cbn [saved].
    destruct body_refreshToken as [[[|c text]|alg claims signature]|];
      first [exact IH | apply sound_set_refreshTokens, IH].
  - apply (sound_set_refreshTokens [] u IH).
  - unfold authController.changePassword.
    destruct (negb (User.comparePassword _ _ _)); [exact IH|].
    cbv zeta.
    destruct (save bcrypt_hash salt _ (User.set_password newPassword u))
      as [failed|user1] eqn:Hsave1; [exact IH|].
    pose proof (save_settled _ _ _ _ _ (settled_set_password newPassword u Hs)
                  Hsave1) as Huser1.
    destruct (save bcrypt_hash salt false (User.set_refreshTokens [] user1))
      as [failed|user2] eqn:Hsave2; [exact Huser1|].
    destruct Huser1 as (_ & Hs1).
    exact (save_settled _ _ _ _ _ (settled_set_tokens [] user1 Hs1) Hsave2).
Qed.

Lemma register_sound rt bcrypt_hash id email password now salt uuid1 uuid2 u :
  saved (authController.register rt bcrypt_hash None id email password now
           salt uuid1 uuid2) = Some u ->
  sound u.
Proof.
  unfold authController.register. cbv zeta.
  destruct (save bcrypt_hash salt true (User.create id email password now))
    as [failed|user] eqn:Hsave; [discriminate|].
  pose proof (save_settled _ _ _ _ _ (settled_create id email password now) Hsave)
    as Huser.
  clear Hsave.
  destruct (auth.generateToken rt (User._id user) now uuid1) as [e|a].
  { destruct (auth.generateRefreshToken rt (User._id user) now uuid2);
      cbn [saved reply_after]; intros [= <-]; exact Huser. }
  destruct (auth.generateRefreshToken rt (User._id user) now uuid2) as [e|r].
  { cbn [saved reply_after]. intros [= <-]. exact Huser. }
  destruct (save bcrypt_hash salt false (User.set_refreshTokens _ user))
    as [failed|user2] eqn:Hsave2.
  { cbn [saved reply_after]. intros [= <-]. exact Huser. }
  destruct Huser as (_ & Hs).
  pose proof (save_settled _ _ _ _ _ (settled_set_tokens _ user Hs) Hsave2)
    as Huser2.
  clear Hsave2.
  destruct (save bcrypt_hash salt false (User.set_lastLoginAt (Some now) user2))
    as [failed|user3] eqn:Hsave3.
  { cbn [saved reply_after]. intros [= <-]. exact Huser2. }
  destruct Huser2 as (_ & Hs2).
  cbn [saved reply_after]. intros [= <-].
  exact (save_settled _ _ _ _ _ (settled_set_lastLoginAt _ user2 Hs2) Hsave3).
Qed.

Lemma signup_sound rt bcrypt_hash id email password now salt uuid u :
  saved (authController.signup rt bcrypt_hash None id email password now
           salt uuid) = Some u ->
  sound u.
Proof.
  unfold authController.signup. cbv zeta.
  destruct (save bcrypt_hash salt true (User.create id email password now))
    as [failed|user] eqn:Hsave; [discriminate|].
  pose proof (save_settled _ _ _ _ _ (settled_create id email password now) Hsave)
    as Huser.
  clear Hsave.
  destruct (auth.generateToken rt (User._id user) now uuid) as [e|a].
  { cbn [saved reply_after]. intros [= <-]. exact Huser. }
  destruct (save bcrypt_hash salt false (User.set_lastLoginAt (Some now) user))
    as [failed|user2] eqn:Hsave2.
  { cbn [saved reply_after]. intros [= <-]. exact Huser. }
  destruct Huser as (_ & Hs).
  cbn [saved reply_after]. intros [= <-].
  exact (save_settled _ _ _ _ _ (settled_set_lastLoginAt _ user Hs) Hsave2).
Qed.

Lemma stored_sound u : stored u -> sound u.
Proof.
  induction 1 as [rt bcrypt_hash id email password now salt uuid1 uuid2 u H
                 |rt bcrypt_hash id email password now salt uuid u H
                 |u u' Hu IH Ht].
  - exact (register_sound _ _ _ _ _ _ _ _ _ _ H).
  - exact (signup_sound _ _ _ _ _ _ _ _ _ H).
  - exact (transition_sound u u' Ht IH).
Qed.

Lemma sound_invariants (u : User.t) :
  sound u ->
  User.preSave u = u /\
  User.profileCompleteness u = 25 * requiredCount (User.dataQuality u) /\
  User.completenessScore (User.dataQuality u) =
    (pretty (User.profileCompleteness u) ++ "%")%string /\
  User.hasBasicInfo (User.dataQuality u) =
    hasRequiredFields User.BasicInfo (User.basicInfo u) /\
  User.hasLifestyle (User.dataQuality u) =
    hasRequiredFields User.Lifestyle (User.lifestyle u) /\
  User.hasMedicalHistory (User.dataQuality u) =
    hasRequiredFields User.MedicalHistory (User.medicalHistory u) /\
  User.hasGoals (User.dataQuality u) =
    hasRequiredFields User.Goals (User.goals u) /\
  User.hasPreferences (User.dataQuality u) = false /\
  (User.profileCompleteness u = 100 -> User.onboardingCompleted u = true) /\
  (User.onboardingCompleted u = true -> User.onboardingStep u = 6) /\
  0 <= User.onboardingStep u <= 6.
Proof.
  intros (Hfix & H6 & Hstep & Hp).
  pose proof (preSave_profileCompleteness u) as Hpc.
  pose proof (preSave_completenessScore u) as Hcs.
  pose proof (preSave_hasBasicInfo u) as H1.
  pose proof (preSave_hasLifestyle u) as H2.
  pose proof (preSave_hasMedicalHistory u) as H3.
  pose proof (preSave_hasGoals u) as H4.
  pose proof (preSave_completed_when_full u) as Hfull.
  rewrite Hfix in Hpc, Hcs, H1, H2, H3, H4, Hfull.
  split; [exact Hfix|]. split; [exact Hpc|]. split; [exact Hcs|].
  split; [exact H1|]. split; [exact H2|]. split; [exact H3|].
  split; [exact H4|]. split; [exact Hp|]. split; [exact Hfull|].
  split; [exact H6|exact Hstep].
Qed.

Lemma account_stored : stored Sample.account.
Proof.
  apply (stored_signup Sample.hashing Sample.bcrypt_hash "64b7f3c2a1d4e5f6a7b8c9d0" "ann@example.com"
           "Passw0rd!" 0 "salt" "jti-0").
  vm_compute. reflexivity.
Qed.

Lemma stored_run (u u' : User.t) :
  stored u -> rtc section_update u u' -> stored u'.
Proof.
  intros Hu Hrun. induction Hrun as [u|u v w Hstep _ IH]; [exact Hu|].
  apply IH. apply (stored_transition u v Hu).
  apply transition_request, request_update, Hstep.
Qed.

Lemma completedAccount_stored : stored Sample.completedAccount.
Proof.
  apply (stored_run Sample.account); [exact account_stored|].
  apply applyUpdates_run.
Qed.

(** X9.  Invariants of the store.  A document that [register] or
    [signup] has stored and that any sequence of requests (section
    updates, completion, skip, login, signin, refresh, logout, logout
    from all devices, password change) has changed is a fixed point of
    the completeness hook: [profileCompleteness] is 25 times the number
    of required flags set and [completenessScore] its text, each
    required flag says whether the section's required fields are
    present, [hasPreferences] is false, a complete profile is marked
    completed, a completed one is at step 6, and the step is between 0
    and 6. *)
Theorem stored_document_invariants (u : User.t) :
  stored u ->
  User.preSave u = u /\
  User.profileCompleteness u = 25 * requiredCount (User.dataQuality u) /\
  User.completenessScore (User.dataQuality u) =
    (pretty (User.profileCompleteness u) ++ "%")%string /\
  User.hasBasicInfo (User.dataQuality u) =
    hasRequiredFields User.BasicInfo (User.basicInfo u) /\
  User.hasLifestyle (User.dataQuality u) =
    hasRequiredFields User.Lifestyle (User.lifestyle u) /\
  User.hasMedicalHistory (User.dataQuality u) =
    hasRequiredFields User.MedicalHistory (User.medicalHistory u) /\
  User.hasGoals (User.dataQuality u) =
    hasRequiredFields User.Goals (User.goals u) /\
  User.hasPreferences (User.dataQuality u) = false /\
  (User.profileCompleteness u = 100 -> User.onboardingCompleted u = true) /\
  (User.onboardingCompleted u = true -> User.onboardingStep u = 6) /\
  0 <= User.onboardingStep u <= 6.
Proof. intros H. exact (sound_invariants u (stored_sound u H)). Qed.

Lemma stored_document_invariants_witness :
  stored Sample.account /\
  User.preSave Sample.account = Sample.account /\
  User.profileCompleteness Sample.account = 0.
Proof.
  split; [exact account_stored|].
  destruct (stored_document_invariants Sample.account account_stored)
    as (Hfix & Hpc & _).
  split; [exact Hfix|]. rewrite Hpc. vm_compute. reflexivity.
Defined.

Lemma inSchemaForm_lookup sectionName (data : JS.bag) key v :
  inSchemaForm sectionName data = true ->
  data !! key = Some v -> JS.notNullish v = true ->
  exists ty, User.schemaPath sectionName key = Some ty /\ keptAsIs ty v = true.
Proof.
  unfold inSchemaForm. rewrite forallb_forall. intros Hall Hkey Hv.
  specialize (Hall (key, v)). cbn [fst snd] in Hall.
  rewrite Hv in Hall. cbn [negb orb] in Hall.
  destruct (User.schemaPath sectionName key) as [ty|].
  - exists ty. split; [reflexivity|]. apply Hall.
    apply list_elem_of_In, elem_of_map_to_list, Hkey.
  - discriminate Hall. apply list_elem_of_In, elem_of_map_to_list, Hkey.
Qed.



(** X11.  [cleanExpiredTokens] keeps exactly the entries younger than
    seven days, it never changes what [isValidRefreshToken] answers at
    that time or later, and cleaning twice is cleaning once. *)
Theorem cleanExpiredTokens_keeps_valid (now now' : Z) (u : User.t)
    (tok : jsonwebtoken.token) :
  now <= now' ->
  User.isValidRefreshToken now' (User.cleanExpiredTokens now u) tok =
    User.isValidRefreshToken now' u tok /\
  (forall entry, In entry (User.refreshTokens (User.cleanExpiredTokens now u)) <->
     In entry (User.refreshTokens u) /\ now < User.createdAt entry + 604800000) /\
  User.cleanExpiredTokens now (User.cleanExpiredTokens now u) =
    User.cleanExpiredTokens now u.
Proof.
  intros Hle. unfold User.isValidRefreshToken, User.cleanExpiredTokens.
  cbn [User.refreshTokens User.set_refreshTokens].
  split; [|split].
  - induction (User.refreshTokens u) as [|entry l IH]; [reflexivity|].
    cbn [List.filter existsb].
    destruct (now <? User.createdAt entry + 604800000) eqn:Hfresh.
    + cbn [existsb]. rewrite IH. reflexivity.
    + rewrite IH. apply Z.ltb_ge in Hfresh.
      replace (now' <? User.createdAt entry + 604800000) with false
        by (symmetry; apply Z.ltb_ge; lia).
      rewrite andb_false_r. reflexivity.
  - intros entry. rewrite filter_In, Z.ltb_lt. reflexivity.
  - assert (forall l : list User.RefreshToken,
              List.filter (fun tokenObj => now <? User.createdAt tokenObj + 604800000)
                (List.filter
                   (fun tokenObj => now <? User.createdAt tokenObj + 604800000) l) =
              List.filter (fun tokenObj => now <? User.createdAt tokenObj + 604800000) l)
      as Hidem.
    { induction l as [|entry l IH]; [reflexivity|]. cbn [List.filter].
      destruct (now <? User.createdAt entry + 604800000) eqn:Hfresh; [|exact IH].
      cbn [List.filter]. rewrite Hfresh, IH. reflexivity. }
    rewrite Hidem. reflexivity.
Qed.

Lemma cleanExpiredTokens_keeps_valid_witness :
  7 * Sample.day <= 8 * Sample.day /\
  User.isValidRefreshToken (8 * Sample.day)
    (User.cleanExpiredTokens (7 * Sample.day) Sample.withToken)
    Sample.refreshTok =
  User.isValidRefreshToken (8 * Sample.day) Sample.withToken Sample.refreshTok.
Proof.
  assert (7 * Sample.day <= 8 * Sample.day) as Hle
    by (unfold Sample.day; lia).
  split; [exact Hle|].
  exact (proj1 (cleanExpiredTokens_keeps_valid (7 * Sample.day) (8 * Sample.day)
                  Sample.withToken Sample.refreshTok Hle)).
Defined.

End Store.

(** ** Refresh tokens: issue, use and revocation *)

Section RefreshFlow.
Import jsonwebtoken.

Lemma verify_signed_options rt p (audience_ issuer_ : string) algs clock :
  JWT_SECRET rt <> "" -> nbf p = None ->
  "HS256" ∈ default HS_ALGS algs -> audience_ <> "" -> issuer_ <> "" ->
  verify (Compact "HS256" p (Some (jws_sign "HS256" (JWT_SECRET rt) p)))
    (JWT_SECRET rt)
    {| issuer := Some issuer_; audience := Some audience_; algorithms := algs |}
    clock =
  if match exp p with
     | Some e => bool_decide (e <= clock / 1000)
     | None => false
     end
  then inl (TokenExpiredError "jwt expired" (default 0 (exp p) * 1000))
  else if negb (bool_decide (audience_ ∈ aud p))
  then inl (JsonWebTokenError ("jwt audience invalid. expected: " ++ audience_))
  else if negb (bool_decide (iss p = Some issuer_))
  then inl (JsonWebTokenError ("jwt issuer invalid. expected: " ++ issuer_))
  else inr p.
Proof.
  intros Hs Hnbf Halg Ha Hi.
  assert (is_set (JWT_SECRET rt) = true) as Hset
    by (apply negb_true_iff, String.eqb_neq, Hs).
  assert (is_set audience_ = true) as Hseta
    by (apply negb_true_iff, String.eqb_neq, Ha).
  assert (is_set issuer_ = true) as Hseti
    by (apply negb_true_iff, String.eqb_neq, Hi).
  unfold verify. cbn [algorithms audience issuer].
  rewrite (bool_decide_eq_true_2 (is_Some (Some _))) by eauto.
  rewrite Hset. cbn [negb andb].
  rewrite (bool_decide_eq_true_2 _ Halg).
  cbn [negb]. change (String.prefix "RS" "HS256") with false.
  change (String.prefix "PS" "HS256") with false.
  change (String.prefix "ES" "HS256") with false. cbn [orb].
  unfold jws_verify, jws_sign.
  rewrite bool_decide_eq_true_2 by reflexivity. cbn [negb].
  rewrite Hnbf, Hseta, Hseti. cbn [andb default]. reflexivity.
Qed.

Lemma refreshToken_issued rt k uid issuedAt span uuid findById later uuid' :
  JWT_SECRET rt <> "" ->
  let p := issuedClaims rt k uid issuedAt span uuid in
  let r := Compact "HS256" p (Some (jws_sign "HS256" (JWT_SECRET rt) p)) in
  authController.refreshToken rt (Some r) findById later uuid' =
  if bool_decide (issuedAt / 1000 + span / 1000 <= later / 1000)
  then reply 401 (body pleaseLoginAgain)
  else if negb (bool_decide
                  (JS.or_default (JWT_AUDIENCE rt) "fitness-app-users" =
                   "fitness-app-users"))
  then reply 401 (body pleaseLoginAgain)
  else if negb (bool_decide
                  (JS.or_default (JWT_ISSUER rt) "fitness-app" = "fitness-app"))
  then reply 401 (body pleaseLoginAgain)
  else if negb (bool_decide (k = Refresh))
  then reply 401 (JObj [("error", JStr "Invalid Token Type");
                        ("message", JStr "Please provide a valid refresh token")])
  else
    match findById uid with
    | inl error => authController.refreshToken_catch error
    | inr None =>
        reply 401 (JObj [("error", JStr "Invalid Token");
                         ("message", JStr "User no longer exists")])
    | inr (Some user) =>
        if negb (existsb (fun tokenObj => bool_decide (User.token tokenObj = r))
                   (User.refreshTokens user))
        then reply 401
               (JObj [("error", JStr "Invalid Refresh Token");
                      ("message",
                       JStr "Refresh token is not valid or has been revoked")])
        else
          match auth.generateToken rt (User._id user) later uuid' with
          | inl error =>
              authController.refreshToken_catch (errorHandler.thrown error)
          | inr newAccessToken =>
              reply 200
                (JObj [("message", JStr "Token refreshed successfully");
                       ("tokens",
                        JObj [("accessToken", JTok newAccessToken);
                              ("expiresIn",
                               JStr (JS.or_default (JWT_EXPIRES_IN rt) "7d"))])])
          end
    end.
Proof.
  intros Hs p r. unfold authController.refreshToken. subst r.
  unfold authController.refreshVerifyOptions.
  rewrite (verify_signed_options rt p "fitness-app-users" "fitness-app" None later
             Hs eq_refl ltac:(apply list_elem_of_here) ltac:(discriminate)
             ltac:(discriminate)).
  cbn [exp p issuedClaims aud iss default].
  destruct (bool_decide (issuedAt / 1000 + span / 1000 <= later / 1000));
    [reflexivity|].
  rewrite (bool_decide_ext ("fitness-app-users" ∈
             [JS.or_default (JWT_AUDIENCE rt) "fitness-app-users"])
            (JS.or_default (JWT_AUDIENCE rt) "fitness-app-users" =
             "fitness-app-users"))
    by (rewrite list_elem_of_singleton; split; intros Heq; symmetry; exact Heq).
  destruct (bool_decide (JS.or_default (JWT_AUDIENCE rt) "fitness-app-users" =
                         "fitness-app-users")); cbn [negb]; [|reflexivity].
  rewrite (bool_decide_ext (Some (JS.or_default (JWT_ISSUER rt) "fitness-app") =
                            Some "fitness-app")
            (JS.or_default (JWT_ISSUER rt) "fitness-app" = "fitness-app"))
    by (split; [intros [= ->]; reflexivity | intros ->; reflexivity]).
  destruct (bool_decide (JS.or_default (JWT_ISSUER rt) "fitness-app" =
                         "fitness-app")); cbn [negb]; [|reflexivity].
  cbn [type userId]. destruct k; cbn [kindName]; reflexivity.
Qed.

Lemma slice_last_keeps_last {A} (n : nat) (l : list A) (x : A) :
  (1 <= n)%nat -> In x (JS.slice_last n (l ++ [x])).
Proof.
  intros Hn. unfold JS.slice_last. rewrite length_app. cbn [length].
  rewrite drop_app_le by lia. apply in_or_app. right. left. reflexivity.
Qed.

Lemma login_stores_token rt u password now uuid1 uuid2 :
  let o := authController.login rt (Some u) password now uuid1 uuid2 in
  status (response o) = 200 ->
  exists r,
    issuedRefreshToken (response o) = Some r /\
    generate Refresh rt (User._id u) None now uuid2 = inr r /\
    User._id (stored_after u o) = User._id u /\
    In r (List.map User.token (User.refreshTokens (stored_after u o))).
Proof.
  intros o H. destruct (login_inversion rt u password now uuid1 uuid2 H)
    as (a & r & _ & _ & Hr & _ & Hir & _ & Hst).
  exists r. split; [exact Hir|]. split; [exact Hr|].
  fold o in Hst. rewrite Hst, preSave_id, preSave_refreshTokens. split; [reflexivity|].
  cbn [User.refreshTokens User.set_lastLoginAt User.set_refreshTokens].
  apply in_map_iff. eexists. split; [|apply slice_last_keeps_last; lia].
  reflexivity.
Qed.

(** X12.  Login, then refresh.  With the default issuer and audience,
    the refresh token a successful [login] hands out is accepted by the
    refresh handler for the stored user until the token's expiry second
    (the handler answers 200 with a new access token for the same user),
    and is answered 401 "Please login again" from then on. *)
Theorem login_then_refresh (rt : Runtime) (u : User.t) (password : string)
    (now : Z) (uuid1 uuid2 : string)
    (findById : string -> errorHandler.error + option User.t)
    (later : Z) (uuid3 : string) :
  let o := authController.login rt (Some u) password now uuid1 uuid2 in
  status (response o) = 200 ->
  findById (User._id u) = inr (Some (stored_after u o)) ->
  JS.or_default (JWT_ISSUER rt) "fitness-app" = "fitness-app" ->
  JS.or_default (JWT_AUDIENCE rt) "fitness-app-users" = "fitness-app-users" ->
  exists r span,
    issuedRefreshToken (response o) = Some r /\
    ms rt (JS.or_default (JWT_REFRESH_EXPIRES_IN rt) "7d") = Some span /\
    (later / 1000 < now / 1000 + span / 1000 ->
     exists a,
       generate Access rt (User._id u) None later uuid3 = inr a /\
       response (authController.refreshToken rt (Some r) findById later uuid3) =
       {| status := 200;
          body :=
            JObj [("message", JStr "Token refreshed successfully");
                  ("tokens",
                   JObj [("accessToken", JTok a);
                         ("expiresIn",
                          JStr (JS.or_default (JWT_EXPIRES_IN rt) "7d"))])] |}) /\
    (now / 1000 + span / 1000 <= later / 1000 ->
     response (authController.refreshToken rt (Some r) findById later uuid3) =
     pleaseLoginAgain).
Proof.
  intros o H Hfind Hiss Haud.
  destruct (login_inversion rt u password now uuid1 uuid2 H)
    as (a0 & r0 & _ & Ha0 & _).
  destruct (login_stores_token rt u password now uuid1 uuid2 H)
    as (r & Hir & Hr & Hid & Hin).
  fold o in Hid, Hin.
  apply generate_inversion in Hr. destruct Hr as (span & Hms & Hs & ->).
  eexists _, span. split; [exact Hir|]. split; [exact Hms|].
  rewrite (refreshToken_issued rt Refresh (User._id u) now span uuid2 findById
             later uuid3 Hs).
  rewrite Hfind, Hiss, Haud.
  rewrite !(bool_decide_eq_true_2 (_ = _)) by reflexivity. cbn [negb].
  apply token_stored in Hin. rewrite Hin. cbn [negb]. rewrite Hid.
  split.
  - intros Hlt. rewrite bool_decide_eq_false_2 by lia.
    apply (generate_inversion rt Access) in Ha0.
    destruct Ha0 as (spanA & HmsA & _ & _).
    pose proof (generate_succeeds rt Access (User._id u) None later uuid3 spanA
                  Hs HmsA) as Hgen.
    eexists. split; [exact Hgen|].
    unfold auth.generateToken. cbn [generate] in Hgen. rewrite Hgen. reflexivity.
  - intros Hge. rewrite bool_decide_eq_true_2 by lia. reflexivity.
Qed.

Lemma login_then_refresh_witness :
  status (response (authController.login Sample.rt (Some Sample.fresh) "Passw0rd!" 0
                      "jti-a" "jti-b")) = 200 /\
  exists r,
    issuedRefreshToken
      (response (authController.login Sample.rt (Some Sample.fresh) "Passw0rd!" 0
                   "jti-a" "jti-b")) = Some r /\
    status
      (response
         (authController.refreshToken Sample.rt (Some r)
            (Sample.store
               [stored_after Sample.fresh
                  (authController.login Sample.rt (Some Sample.fresh) "Passw0rd!"
                     0 "jti-a" "jti-b")])
            Sample.day "jti-c")) = 200.
Proof.
  assert (status (response (authController.login Sample.rt (Some Sample.fresh)
                              "Passw0rd!" 0 "jti-a" "jti-b")) = 200) as H200
    by (vm_compute; reflexivity).
  split; [exact H200|].
  destruct (login_then_refresh Sample.rt Sample.fresh "Passw0rd!" 0 "jti-a" "jti-b"
              (Sample.store
                 [stored_after Sample.fresh
                    (authController.login Sample.rt (Some Sample.fresh)
                       "Passw0rd!" 0 "jti-a" "jti-b")])
              Sample.day "jti-c" H200 ltac:(vm_compute; reflexivity) eq_refl
              eq_refl)
    as (r & span & Hir & Hms & Hok & _).
  exists r. split; [exact Hir|].
  vm_compute in Hms. injection Hms as <-.
  destruct (Hok ltac:(vm_compute; reflexivity)) as (a & _ & Hresponse).
  rewrite Hresponse. reflexivity.
Defined.

(** X13.  The refresh handler verifies against the literal issuer
    ['fitness-app'] and audience ['fitness-app-users'], while tokens are
    signed with [JWT_ISSUER] and [JWT_AUDIENCE]: once either variable is
    set to another value, every refresh token the service issues is
    answered 401 "Please login again", at any time and whatever the
    store holds. *)
Theorem refresh_rejects_configured_issuer (rt : Runtime) (uid : string)
    (options_expiresIn : option string) (issuedAt : Z) (uuid : string)
    (r : token) (findById : string -> errorHandler.error + option User.t)
    (later : Z) (uuid' : string) :
  generate Refresh rt uid options_expiresIn issuedAt uuid = inr r ->
  JS.or_default (JWT_ISSUER rt) "fitness-app" <> "fitness-app" \/
  JS.or_default (JWT_AUDIENCE rt) "fitness-app-users" <> "fitness-app-users" ->
  authController.refreshToken rt (Some r) findById later uuid' =
  reply 401 (body pleaseLoginAgain).
Proof.
  intros Hr Hcfg. apply generate_inversion in Hr.
  destruct Hr as (span & Hms & Hs & ->).
  rewrite (refreshToken_issued rt Refresh uid issuedAt span uuid findById later
             uuid' Hs).
  destruct (bool_decide (issuedAt / 1000 + span / 1000 <= later / 1000));
    [reflexivity|].
  destruct (bool_decide (JS.or_default (JWT_AUDIENCE rt) "fitness-app-users" =
                         "fitness-app-users")) eqn:Ha; cbn [negb]; [|reflexivity].
  destruct (bool_decide (JS.or_default (JWT_ISSUER rt) "fitness-app" =
                         "fitness-app")) eqn:Hi; cbn [negb]; [|reflexivity].
  apply bool_decide_eq_true in Ha, Hi. tauto.
Qed.

Lemma refresh_rejects_configured_issuer_witness :
  generate Refresh Sample.ownIssuer "64b7f3c2a1d4e5f6a7b8c9d0" None 0 "jti-1" = inr Sample.ownIssuerTok /\
  (exists p,
     jwt.verifyToken Sample.ownIssuer Sample.ownIssuerTok "refresh" Sample.day
     = inr p) /\
  response
    (authController.refreshToken Sample.ownIssuer (Some Sample.ownIssuerTok)
       (Sample.store [Sample.withToken]) Sample.day "jti-c") = pleaseLoginAgain.
Proof.
  split; [reflexivity|]. split; [eexists; vm_compute; reflexivity|].
  rewrite (refresh_rejects_configured_issuer Sample.ownIssuer "64b7f3c2a1d4e5f6a7b8c9d0" None 0 "jti-1"
             Sample.ownIssuerTok (Sample.store [Sample.withToken]) Sample.day
             "jti-c" ltac:(vm_compute; reflexivity)
             ltac:(left; vm_compute; discriminate)).
  reflexivity.
Defined.

(** X14.  The refresh handler never accepts an access token: for an
    access token the service issued it stores nothing and answers 401,
    "Invalid Token Type" or "Please login again". *)
Theorem refresh_refuses_access_token (rt : Runtime) (uid : string)
    (options_expiresIn : option string) (issuedAt : Z) (uuid : string)
    (a : token) (findById : string -> errorHandler.error + option User.t)
    (later : Z) (uuid' : string) :
  generate Access rt uid options_expiresIn issuedAt uuid = inr a ->
  let out := authController.refreshToken rt (Some a) findById later uuid' in
  saved out = None /\
  (response out = pleaseLoginAgain \/
   response out =
     {| status := 401;
        body := JObj [("error", JStr "Invalid Token Type");
                      ("message", JStr "Please provide a valid refresh token")] |}).
Proof.
  intros Ha out. subst out. apply generate_inversion in Ha.
  destruct Ha as (span & Hms & Hs & ->).
  rewrite (refreshToken_issued rt Access uid issuedAt span uuid findById later
             uuid' Hs).
  rewrite (bool_decide_eq_false_2 (Access = Refresh)) by discriminate.
  cbn [negb].
  repeat match goal with
  | |- context [if ?c then _ else _] => destruct c
  end; split; first [reflexivity | left; reflexivity | right; reflexivity].
Qed.

Lemma refresh_refuses_access_token_witness :
  generate Access Sample.rt "64b7f3c2a1d4e5f6a7b8c9d0" None 0 "jti-0" = inr Sample.accessTok /\
  saved (authController.refreshToken Sample.rt (Some Sample.accessTok)
           (Sample.store [Sample.withToken]) 1000 "jti-c") = None.
Proof.
  split; [reflexivity|].
  exact (proj1 (refresh_refuses_access_token Sample.rt "64b7f3c2a1d4e5f6a7b8c9d0" None 0 "jti-0"
                  Sample.accessTok (Sample.store [Sample.withToken]) 1000 "jti-c"
                  ltac:(vm_compute; reflexivity))).
Defined.

Lemma refreshToken_200 rt tok findById now uuid :
  status (response (authController.refreshToken rt (Some tok) findById now uuid))
    = 200 ->
  exists decoded user,
    verify tok (JWT_SECRET rt) authController.refreshVerifyOptions now = inr decoded /\
    type decoded = Some "refresh" /\
    User.findById findById (userId decoded) = inr (Some user) /\
    In tok (List.map User.token (User.refreshTokens user)).
Proof.
  unfold authController.refreshToken, authController.refreshToken_catch.
  destruct tok as [text|alg claims signature].
  { destruct text as [|c text]; [discriminate|].
    unfold verify. cbn [String.eqb]. destruct (negb _); intros H; discriminate H. }
  destruct (verify _ _ _ _) as [error|decoded] eqn:Hverify.
  { destruct (_ || _); discriminate. }
  destruct (bool_decide (type decoded = Some "refresh")) eqn:Hty;
    cbn [negb]; [|discriminate].
  destruct (User.findById findById (userId decoded)) as [error|[user|]] eqn:Hfind;
    [destruct (_ || _); discriminate| |discriminate].
  destruct (existsb _ _) eqn:Hex; cbn [negb]; [|discriminate].
  intros _. exists decoded, user. split; [reflexivity|].
  split; [apply bool_decide_eq_true in Hty; exact Hty|]. split; [exact Hfind|].
  apply token_stored, Hex.
Qed.

Lemma filter_tokens (tok : token) (l : list User.RefreshToken) (t : token) :
  In t (List.map User.token
          (List.filter (fun tokenObj => negb (bool_decide (User.token tokenObj = tok))) l))
  <-> In t (List.map User.token l) /\ t <> tok.
Proof.
  rewrite !in_map_iff. split.
  - intros (entry & <- & Hin). apply filter_In in Hin. destruct Hin as (Hin & Hne).
    apply negb_true_iff, bool_decide_eq_false in Hne. split; [eauto|exact Hne].
  - intros ((entry & <- & Hin) & Hne). exists entry. split; [reflexivity|].
    apply filter_In. split; [exact Hin|].
    apply negb_true_iff, bool_decide_eq_false, Hne.
Qed.

Lemma isValidRefreshToken_In now u tok :
  User.isValidRefreshToken now u tok = true ->
  In tok (List.map User.token (User.refreshTokens u)).
Proof.
  unfold User.isValidRefreshToken. rewrite existsb_exists.
  intros (entry & Hin & Hc). apply andb_true_iff in Hc. destruct Hc as (Ht & _).
  apply bool_decide_eq_true in Ht. apply in_map_iff. eauto.
Qed.

(** X15.  [logout] with a refresh token answers 200 and removes every
    entry holding that token, and nothing else: the other tokens stay,
    in order; the token is no longer valid for [isValidRefreshToken] and
    the refresh handler no longer answers 200 for it.  Without a token
    in the body the document is left as it is. *)
Theorem logout_revokes (u : User.t) (tok : token) :
  tok <> Garbage "" ->
  let out := authController.logout (Some tok) (Some u) in
  let u' := stored_after u out in
  status (response out) = 200 /\
  u' = User.set_refreshTokens
         (List.filter
            (fun tokenObj => negb (bool_decide (User.token tokenObj = tok)))
            (User.refreshTokens u)) u /\
  (forall t, In t (List.map User.token (User.refreshTokens u')) <->
             In t (List.map User.token (User.refreshTokens u)) /\ t <> tok) /\
  (forall now, User.isValidRefreshToken now u' tok = false) /\
  (forall rt findById now uuid,
     onlyUser u' findById ->
     status (response (authController.refreshToken rt (Some tok) findById now uuid))
       <> 200) /\
  stored_after u (authController.logout None (Some u)) = u /\
  stored_after u (authController.logout (Some (Garbage "")) (Some u)) = u.
Proof.
  intros Hne out u'.
  assert (u' = User.set_refreshTokens
                 (List.filter
                    (fun tokenObj => negb (bool_decide (User.token tokenObj = tok)))
                    (User.refreshTokens u)) u) as Hu'.
  { subst u' out. unfold authController.logout, stored_after. cbn [saved].
    destruct tok as [[|c text]|alg claims signature];
      [contradiction Hne; reflexivity|reflexivity|reflexivity]. }
  assert (forall t, In t (List.map User.token (User.refreshTokens u')) <->
                    In t (List.map User.token (User.refreshTokens u)) /\ t <> tok)
    as Hin.
  { intros t. rewrite Hu'. cbn [User.refreshTokens User.set_refreshTokens].
    apply filter_tokens. }
  split; [reflexivity|]. split; [exact Hu'|].
  split; [exact Hin|]. split; [|split; [|split; reflexivity]].
  - intros now. destruct (User.isValidRefreshToken now u' tok) eqn:Hv; [|reflexivity].
    apply isValidRefreshToken_In, Hin in Hv. destruct Hv as (_ & Hv).
    contradiction Hv; reflexivity.
  - intros rt findById now uuid Honly H200.
    apply refreshToken_200 in H200.
    destruct H200 as (decoded & user & _ & _ & Hfind & Hstored).
    destruct (userId decoded) as [id|]; [|discriminate]. cbn in Hfind.
    apply Honly in Hfind. subst user. apply Hin in Hstored.
    destruct Hstored as (_ & Hc). contradiction Hc; reflexivity.
Qed.

Lemma logout_revokes_witness :
  Sample.refreshTok <> Garbage "" /\
  User.isValidRefreshToken Sample.day
    (stored_after Sample.withToken
       (authController.logout (Some Sample.refreshTok) (Some Sample.withToken)))
    Sample.refreshTok = false.
Proof.
  assert (Sample.refreshTok <> Garbage "") as Hne
    by (vm_compute; discriminate).
  split; [exact Hne|].
  destruct (logout_revokes Sample.withToken Sample.refreshTok Hne)
    as (_ & _ & _ & Hinvalid & _).
  exact (Hinvalid Sample.day).
Defined.

End RefreshFlow.

(** ** Accounts: registration, sign-in and password change *)

Section Accounts.
Import jsonwebtoken.

Lemma preSave_create id email password now :
  User.preSave (User.create id email password now) =
  User.create id email password now.
Proof. vm_compute. reflexivity. Qed.

Lemma no_tokens_no_refresh (u : User.t) :
  User.refreshTokens u = [] ->
  (forall now tok, User.isValidRefreshToken now u tok = false) /\
  (forall rt tok findById now uuid,
     onlyUser u findById ->
     status (response (authController.refreshToken rt (Some tok) findById now uuid))
       <> 200).
Proof.
  intros Hempty. split.
  - intros now tok. unfold User.isValidRefreshToken. rewrite Hempty. reflexivity.
  - intros rt tok findById now uuid Honly H200.
    apply refreshToken_200 in H200.
    destruct H200 as (decoded & user & _ & _ & Hfind & Hstored).
    destruct (userId decoded) as [id|]; [|discriminate]. cbn in Hfind.
    apply Honly in Hfind. subst user. rewrite Hempty in Hstored. exact Hstored.
Qed.

(** X16.  [logoutAll] answers 200 and empties [refreshTokens], leaving
    the rest of the document as it is; afterwards no token is valid for
    [isValidRefreshToken] and the refresh handler answers 200 for none. *)
Theorem logoutAll_revokes_all (u : User.t) :
  let out := authController.logoutAll (Some u) in
  let u' := stored_after u out in
  status (response out) = 200 /\
  u' = User.set_refreshTokens [] u /\
  (forall now tok, User.isValidRefreshToken now u' tok = false) /\
  (forall rt tok findById now uuid,
     onlyUser u' findById ->
     status (response (authController.refreshToken rt (Some tok) findById now uuid))
       <> 200).
Proof.
  cbn zeta. split; [reflexivity|]. split; [reflexivity|].
  apply (no_tokens_no_refresh (User.set_refreshTokens [] u)). reflexivity.
Qed.

Lemma written_password bcrypt_hash salt modified u :
  User.password (User.preSave (User.hashPassword bcrypt_hash salt modified u)) =
  if modified then bcrypt_hash (User.password u) salt else User.password u.
Proof.
  rewrite preSave_password. unfold User.hashPassword.
  destruct modified; reflexivity.
Qed.

Lemma written_untouched bcrypt_hash salt modified u :
  let u' := User.preSave (User.hashPassword bcrypt_hash salt modified u) in
  User._id u' = User._id u /\ User.email u' = User.email u /\
  User.refreshTokens u' = User.refreshTokens u /\
  User.lastLoginAt u' = User.lastLoginAt u /\
  User.sessionInfo u' = User.sessionInfo u /\
  (forall sectionName, User.section u' sectionName = User.section u sectionName).
Proof.
  cbn zeta.
  rewrite preSave_id, preSave_refreshTokens, preSave_sessionInfo.
  destruct (preSave_account (User.hashPassword bcrypt_hash salt modified u))
    as (-> & _ & -> & _).
  unfold User.hashPassword. destruct modified; cbn [negb].
  - repeat (split; [reflexivity|]). intros sectionName.
    rewrite preSave_section. destruct sectionName; reflexivity.
  - repeat (split; [reflexivity|]). intros sectionName. apply preSave_section.
Qed.

Lemma saved_save_and_reply v code b :
  saved (save_and_reply v code b) = Some (User.preSave v).
Proof. reflexivity. Qed.

Lemma status_save_and_reply v code b :
  status (response (save_and_reply v code b)) = code.
Proof. reflexivity. Qed.

Lemma validate_set_password v u :
  User.validate (User.set_password v u) = [] <->
  User.valid_email (User.email u) = true /\ User.valid_password v = true.
Proof. apply validate_accepts. Qed.

Lemma validate_refused (u : User.t) :
  User.valid_email (User.email u) = false \/
  User.valid_password (User.password u) = false ->
  User.validate u <> [].
Proof.
  intros H Hnil. apply validate_accepts in Hnil. destruct Hnil as (He & Hp).
  destruct H; congruence.
Qed.

Lemma valid_password_short (password : string) :
  (String.length password < 8)%nat -> User.valid_password password = false.
Proof.
  intros H. destruct (User.valid_password password) eqn:Hv; [|reflexivity].
  apply valid_password_length in Hv. lia.
Qed.

Lemma cleared_tokens_fields (u1 : User.t) :
  let u' := User.preSave (User.set_refreshTokens [] u1) in
  User.password u' = User.password u1 /\ User.refreshTokens u' = [] /\
  User._id u' = User._id u1 /\ User.email u' = User.email u1 /\
  (forall sectionName, User.section u' sectionName = User.section u1 sectionName).
Proof.
  cbn zeta. rewrite preSave_password, preSave_refreshTokens, preSave_id.
  destruct (preSave_account (User.set_refreshTokens [] u1)) as (-> & _).
  repeat (split; [reflexivity|]). intros sectionName. rewrite preSave_section.
  destruct sectionName; reflexivity.
Qed.

(** [changePassword] once the current password has been accepted, by
    what the two saves answer. *)
Lemma changePassword_accepted rt bcrypt_hash u currentPassword newPassword salt :
  User.comparePassword rt u currentPassword = true ->
  authController.changePassword rt bcrypt_hash (Some u) currentPassword
    newPassword salt =
  let failed :=
    JObj [("error", JStr "Password Change Failed");
          ("message", JStr "An error occurred while changing password")] in
  match save bcrypt_hash salt (negb (String.eqb newPassword (User.password u)))
          (User.set_password newPassword u) with
  | inl _ => reply 500 failed
  | inr user1 =>
      match save bcrypt_hash salt false (User.set_refreshTokens [] user1) with
      | inl _ => reply_after user1 500 failed
      | inr user2 =>
          reply_after user2 200
            (JObj [("message",
                    JStr "Password changed successfully. Please login again.")])
      end
  end.
Proof.
  intros H. unfold authController.changePassword. rewrite H. reflexivity.
Qed.

(** X17.  [changePassword].  A wrong current password is answered 400
    and nothing is stored.  With the right one, a new password of fewer
    than 8 characters is answered 500 and nothing is stored, the old
    password and the refresh tokens stay: the schema's [minlength]
    rejects the save (the same holds when the stored address fails the
    schema's pattern).  Otherwise the answer is 200; the stored password
    is the hash of the new one (or the old stored value, when the new
    password is that very text, since the path is then not modified);
    all refresh tokens are dropped, so the refresh handler answers 200
    for none; identity, e-mail and profile sections are unchanged.  The
    hash is taken to pass [minlength] as well, as the sixty characters
    of a bcrypt hash do. *)
Theorem changePassword_spec (rt : Runtime)
    (bcrypt_hash : string -> string -> string) (u : User.t)
    (currentPassword newPassword salt : string) :
  let out :=
    authController.changePassword rt bcrypt_hash (Some u) currentPassword
      newPassword salt in
  (User.comparePassword rt u currentPassword = false ->
     status (response out) = 400 /\ saved out = None) /\
  (User.comparePassword rt u currentPassword = true ->
     ((String.length newPassword < 8)%nat \/
      User.valid_email (User.email u) = false ->
        status (response out) = 500 /\ saved out = None) /\
     ((8 <= String.length newPassword)%nat ->
      User.valid_email (User.email u) = true ->
      (8 <= String.length (bcrypt_hash newPassword salt))%nat ->
        status (response out) = 200 /\
        exists u',
          saved out = Some u' /\
          User.password u' =
            (if String.eqb newPassword (User.password u) then User.password u
             else bcrypt_hash newPassword salt) /\
          User.refreshTokens u' = [] /\
          User._id u' = User._id u /\ User.email u' = User.email u /\
          (forall sectionName,
             User.section u' sectionName = User.section u sectionName) /\
          (forall now tok, User.isValidRefreshToken now u' tok = false) /\
          (forall rt' tok findById now uuid,
             onlyUser u' findById ->
             status (response
                       (authController.refreshToken rt' (Some tok) findById now
                          uuid))
               <> 200))).
Proof.
  cbn zeta. split.
  - intros H. unfold authController.changePassword. rewrite H.
    split; reflexivity.
  - intros H. rewrite (changePassword_accepted _ _ _ _ _ _ H). cbv zeta. split.
    + intros Hrefused.
      destruct (save_rejected bcrypt_hash salt
                  (negb (String.eqb newPassword (User.password u)))
                  (User.set_password newPassword u)) as (failed & ->).
      { apply validate_refused. cbn [User.email User.password User.set_password].
        destruct Hrefused as [Hshort|Hemail];
          [right; apply valid_password_short, Hshort | left; exact Hemail]. }
      split; reflexivity.
    + intros Hlong Hemail Hhash.
      apply valid_password_length in Hlong, Hhash.
      rewrite save_accepted by (apply validate_set_password; auto).
      pose proof (written_password bcrypt_hash salt
                    (negb (String.eqb newPassword (User.password u)))
                    (User.set_password newPassword u)) as Hpw.
      destruct (written_untouched bcrypt_hash salt
                  (negb (String.eqb newPassword (User.password u)))
                  (User.set_password newPassword u))
        as (Hid & Hem & _ & _ & _ & Hsec).
      revert Hpw Hid Hem Hsec.
      generalize (User.preSave
                    (User.hashPassword bcrypt_hash salt
                       (negb (String.eqb newPassword (User.password u)))
                       (User.set_password newPassword u))).
      intros u1 Hpw Hid Hem Hsec.
      cbn [User.password User.set_password User._id User.email] in Hpw, Hid, Hem.
      assert (User.password u1 =
              if String.eqb newPassword (User.password u) then User.password u
              else bcrypt_hash newPassword salt) as Hpw'.
      { rewrite Hpw. destruct (String.eqb newPassword (User.password u)) eqn:Heq;
          [|reflexivity].
        apply String.eqb_eq in Heq. exact Heq. }
      rewrite save_accepted.
      2:{ apply validate_accepts.
          cbn [User.email User.password User.set_refreshTokens].
          rewrite Hem. split; [exact Hemail|]. rewrite Hpw'.
          destruct (String.eqb newPassword (User.password u)) eqn:Heq;
            [|exact Hhash].
          apply String.eqb_eq in Heq. rewrite <- Heq. exact Hlong. }
      unfold User.hashPassword. cbn [negb].
      destruct (cleared_tokens_fields u1) as (Cpw & Ctok & Cid & Cem & Csec).
      revert Cpw Ctok Cid Cem Csec.
      generalize (User.preSave (User.set_refreshTokens [] u1)).
      intros u' Cpw Ctok Cid Cem Csec.
      cbn [reply_after response status saved].
      split; [reflexivity|]. exists u'. split; [reflexivity|].
      split; [rewrite Cpw; exact Hpw'|].
      split; [exact Ctok|].
      split; [rewrite Cid; exact Hid|].
      split; [rewrite Cem; exact Hem|].
      split.
      { intros sectionName. rewrite Csec, Hsec. destruct sectionName; reflexivity. }
      apply no_tokens_no_refresh, Ctok.
Qed.

(** A six-character password, which the route's validator lets through:
    the handler answers 500 and the account keeps its password. *)
Lemma changePassword_spec_witness :
  User.comparePassword Sample.hashing Sample.account "Passw0rd!" = true /\
  (String.length "Abcde1" < 8)%nat /\
  status (response
            (authController.changePassword Sample.hashing Sample.bcrypt_hash
               (Some Sample.account) "Passw0rd!" "Abcde1" "salt")) = 500 /\
  saved (authController.changePassword Sample.hashing Sample.bcrypt_hash
           (Some Sample.account) "Passw0rd!" "Abcde1" "salt") = None.
Proof.
  assert (User.comparePassword Sample.hashing Sample.account "Passw0rd!" = true)
    as Hcurrent by (vm_compute; reflexivity).
  assert (String.length "Abcde1" < 8)%nat as Hshort by (cbn; lia).
  split; [exact Hcurrent|]. split; [exact Hshort|].
  destruct (changePassword_spec Sample.hashing Sample.bcrypt_hash Sample.account
              "Passw0rd!" "Abcde1" "salt") as (_ & Haccepted).
  destruct (Haccepted Hcurrent) as (Hrefused & _).
  exact (Hrefused (or_introl Hshort)).
Defined.

Lemma written_create bcrypt_hash salt id email password now :
  User.preSave
    (User.hashPassword bcrypt_hash salt true (User.create id email password now)) =
  User.create id email (bcrypt_hash password salt) now.
Proof.
  unfold User.hashPassword. cbn [negb].
  change (User.set_password (bcrypt_hash (User.password (User.create id email password now)) salt)
            (User.create id email password now))
    with (User.create id email (bcrypt_hash password salt) now).
  apply preSave_create.
Qed.

(** The first save of a new account: refused by the schema, or the
    account with its password hashed. *)
Lemma save_create bcrypt_hash salt id email password now :
  save bcrypt_hash salt true (User.create id email password now) =
  if User.valid_email (JS.toLowerCase (JS.trim email)) && User.valid_password password
  then inr (User.create id email (bcrypt_hash password salt) now)
  else inl ((if User.valid_email (JS.toLowerCase (JS.trim email)) then [] else ["email"]) ++
            (if User.valid_password password then [] else ["password"])).
Proof.
  unfold save. rewrite written_create. unfold User.validate.
  cbn [User.email User.password User.create].
  destruct (User.valid_email (JS.toLowerCase (JS.trim email))), (User.valid_password password); reflexivity.
Qed.

Lemma validate_created v id email password now :
  User.validate (User.set_lastLoginAt v (User.create id email password now)) =
  User.validate (User.create id email password now).
Proof. reflexivity. Qed.

Lemma save_created_login bcrypt_hash salt v id email password now :
  User.valid_email (JS.toLowerCase (JS.trim email)) = true -> User.valid_password password = true ->
  save bcrypt_hash salt false
    (User.set_lastLoginAt v (User.create id email password now)) =
  inr (User.set_lastLoginAt v (User.create id email password now)).
Proof.
  intros He Hp. rewrite save_accepted.
  - unfold User.hashPassword. cbn [negb].
    rewrite preSave_set_lastLoginAt, preSave_create. reflexivity.
  - apply validate_accepts. split; [exact He|exact Hp].
Qed.

Lemma preSave_created_login v id email password now :
  User.preSave (User.set_lastLoginAt v (User.create id email password now)) =
  User.set_lastLoginAt v (User.create id email password now).
Proof. rewrite preSave_set_lastLoginAt, preSave_create. reflexivity. Qed.

Lemma generateToken_generate rt uid now uuid :
  auth.generateToken rt uid now uuid = generate Access rt uid None now uuid.
Proof. reflexivity. Qed.

Lemma generateRefreshToken_generate rt uid now uuid :
  auth.generateRefreshToken rt uid now uuid = generate Refresh rt uid None now uuid.
Proof. reflexivity. Qed.

(** X18.  Signup, then signin.  An address that fails the schema's
    pattern (as the setters of its path keep it: trimmed, in lower
    case), or a password of fewer than 8 characters, is answered 500 by
    [signup] and nothing is stored.  Otherwise, when a secret is set,
    the lifetime parses, [bcrypt.compare] accepts a password against its
    own hash and the hash passes [minlength] too, [signup] answers 201,
    stores the new account with the hashed password and no refresh
    token, and hands out an access token for it; [signin] with the same
    password then answers 200 with an access token for the same user
    and changes nothing but [lastLoginAt]. *)
Theorem signup_then_signin (rt : Runtime)
    (bcrypt_hash : string -> string -> string)
    (id email password : string) (now : Z) (salt uuid : string) (later : Z)
    (uuid' : string) :
  JWT_SECRET rt <> "" ->
  is_Some (ms rt (JS.or_default (JWT_EXPIRES_IN rt) "15m")) ->
  bcrypt_compare rt password (bcrypt_hash password salt) = true ->
  (8 <= String.length (bcrypt_hash password salt))%nat ->
  let o1 :=
    authController.signup rt bcrypt_hash None id email password now salt uuid in
  (User.valid_email (JS.toLowerCase (JS.trim email)) = false \/ (String.length password < 8)%nat ->
   status (response o1) = 500 /\ saved o1 = None) /\
  (User.valid_email (JS.toLowerCase (JS.trim email)) = true -> (8 <= String.length password)%nat ->
   exists u a a',
     status (response o1) = 201 /\ saved o1 = Some u /\
     u = User.set_lastLoginAt (Some now)
           (User.create id email (bcrypt_hash password salt) now) /\
     json_get (body (response o1)) "token" = Some (JTok a) /\
     generate Access rt id None now uuid = inr a /\
     let o2 := authController.signin rt (Some u) password later uuid' in
     status (response o2) = 200 /\
     json_get (body (response o2)) "token" = Some (JTok a') /\
     generate Access rt id None later uuid' = inr a' /\
     stored_after u o2 = User.set_lastLoginAt (Some later) u).
Proof.
  intros Hs (span & Hms) Hcmp Hhash o1. subst o1.
  apply valid_password_length in Hhash.
  unfold authController.signup. cbv zeta. rewrite save_create. split.
  - intros Hrefused.
    assert (User.valid_email (JS.toLowerCase (JS.trim email)) && User.valid_password password = false) as ->.
    { destruct Hrefused as [-> | Hshort]; [reflexivity|].
      rewrite (valid_password_short _ Hshort). apply andb_false_r. }
    split; reflexivity.
  - intros Hemail Hlong. apply valid_password_length in Hlong.
    rewrite Hemail, Hlong. cbn [andb].
    pose proof (generate_succeeds rt Access id None now uuid span Hs Hms) as Ha.
    pose proof (generate_succeeds rt Access id None later uuid' span Hs Hms) as Ha'.
    eexists _, _, _.
    cbn [User._id User.create]. rewrite generateToken_generate, Ha.
    rewrite (save_created_login _ _ _ _ _ _ _ Hemail Hhash).
    cbn [reply_after response status saved body].
    split; [reflexivity|]. split; [reflexivity|]. split; [reflexivity|].
    split; [reflexivity|]. split; [reflexivity|].
    unfold authController.signin, User.comparePassword. cbv zeta.
    cbn [User.password User.set_lastLoginAt User.create User._id].
    rewrite Hcmp. cbn [negb]. rewrite generateToken_generate, Ha'.
    unfold save_unmodified.
    change (User.validate
              (User.set_lastLoginAt (Some later)
                 (User.set_lastLoginAt (Some now)
                    (User.create id email (bcrypt_hash password salt) now))))
      with (User.validate (User.create id email (bcrypt_hash password salt) now)).
    rewrite (proj2 (validate_accepts
                      (User.create id email (bcrypt_hash password salt) now))
               (conj Hemail Hhash)).
    unfold stored_after. cbn [reply_after response status saved body default].
    split; [reflexivity|]. split; [reflexivity|]. split; [reflexivity|].
    rewrite preSave_set_lastLoginAt, preSave_created_login. reflexivity.
Qed.

Lemma signup_then_signin_witness :
  bcrypt_compare Sample.hashing "Passw0rd!"
    (Sample.bcrypt_hash "Passw0rd!" "salt") = true /\
  User.valid_email "ann@example.com" = true /\
  User.valid_email "ann@example.info" = false /\
  status (response
            (authController.signup Sample.hashing Sample.bcrypt_hash None
               "64b7f3c2a1d4e5f6a7b8c9d0" "ann@example.info" "Passw0rd!" 0 "salt"
               "jti-0")) = 500 /\
  exists u,
    saved (authController.signup Sample.hashing Sample.bcrypt_hash None
             "64b7f3c2a1d4e5f6a7b8c9d0" "ann@example.com" "Passw0rd!" 0 "salt"
             "jti-0") = Some u /\
    status (response (authController.signin Sample.hashing (Some u) "Passw0rd!"
                        Sample.day "jti-9")) = 200.
Proof.
  split; [reflexivity|]. split; [vm_compute; reflexivity|].
  split; [vm_compute; reflexivity|]. split.
  - destruct (signup_then_signin Sample.hashing Sample.bcrypt_hash
                "64b7f3c2a1d4e5f6a7b8c9d0" "ann@example.info" "Passw0rd!" 0 "salt"
                "jti-0" Sample.day "jti-9"
                ltac:(discriminate) ltac:(vm_compute; eauto) eq_refl
                ltac:(vm_compute; lia))
      as (Hrefused & _).
    assert (User.valid_email "ann@example.info" = false) as Hbad
      by (vm_compute; reflexivity).
    exact (proj1 (Hrefused (or_introl Hbad))).
  - destruct (signup_then_signin Sample.hashing Sample.bcrypt_hash
                "64b7f3c2a1d4e5f6a7b8c9d0" "ann@example.com" "Passw0rd!" 0 "salt"
                "jti-0" Sample.day "jti-9"
                ltac:(discriminate) ltac:(vm_compute; eauto) eq_refl
                ltac:(vm_compute; lia))
      as (_ & Haccepted).
    destruct (Haccepted ltac:(vm_compute; reflexivity) ltac:(vm_compute; lia))
      as (u & a & a' & _ & Hsaved & _ & _ & _ & Hsignin & _).
    exists u. split; [exact Hsaved|exact Hsignin].
Defined.

(** X19.  Signing in leaves the profile alone.  On a stored document
    [signin] changes [lastLoginAt] and nothing else, never the refresh
    tokens; [login] changes [lastLoginAt] and the refresh tokens, which
    become the last five of the old ones followed by the one it issued;
    a refused attempt changes nothing. *)
Theorem sign_in_leaves_profile (rt : Runtime) (u : User.t) (password : string)
    (now : Z) (uuid uuid1 uuid2 : string) :
  stored u ->
  (let o := authController.signin rt (Some u) password now uuid in
   (status (response o) = 200 ->
      stored_after u o = User.set_lastLoginAt (Some now) u) /\
   (status (response o) <> 200 -> stored_after u o = u) /\
   User.refreshTokens (stored_after u o) = User.refreshTokens u) /\
  (let o := authController.login rt (Some u) password now uuid1 uuid2 in
   (status (response o) = 200 ->
      exists r,
        issuedRefreshToken (response o) = Some r /\
        stored_after u o =
        User.set_lastLoginAt (Some now)
          (User.set_refreshTokens
             (JS.slice_last 5
                (User.refreshTokens u ++
                 [{| User.token := r; User.createdAt := now |}])) u)) /\
   (status (response o) <> 200 -> stored_after u o = u)).
Proof.
  intros Hst. destruct (stored_sound u Hst) as (Hfix & _). split.
  - cbn zeta. unfold authController.signin. cbv zeta.
    destruct (negb (User.comparePassword rt u password)).
    { rewrite stored_after_reply. cbn. repeat split; [discriminate|reflexivity..]. }
    destruct (auth.generateToken rt (User._id u) now uuid).
    { rewrite stored_after_reply. cbn. repeat split; [discriminate|reflexivity..]. }
    destruct (save_unmodified (User.set_lastLoginAt (Some now) u))
      as [failed|w] eqn:Hsave.
    { rewrite stored_after_reply. cbn. repeat split; [discriminate|reflexivity..]. }
    apply save_unmodified_inversion in Hsave. destruct Hsave as (_ & ->).
    rewrite preSave_set_lastLoginAt, Hfix.
    unfold stored_after. cbn [reply_after response status saved default].
    split; [reflexivity|]. split; [intros Hc; contradiction Hc; reflexivity|].
    reflexivity.
  - cbn zeta. split.
    + intros H. destruct (login_inversion rt u password now uuid1 uuid2 H)
        as (a & r & _ & _ & _ & _ & Hir & _ & Hstored).
      exists r. split; [exact Hir|]. rewrite Hstored.
      rewrite preSave_set_lastLoginAt, preSave_set_refreshTokens, Hfix. reflexivity.
    + unfold authController.login.
      destruct (negb (bcrypt_compare rt password (User.password u)));
        [intros _; apply stored_after_reply|].
      destruct (auth.generateToken rt (User._id u) now uuid1);
        [destruct (auth.generateRefreshToken rt (User._id u) now uuid2);
         intros _; apply stored_after_reply|].
      destruct (auth.generateRefreshToken rt (User._id u) now uuid2);
        [intros _; apply stored_after_reply|].
      unfold save_and_reply. cbn [response status]. intros Hc.
      contradiction Hc; reflexivity.
Qed.

Lemma sign_in_leaves_profile_witness :
  stored Sample.account /\
  stored_after Sample.account
    (authController.signin Sample.hashing (Some Sample.account) "guess" 5 "jti-9")
  = Sample.account.
Proof.
  split; [exact account_stored|].
  destruct (sign_in_leaves_profile Sample.hashing Sample.account "guess" 5
              "jti-9" "jti-a" "jti-b" account_stored)
    as ((_ & Hrefused & _) & _).
  apply Hrefused. vm_compute. discriminate.
Defined.

(** X20.  A successful [register] stores the new account with the
    hashed password, the login time and exactly one refresh token: the
    one in its response. *)
Theorem register_stores_one_token (rt : Runtime)
    (bcrypt_hash : string -> string -> string)
    (id email password : string) (now : Z) (salt uuid1 uuid2 : string) :
  let o :=
    authController.register rt bcrypt_hash None id email password now salt
      uuid1 uuid2 in
  status (response o) = 201 ->
  exists r,
    issuedRefreshToken (response o) = Some r /\
    generate Refresh rt id None now uuid2 = inr r /\
    saved o =
    Some (User.set_lastLoginAt (Some now)
            (User.set_refreshTokens
               [{| User.token := r; User.createdAt := now |}]
               (User.create id email (bcrypt_hash password salt) now))).
Proof.
  cbn zeta. unfold authController.register. cbv zeta. rewrite save_create.
  destruct (User.valid_email (JS.toLowerCase (JS.trim email)) && User.valid_password password);
    [|discriminate].
  cbn [User._id User.create User.refreshTokens app].
  destruct (auth.generateToken rt id now uuid1) as [e|a];
    [destruct (auth.generateRefreshToken rt id now uuid2); discriminate|].
  destruct (auth.generateRefreshToken rt id now uuid2) as [e|r] eqn:Hr;
    [discriminate|].
  destruct (save bcrypt_hash salt false (User.set_refreshTokens _ _))
    as [failed|user2] eqn:Hsave2; [discriminate|].
  apply save_inversion in Hsave2. destruct Hsave2 as (_ & ->).
  destruct (save bcrypt_hash salt false (User.set_lastLoginAt _ _))
    as [failed|user3] eqn:Hsave3; [discriminate|].
  apply save_inversion in Hsave3. destruct Hsave3 as (_ & ->).
  intros _. exists r. split; [reflexivity|]. split; [exact Hr|].
  unfold User.hashPassword. cbn [saved reply_after negb].
  rewrite preSave_set_lastLoginAt, preSave_preSave.
  rewrite preSave_set_refreshTokens, preSave_create. reflexivity.
Qed.

Lemma register_stores_one_token_witness :
  status (response
            (authController.register Sample.hashing Sample.bcrypt_hash None "64b7f3c2a1d4e5f6a7b8c9d1"
               "bob@example.com" "Passw0rd!" 0 "salt" "jti-a" "jti-b")) = 201 /\
  exists u,
    saved (authController.register Sample.hashing Sample.bcrypt_hash None "64b7f3c2a1d4e5f6a7b8c9d1"
             "bob@example.com" "Passw0rd!" 0 "salt" "jti-a" "jti-b") = Some u /\
    length (User.refreshTokens u) = 1%nat.
Proof.
  assert (status (response
            (authController.register Sample.hashing Sample.bcrypt_hash None "64b7f3c2a1d4e5f6a7b8c9d1"
               "bob@example.com" "Passw0rd!" 0 "salt" "jti-a" "jti-b")) = 201)
    as H201 by (vm_compute; reflexivity).
  split; [exact H201|].
  destruct (register_stores_one_token Sample.hashing Sample.bcrypt_hash "64b7f3c2a1d4e5f6a7b8c9d1"
              "bob@example.com" "Passw0rd!" 0 "salt" "jti-a" "jti-b" H201)
    as (r & _ & _ & Hsaved).
  eexists. split; [exact Hsaved|reflexivity].
Defined.

(** X21.  When no token can be issued (no secret, or a lifetime that
    does not parse), [signup] and [register] answer 500.  For an address
    (as the setters of its path keep it: trimmed, in lower case) and a
    password the schema accepts, the account has been stored by then,
    and a second signup for it is answered 400; for an address that
    fails the schema's pattern or a password of fewer than 8 characters
    nothing is stored. *)
Theorem failed_issue_leaves_account (rt : Runtime)
    (bcrypt_hash : string -> string -> string)
    (id email password : string) (now : Z) (salt uuid uuid1 uuid2 : string) :
  JWT_SECRET rt = "" \/ ms rt (JS.or_default (JWT_EXPIRES_IN rt) "15m") = None ->
  let o1 :=
    authController.signup rt bcrypt_hash None id email password now salt uuid in
  let o2 :=
    authController.register rt bcrypt_hash None id email password now salt
      uuid1 uuid2 in
  let account := User.create id email (bcrypt_hash password salt) now in
  status (response o1) = 500 /\ status (response o2) = 500 /\
  (User.valid_email (JS.toLowerCase (JS.trim email)) = true -> (8 <= String.length password)%nat ->
   saved o1 = Some account /\ saved o2 = Some account /\
   (forall id' email' password' now' salt' uuid',
      status (response
                (authController.signup rt bcrypt_hash (saved o1) id' email'
                   password' now' salt' uuid')) = 400)) /\
  (User.valid_email (JS.toLowerCase (JS.trim email)) = false \/ (String.length password < 8)%nat ->
   saved o1 = None /\ saved o2 = None).
Proof.
  intros Hcfg. cbn zeta.
  assert (exists e, generate Access rt id None now uuid = inl e) as (e & He).
  { destruct (generate Access rt id None now uuid) as [e|a] eqn:Ha; [eauto|].
    apply generate_inversion in Ha. destruct Ha as (span & Hms & Hs & _).
    destruct Hcfg as [Hc|Hc]; [contradiction|].
    unfold lifetime in Hms. cbn [JS.or_default] in Hms. congruence. }
  assert (exists e, generate Access rt id None now uuid1 = inl e) as (e1 & He1).
  { destruct (generate Access rt id None now uuid1) as [e1|a] eqn:Ha; [eauto|].
    apply generate_inversion in Ha. destruct Ha as (span & Hms & Hs & _).
    destruct Hcfg as [Hc|Hc]; [contradiction|].
    unfold lifetime in Hms. cbn [JS.or_default] in Hms. congruence. }
  unfold authController.signup, authController.register. cbv zeta.
  rewrite save_create.
  destruct (User.valid_email (JS.toLowerCase (JS.trim email))) eqn:Hemail;
    destruct (User.valid_password password) eqn:Hpw; cbn [andb].
  - cbn [User._id User.create].
    rewrite !generateToken_generate, He, He1.
    destruct (auth.generateRefreshToken rt id now uuid2);
      cbn [reply_after response status saved];
      (split; [reflexivity|]); (split; [reflexivity|]);
      (split; [intros _ _; repeat split; reflexivity|]);
      intros [Hc|Hc]; [discriminate Hc| |discriminate Hc|];
      apply valid_password_short in Hc; congruence.
  - cbn [reply response status saved].
    split; [reflexivity|]. split; [reflexivity|]. split.
    + intros _ Hlong. apply valid_password_length in Hlong. congruence.
    + intros _. split; reflexivity.
  - cbn [reply response status saved].
    split; [reflexivity|]. split; [reflexivity|]. split.
    + intros Hc. discriminate Hc.
    + intros _. split; reflexivity.
  - cbn [reply response status saved].
    split; [reflexivity|]. split; [reflexivity|]. split.
    + intros Hc. discriminate Hc.
    + intros _. split; reflexivity.
Qed.

Lemma failed_issue_leaves_account_witness :
  JWT_SECRET Sample.noSecret = ""%string /\
  status (response
            (authController.signup Sample.noSecret Sample.bcrypt_hash None
               "64b7f3c2a1d4e5f6a7b8c9d0" "ann@example.com" "Passw0rd!" 0 "salt"
               "jti-0")) = 500 /\
  is_Some (saved (authController.signup Sample.noSecret Sample.bcrypt_hash None
                    "64b7f3c2a1d4e5f6a7b8c9d0" "ann@example.com" "Passw0rd!" 0
                    "salt" "jti-0")).
Proof.
  split; [reflexivity|].
  destruct (failed_issue_leaves_account Sample.noSecret Sample.bcrypt_hash
              "64b7f3c2a1d4e5f6a7b8c9d0" "ann@example.com" "Passw0rd!" 0 "salt"
              "jti-0" "jti-a" "jti-b" ltac:(left; reflexivity))
    as (Hstatus & _ & Haccepted & _).
  split; [exact Hstatus|].
  destruct (Haccepted ltac:(vm_compute; reflexivity) ltac:(vm_compute; lia))
    as (Hsaved & _).
  rewrite Hsaved. eauto.
Defined.

(** X22.  A wrong password is not told apart from an unknown address:
    [login] and [signin] give the same outcome for both, status 401 and
    nothing stored. *)
Theorem credentials_not_distinguished (rt : Runtime) (u : User.t)
    (password : string) (now : Z) (uuid uuid1 uuid2 : string) :
  User.comparePassword rt u password = false ->
  authController.login rt (Some u) password now uuid1 uuid2 =
    authController.login rt None password now uuid1 uuid2 /\
  authController.signin rt (Some u) password now uuid =
    authController.signin rt None password now uuid /\
  status (response (authController.login rt None password now uuid1 uuid2)) = 401 /\
  status (response (authController.signin rt None password now uuid)) = 401 /\
  saved (authController.login rt None password now uuid1 uuid2) = None /\
  saved (authController.signin rt None password now uuid) = None.
Proof.
  intros H. unfold authController.login, authController.signin.
  unfold User.comparePassword in H |- *. rewrite H. cbn [negb].
  repeat split; reflexivity.
Qed.

Lemma credentials_not_distinguished_witness :
  User.comparePassword Sample.rt Sample.fresh "guess" = false /\
  authController.signin Sample.rt (Some Sample.fresh) "guess" 5 "jti-9" =
  authController.signin Sample.rt None "guess" 5 "jti-9".
Proof.
  split; [reflexivity|].
  destruct (credentials_not_distinguished Sample.rt Sample.fresh "guess" 5
              "jti-9" "jti-a" "jti-b" eq_refl)
    as (_ & Hsignin & _).
  exact Hsignin.
Defined.

End Accounts.

(** ** The completion endpoints on stored documents *)

Section Completion.
Import jsonwebtoken.

Lemma preSave_markCompleted now n u :
  User.preSave u = u ->
  User.preSave (markCompleted now n u) = markCompleted now n u.
Proof.
  intros Hfix. symmetry.
  apply (preSave_ext (markCompleted now n u) u (markCompleted now n u));
    [ intros []; reflexivity
    | reflexivity | reflexivity | reflexivity | reflexivity | reflexivity
    | reflexivity | reflexivity | reflexivity
    | intros []; reflexivity
    | reflexivity
    | rewrite Hfix; reflexivity
    | rewrite Hfix; reflexivity
    | reflexivity
    | cbn [User.onboardingStep User.onboardingCompleted markCompleted
           User.set_sessionInfo User.set_onboardingStep
           User.set_onboardingCompleted negb];
      rewrite andb_false_r; reflexivity
    | reflexivity ].
Qed.

Lemma skipOnboarding_saves u now :
  onboardingController.skipOnboarding (Some u) now =
  save_and_reply
    (markCompleted now (User.sectionsCompleted (User.sessionInfo u)) u) 200
    (fun user =>
       JObj [("success", JBool true);
             ("message",
              JStr "Onboarding skipped. You can complete your profile anytime from settings.");
             ("data",
              JObj [("user", User.getPublicProfile user);
                    ("onboardingStatus", User.getOnboardingStatus user)])]).
Proof. reflexivity. Qed.

Lemma completeOnboarding_saves u now :
  allRequired (User.dataQuality u) = true ->
  onboardingController.completeOnboarding (Some u) now =
  save_and_reply (markCompleted now 4 u) 200
    (fun user =>
       JObj [("success", JBool true);
             ("message",
              JStr "Onboarding completed successfully! Welcome to your fitness journey.");
             ("data",
              JObj [("user", User.getPublicProfile user);
                    ("onboardingStatus", User.getOnboardingStatus user)])]).
Proof.
  unfold onboardingController.completeOnboarding, allRequired, markCompleted.
  destruct (User.dataQuality u) as [b1 b2 b3 b4 b5 score].
  cbn [User.hasBasicInfo User.hasLifestyle User.hasMedicalHistory User.hasGoals].
  intros Hall. destruct b1, b2, b3, b4; try discriminate Hall. reflexivity.
Qed.

(** X23.  [skipOnboarding] on a stored document answers 200 and marks
    it completed at step 6 with the completion time and date; profile
    completeness, data-quality flags and sections stay as they were. *)
Theorem skipOnboarding_on_stored (u : User.t) (now : Z) :
  stored u ->
  let out := onboardingController.skipOnboarding (Some u) now in
  let u' := stored_after u out in
  status (response out) = 200 /\
  u' = markCompleted now (User.sectionsCompleted (User.sessionInfo u)) u /\
  User.onboardingCompleted u' = true /\ User.onboardingStep u' = 6 /\
  User.profileCompleteness u' = User.profileCompleteness u /\
  User.dataQuality u' = User.dataQuality u /\
  (forall sectionName, User.section u' sectionName = User.section u sectionName).
Proof.
  intros Hst. destruct (stored_sound u Hst) as (Hfix & _). cbn zeta.
  rewrite skipOnboarding_saves, stored_after_save, status_save_and_reply.
  rewrite (preSave_markCompleted _ _ _ Hfix).
  repeat (split; [reflexivity|]). intros sectionName.
  destruct sectionName; reflexivity.
Qed.

Lemma skipOnboarding_on_stored_witness :
  stored Sample.account /\
  User.onboardingCompleted
    (stored_after Sample.account
       (onboardingController.skipOnboarding (Some Sample.account) Sample.day))
  = true /\
  User.profileCompleteness
    (stored_after Sample.account
       (onboardingController.skipOnboarding (Some Sample.account) Sample.day))
  = 0.
Proof.
  split; [exact account_stored|].
  destruct (skipOnboarding_on_stored Sample.account Sample.day account_stored)
    as (_ & _ & Hc & _ & Hpc & _).
  split; [exact Hc|]. rewrite Hpc. vm_compute. reflexivity.
Defined.

Lemma allRequired_count dq : allRequired dq = true <-> 25 * requiredCount dq = 100.
Proof.
  rewrite requiredCount_full. unfold allRequired.
  rewrite !andb_true_iff. tauto.
Qed.

(** X24.  A stored document whose four required flags are set has been
    completed already (completed, step 6, completeness 100), so
    [completeOnboarding] then answers 200 and changes only the
    completion record in [sessionInfo]. *)
Theorem completeOnboarding_on_stored (u : User.t) (now : Z) :
  stored u ->
  allRequired (User.dataQuality u) = true ->
  User.onboardingCompleted u = true /\ User.onboardingStep u = 6 /\
  User.profileCompleteness u = 100 /\
  let out := onboardingController.completeOnboarding (Some u) now in
  status (response out) = 200 /\
  stored_after u out =
  User.set_sessionInfo
    {| User.completionTimestamp := Some now;
       User.completionDate := Some (JS.toISODate now);
       User.totalXPEarned := User.totalXPEarned (User.sessionInfo u);
       User.userLevel := User.userLevel (User.sessionInfo u);
       User.sectionsCompleted := 4;
       User.completionRate := User.completionRate (User.sessionInfo u) |} u.
Proof.
  intros Hst Hall.
  destruct (sound_invariants u (stored_sound u Hst))
    as (Hfix & Hpc & _ & _ & _ & _ & _ & _ & Hfull & H6 & _).
  apply allRequired_count in Hall as Hcount. rewrite <- Hpc in Hcount.
  pose proof (Hfull Hcount) as Hc. pose proof (H6 Hc) as Hstep.
  split; [exact Hc|]. split; [exact Hstep|]. split; [exact Hcount|].
  cbn zeta. rewrite (completeOnboarding_saves u now Hall).
  rewrite stored_after_save, status_save_and_reply.
  rewrite (preSave_markCompleted _ _ _ Hfix). split; [reflexivity|].
  unfold markCompleted. f_equal.
  destruct u. cbn in Hc, Hstep. subst. reflexivity.
Qed.

Lemma completeOnboarding_on_stored_witness :
  stored Sample.completedAccount /\
  allRequired (User.dataQuality Sample.completedAccount) = true /\
  User.onboardingCompleted Sample.completedAccount = true /\
  User.onboardingStep Sample.completedAccount = 6 /\
  status (response
            (onboardingController.completeOnboarding
               (Some Sample.completedAccount) Sample.day)) = 200.
Proof.
  assert (allRequired (User.dataQuality Sample.completedAccount) = true) as Hall
    by (vm_compute; reflexivity).
  split; [exact completedAccount_stored|]. split; [exact Hall|].
  destruct (completeOnboarding_on_stored Sample.completedAccount Sample.day
              completedAccount_stored Hall)
    as (Hc & Hstep & _ & Hstatus & _).
  split; [exact Hc|]. split; [exact Hstep|exact Hstatus].
Defined.

End Completion.

(** ** The authentication middleware and the error handlers *)

Section Middleware.
Import jsonwebtoken.

(** X25.  [authenticateToken] lets a request through exactly when the
    authorization header yields a text with two dots that [verifyToken]
    accepts as an access token and whose user the store still holds; it
    then attaches that user, the token's user id and its token id. *)
Theorem authenticateToken_accepts (rt : Runtime) (denote : string -> token)
    (authorization : option string)
    (findById : string -> errorHandler.error + option User.t)
    (now : Z) (req : auth.Authenticated) :
  auth.authenticateToken rt denote authorization findById now = inr req <->
  exists text decoded,
    jwt.extractTokenFromHeader authorization = Some text /\
    count_dots text = 2%nat /\
    jwt.verifyToken rt (denote text) "access" now = inr decoded /\
    User.findById findById (userId decoded) = inr (Some (auth.req_user req)) /\
    auth.req_userId req = userId decoded /\
    auth.req_tokenId req = jti decoded.
Proof.
  unfold auth.authenticateToken.
  destruct (jwt.extractTokenFromHeader authorization) as [text|].
  2:{ split; [discriminate|]. intros (t & d & H & _). discriminate. }
  destruct text as [|c text].
  { split; [discriminate|]. intros (t & d & [= <-] & H & _). discriminate. }
  set (token := String c text).
  destruct (jwt.isValidTokenFormat (Some token)) eqn:Hf; cbn [negb].
  2:{ split; [discriminate|]. intros (t & d & [= <-] & H & _).
      apply isValidTokenFormat_text in H. fold token in H. congruence. }
  apply isValidTokenFormat_text in Hf.
  destruct (jwt.verifyToken rt (denote token) "access" now) as [e|decoded] eqn:Hv.
  { split; [discriminate|]. intros (t & d & [= <-] & _ & H & _).
    fold token in H. congruence. }
  destruct (User.findById findById (userId decoded)) as [thrown|[user|]] eqn:Hu.
  - split; [discriminate|]. intros (t & d & [= <-] & _ & H & Hfind & _).
    fold token in H. rewrite Hv in H. injection H as <-. congruence.
  - split.
    + intros [= <-]. exists token, decoded. repeat (split; [first [reflexivity|assumption]|]).
      reflexivity.
    + intros (t & d & [= <-] & _ & H & Hfind & Hid & Hjti).
      fold token in H. rewrite Hv in H. injection H as <-.
      rewrite Hu in Hfind. injection Hfind as ->.
      destruct req as [u i j]. cbn in *. subst. reflexivity.
  - split; [discriminate|]. intros (t & d & [= <-] & _ & H & Hfind & _).
    fold token in H. rewrite Hv in H. injection H as <-. congruence.
Qed.

(** X26.  [optionalAuth] never stops a request: it attaches exactly
    what [authenticateToken] would attach when that lets the request
    through, and nothing when that fails. *)
Theorem optionalAuth_agrees (rt : Runtime) (denote : string -> token)
    (authorization : option string)
    (findById : string -> errorHandler.error + option User.t)
    (now : Z) :
  auth.optionalAuth rt denote authorization findById now =
  match auth.authenticateToken rt denote authorization findById now with
  | inr req => Some req
  | inl _ => None
  end.
Proof.
  unfold auth.optionalAuth, auth.authenticateToken.
  destruct (jwt.extractTokenFromHeader authorization) as [[|c text]|];
    [reflexivity| |reflexivity].
  destruct (jwt.isValidTokenFormat (Some (String c text))); cbn [negb];
    [|reflexivity].
  destruct (jwt.verifyToken rt (denote (String c text)) "access" now)
    as [e|decoded]; [reflexivity|].
  destruct (User.findById findById (userId decoded)) as [thrown|[user|]];
    reflexivity.
Qed.

Lemma verify_never_Error rt tok clock m :
  verify tok (JWT_SECRET rt) (jwt.verifyOptions rt) clock <> inl (Error m).
Proof.
  intros H. pose proof (verify_classified rt tok clock) as Hc.
  rewrite H in Hc. exact Hc.
Qed.

Lemma verifyToken_Error rt tok expectedType clock m :
  jwt.verifyToken rt tok expectedType clock = inl (Error m) <->
  exists decoded,
    verify tok (JWT_SECRET rt) (jwt.verifyOptions rt) clock = inr decoded /\
    type decoded <> Some expectedType /\
    m = ("Invalid token type. Expected " ++ expectedType ++ ", got "
           ++ default "undefined" (type decoded))%string.
Proof.
  unfold jwt.verifyToken.
  destruct (verify tok (JWT_SECRET rt) (jwt.verifyOptions rt) clock)
    as [e|decoded] eqn:Hv.
  - split.
    + intros [= ->]. exfalso. exact (verify_never_Error _ _ _ _ Hv).
    + intros (d & H & _). discriminate.
  - destruct (bool_decide (type decoded = Some expectedType)) eqn:Ht; cbn [negb].
    + apply bool_decide_eq_true in Ht. split; [discriminate|].
      intros (d & [= <-] & Hne & _). contradiction.
    + apply bool_decide_eq_false in Ht. split.
      * intros [= <-]. exists decoded. auto.
      * intros (d & [= <-] & _ & ->). reflexivity.
Qed.

Lemma handleError_AppError production message statusCode code :
  status (app.handleError production
            (auth.authenticateToken_catch
               (errorHandler.AppError message statusCode code))) = statusCode.
Proof. reflexivity. Qed.

Lemma handleError_thrown production e :
  status (app.handleError production
            (auth.authenticateToken_catch (errorHandler.thrown e))) =
  match e with Error _ => 500 | _ => 401 end.
Proof. destruct e; reflexivity. Qed.

Lemma authenticateToken_catch_other error :
  errorHandler.name error <> "JsonWebTokenError" ->
  errorHandler.name error <> "TokenExpiredError" ->
  auth.authenticateToken_catch error = error.
Proof.
  intros H1 H2. unfold auth.authenticateToken_catch.
  apply String.eqb_neq in H1, H2. rewrite H1, H2. reflexivity.
Qed.

Lemma handleError_CastError production error :
  errorHandler.name error = "CastError" ->
  errorHandler.code error <> JS.VNum 11000 ->
  app.handleError production error =
  {| status := 400;
     body :=
       JObj [("success", JBool false);
             ("message", JStr "Invalid ID format");
             ("code", JStr "INVALID_ID");
             ("details",
              JObj [("field", errorHandler.path error);
                    ("value", errorHandler.value error)])] |}.
Proof.
  intros Hname Hcode.
  unfold app.handleError, errorHandler.handleAuthError,
    errorHandler.handleValidationError, errorHandler.handleDuplicateKeyError,
    errorHandler.handleCastError.
  rewrite Hname. cbn [String.eqb Ascii.eqb Bool.eqb].
  destruct (errorHandler.code error) as [| |b|n|s|ms|items|props];
    try reflexivity.
  destruct (decide (n = 11000)) as [->|Hn]; [contradiction Hcode; reflexivity|].
  destruct n as [|p|p]; try reflexivity.
  repeat (destruct p as [p|p|]; try reflexivity).
  contradiction Hn; reflexivity.
Qed.

(** X27.  When [authenticateToken] refuses a request, one of two things
    has happened.  Either the store has rejected the lookup of the
    token's user: the error goes to the application's error handlers as
    the [catch] block passes it on, and a [CastError] (the [userId] of a
    verified token is no ObjectId) is answered 400 with code
    [INVALID_ID].  Or the refusal is the middleware's own, answered
    401, except for a token that passes the library's verification but
    is not of type access (a refresh token sent as bearer token), which
    is answered 500. *)
Theorem authentication_failure_status (rt : Runtime) (production : bool)
    (denote : string -> token) (authorization : option string)
    (findById : string -> errorHandler.error + option User.t) (now : Z)
    (error : errorHandler.error) :
  auth.authenticateToken rt denote authorization findById now = inl error ->
  let answer := app.handleError production error in
  (exists text decoded thrown,
     jwt.extractTokenFromHeader authorization = Some text /\
     count_dots text = 2%nat /\
     jwt.verifyToken rt (denote text) "access" now = inr decoded /\
     User.findById findById (userId decoded) = inl thrown /\
     error = auth.authenticateToken_catch thrown /\
     (errorHandler.name thrown = "CastError" ->
      errorHandler.code thrown <> JS.VNum 11000 ->
      answer =
      {| status := 400;
         body :=
           JObj [("success", JBool false);
                 ("message", JStr "Invalid ID format");
                 ("code", JStr "INVALID_ID");
                 ("details",
                  JObj [("field", errorHandler.path thrown);
                        ("value", errorHandler.value thrown)])] |}))
  \/
  ((status answer = 401 \/ status answer = 500) /\
   (status answer = 500 <->
    exists text decoded,
      jwt.extractTokenFromHeader authorization = Some text /\
      count_dots text = 2%nat /\
      verify (denote text) (JWT_SECRET rt) (jwt.verifyOptions rt) now = inr decoded /\
      type decoded <> Some "access")).
Proof.
  unfold auth.authenticateToken. cbn zeta.
  destruct (jwt.extractTokenFromHeader authorization) as [text|].
  2:{ intros [= <-]. right. rewrite handleError_AppError. split; [auto|].
      split; [discriminate|]. intros (t & d & H & _). discriminate. }
  destruct text as [|c text].
  { intros [= <-]. right. rewrite handleError_AppError. split; [auto|].
    split; [discriminate|]. intros (t & d & [= <-] & H & _). discriminate. }
  set (token := String c text).
  destruct (jwt.isValidTokenFormat (Some token)) eqn:Hf; cbn [negb].
  2:{ intros [= <-]. right. rewrite handleError_AppError. split; [auto|].
      split; [discriminate|]. intros (t & d & [= <-] & H & _).
      apply isValidTokenFormat_text in H. fold token in H. congruence. }
  apply isValidTokenFormat_text in Hf.
  destruct (jwt.verifyToken rt (denote token) "access" now) as [e|decoded] eqn:Hv.
  - intros [= <-]. right. rewrite handleError_thrown. split.
    + destruct e; auto.
    + split.
      * destruct e as [m|m t|m t|m]; try discriminate. intros _.
        apply verifyToken_Error in Hv. destruct Hv as (d & Hd & Hne & _).
        exists token, d. auto.
      * intros (t & d & [= <-] & _ & Hd & Hne). fold token in Hd.
        unfold jwt.verifyToken in Hv. rewrite Hd in Hv.
        rewrite bool_decide_eq_false_2 in Hv by exact Hne. cbn [negb] in Hv.
        injection Hv as <-. reflexivity.
  - destruct (User.findById findById (userId decoded)) as [thrown|[user|]] eqn:Hu;
      [| discriminate |].
    + intros [= <-]. left. exists token, decoded, thrown.
      repeat (split; [first [reflexivity|assumption]|]).
      intros Hname Hcode.
      rewrite authenticateToken_catch_other by (rewrite Hname; discriminate).
      apply handleError_CastError; assumption.
    + intros [= <-]. right. rewrite handleError_AppError. split; [auto|].
      split; [discriminate|]. intros (t & d & [= <-] & _ & Hd & Hne).
      fold token in Hd. apply verifyToken_inversion in Hv. destruct Hv as (Hv & Hty).
      congruence.
Qed.

(** A verified access token whose [userId] is no ObjectId: the lookup
    is rejected and the request is answered 400. *)
Lemma authentication_failure_status_witness :
  auth.authenticateToken Sample.rt (fun _ => Sample.foreignTok)
    (Some "Bearer h.foreign.s"%string) (Sample.store [Sample.withToken]) 1000 =
  inl (Sample.castError "u1") /\
  status (app.handleError true (Sample.castError "u1")) = 400.
Proof.
  assert (auth.authenticateToken Sample.rt (fun _ => Sample.foreignTok)
            (Some "Bearer h.foreign.s"%string) (Sample.store [Sample.withToken])
            1000 =
          inl (Sample.castError "u1"))
    as Hrefused by (vm_compute; reflexivity).
  split; [exact Hrefused|].
  destruct (authentication_failure_status Sample.rt true
              (fun _ => Sample.foreignTok)
              (Some "Bearer h.foreign.s"%string) (Sample.store [Sample.withToken])
              1000 _ Hrefused)
    as [(text & decoded & thrown & _ & _ & Hv & Hfind & _ & Hcast)
       |([H401 | H500] & _)].
  - vm_compute in Hv. injection Hv as <-.
    vm_compute in Hfind. injection Hfind as <-.
    rewrite (Hcast eq_refl ltac:(discriminate)). reflexivity.
  - vm_compute in H401. discriminate H401.
  - vm_compute in H500. discriminate H500.
Defined.

(** X30.  A bearer token the service issued opens a protected route:
    before its expiry second the route's handler runs with the user, the
    user id and the token id attached; from the expiry second on the
    answer is 401 with code [TOKEN_EXPIRED]. *)
Theorem bearer_token_authenticates (rt : Runtime) (production : bool)
    (denote : string -> token) (text : string)
    (findById : string -> errorHandler.error + option User.t) (u : User.t)
    (options_expiresIn : option string) (issuedAt : Z) (uuid : string)
    (a : token) (now : Z) (handler : auth.Authenticated -> Response) :
  generate Access rt (User._id u) options_expiresIn issuedAt uuid = inr a ->
  denote text = a -> count_dots text = 2%nat ->
  findById (User._id u) = inr (Some u) ->
  exists span,
    ms rt (lifetime rt Access options_expiresIn) = Some span /\
    (now / 1000 < issuedAt / 1000 + span / 1000 ->
     app.protected rt production denote (Some ("Bearer " ++ text)%string)
       findById now handler =
     handler {| auth.req_user := u; auth.req_userId := Some (User._id u);
                auth.req_tokenId := Some uuid |}) /\
    (issuedAt / 1000 + span / 1000 <= now / 1000 ->
     app.protected rt production denote (Some ("Bearer " ++ text)%string)
       findById now handler =
     {| status := 401;
        body := JObj [("success", JBool false);
                      ("message", JStr "Authentication token has expired");
                      ("code", JVal (JS.VStr "TOKEN_EXPIRED"));
                      ("details", JNull)] |}).
Proof.
  intros Ha Hden Hdots Hfind.
  apply generate_inversion in Ha. destruct Ha as (span & Hms & Hs & Ha).
  exists span. split; [exact Hms|].
  assert (text <> ""%string) as Hne by (intros ->; discriminate Hdots).
  unfold app.protected, auth.authenticateToken.
  rewrite extractTokenFromHeader_bearer.
  destruct text as [|c text]; [contradiction Hne; reflexivity|].
  rewrite (proj2 (isValidTokenFormat_text _) Hdots). cbn [negb].
  rewrite Hden, Ha.
  rewrite (verifyToken_issued rt Access Access (User._id u) issuedAt span uuid now
             Hs : jwt.verifyToken rt _ "access" now = _).
  split.
  - intros Hlt. rewrite bool_decide_eq_false_2 by lia.
    rewrite bool_decide_eq_true_2 by reflexivity.
    cbn [jsonwebtoken.userId jsonwebtoken.jti issuedClaims User.findById].
    rewrite Hfind. reflexivity.
  - intros Hge. rewrite bool_decide_eq_true_2 by lia. reflexivity.
Qed.

Lemma bearer_token_authenticates_witness :
  generate Access Sample.rt (User._id Sample.fresh) None 0 "jti-0" =
    inr Sample.accessTok /\
  app.protected Sample.rt true Sample.denote
    (Some ("Bearer " ++ "h.access.s")%string)
    (Sample.store [Sample.fresh]) 1000
    (fun req => {| status := 200; body := JStr (User._id (auth.req_user req)) |})
  = {| status := 200; body := JStr "64b7f3c2a1d4e5f6a7b8c9d0" |}.
Proof.
  split; [reflexivity|].
  destruct (bearer_token_authenticates Sample.rt true Sample.denote "h.access.s"
              (Sample.store [Sample.fresh]) Sample.fresh None 0 "jti-0"
              Sample.accessTok 1000
              (fun req =>
                 {| status := 200; body := JStr (User._id (auth.req_user req)) |})
              ltac:(vm_compute; reflexivity) eq_refl eq_refl
              ltac:(vm_compute; reflexivity))
    as (span & Hms & Hok & _).
  vm_compute in Hms. injection Hms as <-.
  rewrite (Hok ltac:(vm_compute; reflexivity)). reflexivity.
Defined.

End Middleware.

(** ** The security configuration *)

Section Security.
Import jsonwebtoken.

Lemma isSpecial_lower (c : ascii) :
  security.isSpecial (JS.lower_ascii c) = security.isSpecial c.
Proof.
  destruct c as [[] [] [] [] [] [] [] []]; reflexivity.
Qed.

Lemma test_special_lower (s : string) :
  JS.test_class security.isSpecial (JS.toLowerCase s) =
  JS.test_class security.isSpecial s.
Proof.
  unfold JS.test_class. induction s as [|c s IH]; [reflexivity|].
  cbn [JS.toLowerCase list_ascii_of_string existsb].
  rewrite isSpecial_lower, IH. reflexivity.
Qed.

Lemma forbidden_no_special (password : string) :
  JS.toLowerCase password ∈ security.PASSWORD_REQUIREMENTS.forbiddenPasswords ->
  JS.test_class security.isSpecial password = false.
Proof.
  intros Hin. rewrite <- test_special_lower.
  unfold security.PASSWORD_REQUIREMENTS.forbiddenPasswords in Hin.
  rewrite !elem_of_cons in Hin.
  destruct Hin as [->|[->|[->|[->|[->|Hin]]]]]; try reflexivity.
  apply elem_of_nil in Hin. contradiction.
Qed.

(** X28.  [validatePassword]: a password is valid exactly when no error
    is listed, that is when it has 8 to 128 characters and an uppercase
    letter, a lowercase letter, a digit and one of [@$!%*?&].  The
    common-password rule never decides: whenever it fires, the
    special-character rule fires too. *)
Theorem validatePassword_spec (password : string) :
  let v := security.validatePassword password in
  (security.isValid v = true <-> security.errors v = []) /\
  (security.isValid v = true <->
   (8 <= String.length password <= 128)%nat /\
   JS.test_class JS.isUpper password = true /\
   JS.test_class JS.isLower password = true /\
   JS.test_class JS.isDigit password = true /\
   JS.test_class security.isSpecial password = true) /\
  (In "Password is too common, please choose a different password"
      (security.errors v) ->
   In "Password must contain at least one special character (@$!%*?&)"
      (security.errors v)).
Proof.
  cbn zeta. unfold security.validatePassword.
  pose proof (forbidden_no_special password) as Hcommon.
  destruct (bool_decide (JS.toLowerCase password ∈
                         security.PASSWORD_REQUIREMENTS.forbiddenPasswords)) eqn:Hc.
  - apply bool_decide_eq_true in Hc. rewrite (Hcommon Hc).
    unfold security.PASSWORD_REQUIREMENTS.minLength,
      security.PASSWORD_REQUIREMENTS.maxLength.
    destruct (String.length password <? 8)%nat eqn:H1,
             (128 <? String.length password)%nat eqn:H2,
             (JS.test_class JS.isUpper password),
             (JS.test_class JS.isLower password),
             (JS.test_class JS.isDigit password);
      vm_compute; (split; [split; [discriminate|discriminate]|]);
      (split; [split; [discriminate|intros (_ & _ & _ & _ & H); discriminate H]|]);
      intros _; tauto.
  - clear Hcommon Hc.
    unfold security.PASSWORD_REQUIREMENTS.minLength,
      security.PASSWORD_REQUIREMENTS.maxLength.
    destruct (String.length password <? 8)%nat eqn:H1;
      [apply Nat.ltb_lt in H1|apply Nat.ltb_ge in H1];
      (destruct (128 <? String.length password)%nat eqn:H2;
       [apply Nat.ltb_lt in H2|apply Nat.ltb_ge in H2]);
      destruct (JS.test_class JS.isUpper password),
               (JS.test_class JS.isLower password),
               (JS.test_class JS.isDigit password),
               (JS.test_class security.isSpecial password);
      cbn -[Nat.le];
      (split; [split; first [discriminate|reflexivity]|]);
      (split;
       [split;
        [first [discriminate | intros _; repeat split; first [lia|reflexivity]]
        |first [reflexivity
               | intros ((A & B) & C & D & E & F);
                 first [lia | discriminate C | discriminate D | discriminate E
                       | discriminate F]]]
       |]);
      intros Hin; repeat (destruct Hin as [Hin|Hin]; [discriminate Hin|]);
      contradiction.
Qed.

(** X29.  [sanitizeInput] with the name rules removes no character: a
    text made of allowed characters only is replaced by the empty
    string, and any other text is returned as trimmed and cut to 50
    characters, so the result is never a non-empty text of allowed
    characters. *)
Theorem sanitizeInput_name_spec (input : string) :
  let cut := String.substring 0 50 (JS.trim input) in
  let out := security.sanitizeInput input security.SANITIZATION_RULES.name in
  (JS.test_all security.SANITIZATION_RULES.nameChars cut = true -> out = ""%string) /\
  (JS.test_all security.SANITIZATION_RULES.nameChars cut = false -> out = cut) /\
  (forallb security.SANITIZATION_RULES.nameChars (list_ascii_of_string out) = true ->
   out = ""%string).
Proof.
  cbn zeta. unfold security.sanitizeInput.
  cbn [security.maxLength security.allowedChars security.normalize
       security.SANITIZATION_RULES.name Nat.eqb].
  generalize (String.substring 0 50 (JS.trim input)). intros cut.
  destruct (JS.test_all security.SANITIZATION_RULES.nameChars cut) eqn:Ht.
  - repeat split; first [reflexivity | discriminate].
  - split; [discriminate|]. split; [reflexivity|].
    intros Hall. unfold JS.test_all in Ht. rewrite Hall, andb_true_r in Ht.
    apply negb_false_iff, String.eqb_eq in Ht. exact Ht.
Qed.

End Security.
